(** * CalenderBookAI: the booking agent and its calendar service

    A shallow embedding of [backend/agent.py],
    [backend/calendar_service.py] and the two POST endpoints of
    [backend/main.py].

    Conventions of the embedding.
    - Python [str] values are [string]s; the text functions ([lower],
      [strip], the regular expressions) are the ASCII restrictions of
      their Python counterparts.
    - A naive [datetime] is the number of microseconds since the midnight
      that precedes proleptic Gregorian ordinal 1; the year range check of
      CPython (years 1 to 9999) is not modelled.
    - [datetime.now()] reads a clock that is a sequence of readings; the
      position in the sequence is part of the state.
    - Exceptions are values of [exc]; [try ... except Exception] is
      [try_except], and [try_catch] for computations on the world, where
      the changes made before the exception stay.
    - The text-completion service and the calendar provider are fields of
      an environment record, as is the conversion of a local time to a
      timestamp.
    - The record of the calls of [create_event] is kept in the world; it
      is what the statements about created events speak of. *)

From Stdlib Require Import ZArith Lia String Ascii List Bool.
From stdpp Require Import gmap strings sorting.

Local Open Scope string_scope.
Local Open Scope Z_scope.

(** ** Python strings *)

Module PyStr.

Definition dq : string := String "034"%char EmptyString.
Definition nl : string := String "010"%char EmptyString.

Definition is_upper (c : ascii) : bool :=
  let n := nat_of_ascii c in (65 <=? n)%nat && (n <=? 90)%nat.

Definition is_lower (c : ascii) : bool :=
  let n := nat_of_ascii c in (97 <=? n)%nat && (n <=? 122)%nat.

Definition is_digit (c : ascii) : bool :=
  let n := nat_of_ascii c in (48 <=? n)%nat && (n <=? 57)%nat.

(** [str.isspace] on one ASCII character: tab to carriage return, the
    four separators 28 to 31, and the space. *)
Definition is_space (c : ascii) : bool :=
  let n := nat_of_ascii c in
  ((9 <=? n)%nat && (n <=? 13)%nat) || ((28 <=? n)%nat && (n <=? 32)%nat).

(** A word character of [re]: a letter, a digit or the underscore. *)
Definition is_word (c : ascii) : bool :=
  is_upper c || is_lower c || is_digit c || Ascii.eqb c "_"%char.

Definition lower_char (c : ascii) : ascii :=
  if is_upper c then ascii_of_nat (nat_of_ascii c + 32) else c.

Definition upper_char (c : ascii) : ascii :=
  if is_lower c then ascii_of_nat (nat_of_ascii c - 32) else c.

Fixpoint lower (s : string) : string :=
  match s with
  | EmptyString => EmptyString
  | String c s' => String (lower_char c) (lower s')
  end.

(** [str.capitalize]: first character upper-cased, the rest lower-cased. *)
Definition capitalize (s : string) : string :=
  match s with
  | EmptyString => EmptyString
  | String c s' => String (upper_char c) (lower s')
  end.

Fixpoint startswith (p s : string) : bool :=
  match p, s with
  | EmptyString, _ => true
  | String a p', String b s' => Ascii.eqb a b && startswith p' s'
  | String _ _, EmptyString => false
  end.

(** [needle in hay]. *)
Fixpoint contains (needle hay : string) : bool :=
  startswith needle hay ||
  match hay with
  | EmptyString => false
  | String _ hay' => contains needle hay'
  end.

(** [c in s] for one character [c]. *)
Fixpoint has_char (c : ascii) (s : string) : bool :=
  match s with
  | EmptyString => false
  | String x s' => Ascii.eqb x c || has_char c s'
  end.

(** [any(word in s for word in words)]. *)
Definition any_in (words : list string) (s : string) : bool :=
  existsb (fun w => contains w s) words.

Fixpoint rev_string (s acc : string) : string :=
  match s with
  | EmptyString => acc
  | String c s' => rev_string s' (String c acc)
  end.

Definition endswith (p s : string) : bool :=
  startswith (rev_string p "") (rev_string s "").

Fixpoint lstrip (s : string) : string :=
  match s with
  | EmptyString => EmptyString
  | String c s' => if is_space c then lstrip s' else s
  end.

Definition rstrip (s : string) : string :=
  rev_string (lstrip (rev_string s "")) "".

Definition strip (s : string) : string := rstrip (lstrip s).

(** [s[n:]] and [s[:-n]] for a non-negative literal [n]. *)
Fixpoint drop_front (n : nat) (s : string) : string :=
  match n, s with
  | O, _ => s
  | S n', String _ s' => drop_front n' s'
  | S _, EmptyString => EmptyString
  end.

Definition drop_back (n : nat) (s : string) : string :=
  rev_string (drop_front n (rev_string s "")) "".

(** [s.split(sep)] for a separator of one character. *)
Fixpoint split_on (sep : ascii) (s : string) (cur : string) : list string :=
  match s with
  | EmptyString => [rev_string cur ""]
  | String c s' =>
      if Ascii.eqb c sep then rev_string cur "" :: split_on sep s' ""
      else split_on sep s' (String c cur)
  end.

Definition split (sep : ascii) (s : string) : list string := split_on sep s "".

(** The text before the first occurrence of [sep] (all of [s] when there
    is none): the first element of [s.split(sep)]. *)
Fixpoint before (sep : ascii) (s : string) : string :=
  match s with
  | EmptyString => EmptyString
  | String c s' => if Ascii.eqb c sep then EmptyString else String c (before sep s')
  end.

Fixpoint join (l : list string) : string :=
  match l with
  | [] => EmptyString
  | x :: l' => x +:+ join l'
  end.

(** Decimal text of a non-negative number, as [str(n)] prints it. *)
Fixpoint digits_of (fuel : nat) (n : Z) (acc : string) : string :=
  match fuel with
  | O => acc
  | S f =>
      let acc' := String (ascii_of_nat (48 + Z.to_nat (n mod 10))) acc in
      if n <? 10 then acc' else digits_of f (n / 10) acc'
  end.

Definition str_of_Z (n : Z) : string :=
  if n <? 0 then "-" +:+ digits_of (S (Z.to_nat (Z.log2 (- n)))) (- n) ""
  else digits_of (S (Z.to_nat (Z.log2 n))) n "".

(** [f"{n:0wd}"] for a non-negative [n]. *)
Fixpoint zeros (k : nat) : string :=
  match k with O => "" | S k' => "0" +:+ zeros k' end.

Definition pad (w : nat) (n : Z) : string :=
  let d := str_of_Z n in zeros (w - String.length d) +:+ d.

(** [int(s)] on a run of ASCII digits. *)
Fixpoint int_of_digits (s : string) (acc : Z) : Z :=
  match s with
  | EmptyString => acc
  | String c s' => int_of_digits s' (10 * acc + Z.of_nat (nat_of_ascii c - 48))
  end.

End PyStr.

(** ** Exceptions *)

Inductive exn : Type :=
| ValueError | TypeError | AttributeError | KeyError
| IndexError | JSONDecodeError | ServiceError.

Inductive exc (A : Type) : Type :=
| Ret (a : A)
| Raise (e : exn).

Arguments Ret {A} a.
Arguments Raise {A} e.

Definition exc_bind {A B : Type} (m : exc A) (k : A -> exc B) : exc B :=
  match m with
  | Ret a => k a
  | Raise e => Raise e
  end.

(** [try: body except Exception: handler]. *)
Definition try_except {A : Type} (body : exc A) (handler : exn -> exc A) : exc A :=
  match body with
  | Ret a => Ret a
  | Raise e => handler e
  end.

Definition returns {A : Type} (m : exc A) : bool :=
  match m with Ret _ => true | Raise _ => false end.

(** ** The regular expressions of the agent

    A backtracking matcher with greedy quantifiers, as [re] runs them.
    The subject is scanned from left to right; a match state holds the
    character before the cursor (for [\b]), the text after the cursor and
    the groups captured so far. *)

Module Re.
Import PyStr.

Inductive regex : Type :=
| Eps
| Cls (p : ascii -> bool)
| Seq (r1 r2 : regex)
| Alt (r1 r2 : regex)
| Opt (r : regex)
| Star (p : ascii -> bool)
| Grp (n : nat) (r : regex)
| WordB.

Fixpoint lit (s : string) : regex :=
  match s with
  | EmptyString => Eps
  | String c s' => Seq (Cls (Ascii.eqb c)) (lit s')
  end.

Fixpoint alts (l : list string) : regex :=
  match l with
  | [] => Cls (fun _ => false)
  | [w] => lit w
  | w :: l' => Alt (lit w) (alts l')
  end.

Record mstate : Type := MState {
  prev : option ascii;
  rest : string;
  caps : list (nat * string)
}.

Fixpoint take (n : nat) (s : string) : string :=
  match n, s with
  | S n', String c s' => String c (take n' s')
  | _, _ => EmptyString
  end.

(** The text consumed between the subject [s] and its suffix [s']. *)
Definition taken (s s' : string) : string :=
  take (String.length s - String.length s') s.

Definition at_boundary (st : mstate) : bool :=
  xorb (match prev st with Some c => is_word c | None => false end)
       (match rest st with String c _ => is_word c | EmptyString => false end).

Fixpoint star (p : ascii -> bool) (k : mstate -> option mstate)
    (pv : option ascii) (s : string) (cs : list (nat * string)) : option mstate :=
  match s with
  | String c s' =>
      if p c then
        match star p k (Some c) s' cs with
        | Some r => Some r
        | None => k (MState pv s cs)
        end
      else k (MState pv s cs)
  | EmptyString => k (MState pv s cs)
  end.

Fixpoint run (r : regex) (st : mstate) (k : mstate -> option mstate) : option mstate :=
  match r with
  | Eps => k st
  | Cls p =>
      match rest st with
      | String c s' => if p c then k (MState (Some c) s' (caps st)) else None
      | EmptyString => None
      end
  | Seq r1 r2 => run r1 st (fun st' => run r2 st' k)
  | Alt r1 r2 =>
      match run r1 st k with
      | Some x => Some x
      | None => run r2 st k
      end
  | Opt r1 =>
      match run r1 st k with
      | Some x => Some x
      | None => k st
      end
  | Star p => star p k (prev st) (rest st) (caps st)
  | Grp n r1 =>
      run r1 st (fun st' =>
        k (MState (prev st') (rest st') ((n, taken (rest st) (rest st')) :: caps st')))
  | WordB => if at_boundary st then k st else None
  end.

(** A match object: the matched text ([group()]) and the groups. *)
Record rmatch : Type := RMatch {
  whole : string;
  groups : list (nat * string)
}.

Fixpoint search_from (r : regex) (pv : option ascii) (s : string) : option rmatch :=
  match run r (MState pv s []) Some with
  | Some st' => Some (RMatch (taken s (rest st')) (caps st'))
  | None =>
      match s with
      | String c s' => search_from r (Some c) s'
      | EmptyString => None
      end
  end.

(** [re.search(r, s)]. *)
Definition search (r : regex) (s : string) : option rmatch := search_from r None s.

(** [m.group(n)] for a group that took part in the match. *)
Fixpoint group_in (n : nat) (cs : list (nat * string)) : string :=
  match cs with
  | [] => EmptyString
  | (i, t) :: cs' => if Nat.eqb i n then t else group_in n cs'
  end.

Definition group (m : rmatch) (n : nat) : string := group_in n (groups m).

Definition digit : regex := Cls is_digit.
Definition spaces : regex := Star is_space.
Definition am_pm : regex := Alt (lit "am") (lit "pm").

(** [(\d{1,2}):?(\d{0,2})\s*(am|pm)] *)
Definition clock_pattern : regex :=
  Seq (Grp 1 (Seq digit (Opt digit)))
 (Seq (Opt (lit ":"))
 (Seq (Grp 2 (Opt (Seq digit (Opt digit))))
 (Seq spaces (Grp 3 am_pm)))).

(** [(morning|afternoon|evening)] *)
Definition daypart_pattern : regex := Grp 1 (alts ["morning"; "afternoon"; "evening"]).

(** [(noon|midnight)] *)
Definition noon_pattern : regex := Grp 1 (alts ["noon"; "midnight"]).

(** [(today|tomorrow)] *)
Definition relative_day_pattern : regex := Grp 1 (alts ["today"; "tomorrow"]).

(** [(monday|tuesday|wednesday|thursday|friday|saturday|sunday)] *)
Definition weekday_pattern : regex :=
  Grp 1 (alts ["monday"; "tuesday"; "wednesday"; "thursday"; "friday"; "saturday"; "sunday"]).

(** [next\s+(week|monday|tuesday|wednesday|thursday|friday)] *)
Definition next_pattern : regex :=
  Seq (lit "next")
 (Seq (Cls is_space)
 (Seq spaces
      (Grp 1 (alts ["week"; "monday"; "tuesday"; "wednesday"; "thursday"; "friday"])))).

(** [(\d{1,2})\s*(am|pm)] *)
Definition hour_pattern : regex :=
  Seq (Grp 1 (Seq digit (Opt digit))) (Seq spaces (Grp 2 am_pm)).

Definition one_two_three (c : ascii) : bool :=
  Ascii.eqb c "1" || Ascii.eqb c "2" || Ascii.eqb c "3".

(** [\b([123])\b]; the agent first tests [\b[123]\b], which matches the
    same texts. *)
Definition slot_number_pattern : regex :=
  Seq WordB (Seq (Grp 1 (Cls one_two_three)) WordB).

Definition slot_test_pattern : regex :=
  Seq WordB (Seq (Cls one_two_three) WordB).

End Re.

(** ** Naive datetimes *)

Module DateTime.
Import PyStr.

Definition datetime : Type := Z.

Definition us_second : Z := 1000000.
Definition us_minute : Z := 60 * us_second.
Definition us_hour : Z := 60 * us_minute.
Definition us_day : Z := 24 * us_hour.

Definition toordinal (t : datetime) : Z := t / us_day.
Definition time_of_day (t : datetime) : Z := t mod us_day.
Definition hour (t : datetime) : Z := time_of_day t / us_hour.
Definition minute (t : datetime) : Z := (time_of_day t mod us_hour) / us_minute.
Definition second (t : datetime) : Z := (time_of_day t mod us_minute) / us_second.
Definition microsecond (t : datetime) : Z := t mod us_second.

(** Monday is 0, as [datetime.weekday()] has it. *)
Definition weekday (t : datetime) : Z := (toordinal t + 6) mod 7.

(** [t.replace(hour=h, minute=m, second=0, microsecond=0)]. *)
Definition replace (t : datetime) (h m : Z) : exc datetime :=
  if (0 <=? h) && (h <? 24) && (0 <=? m) && (m <? 60)
  then Ret (toordinal t * us_day + h * us_hour + m * us_minute)
  else Raise ValueError.

Definition add_days (t : datetime) (d : Z) : datetime := t + d * us_day.
Definition add_hours (t : datetime) (h : Z) : datetime := t + h * us_hour.
Definition add_minutes (t : datetime) (m : Z) : datetime := t + m * us_minute.

Definition is_leap (y : Z) : bool :=
  (y mod 4 =? 0) && (negb (y mod 100 =? 0) || (y mod 400 =? 0)).

Definition days_in_month (y m : Z) : Z :=
  if m =? 2 then (if is_leap y then 29 else 28)
  else if (m =? 4) || (m =? 6) || (m =? 9) || (m =? 11) then 30 else 31.

Definition days_before_month_table : list Z :=
  [0; 0; 31; 59; 90; 120; 151; 181; 212; 243; 273; 304; 334].

Definition days_before_month (y m : Z) : Z :=
  nth (Z.to_nat m) days_before_month_table 0
  + (if (2 <? m) && is_leap y then 1 else 0).

Definition days_before_year (y : Z) : Z :=
  let y1 := y - 1 in y1 * 365 + y1 / 4 - y1 / 100 + y1 / 400.

(** [_ymd2ord] of CPython. *)
Definition ymd2ord (y m d : Z) : Z :=
  days_before_year y + days_before_month y m + d.

(** [_ord2ymd] of CPython. *)
Definition ord2ymd (ord : Z) : Z * Z * Z :=
  let n := ord - 1 in
  let n400 := n / 146097 in
  let n := n mod 146097 in
  let year := n400 * 400 + 1 in
  let n100 := n / 36524 in
  let n := n mod 36524 in
  let n4 := n / 1461 in
  let n := n mod 1461 in
  let n1 := n / 365 in
  let n := n mod 365 in
  let year := year + n100 * 100 + n4 * 4 + n1 in
  if (n1 =? 4) || (n100 =? 4) then (year - 1, 12, 31)
  else
    let leapyear := (n1 =? 3) && (negb (n4 =? 24) || (n100 =? 3)) in
    let month := (n + 50) / 32 in
    let preceding :=
      nth (Z.to_nat month) days_before_month_table 0
      + (if (2 <? month) && leapyear then 1 else 0) in
    if n <? preceding then
      let month' := month - 1 in
      let dim :=
        (if month' =? 2 then (if leapyear then 29 else 28)
         else if (month' =? 4) || (month' =? 6) || (month' =? 9) || (month' =? 11)
              then 30 else 31) in
      (year, month', n - (preceding - dim) + 1)
    else (year, month, n - preceding + 1).

Definition month_names : list string :=
  [""; "January"; "February"; "March"; "April"; "May"; "June"; "July";
   "August"; "September"; "October"; "November"; "December"].

(** [t.strftime('%I:%M %p')]. *)
Definition strftime_clock (t : datetime) : string :=
  let h := hour t in
  let h12 := if h mod 12 =? 0 then 12 else h mod 12 in
  pad 2 h12 +:+ ":" +:+ pad 2 (minute t) +:+ " " +:+ (if h <? 12 then "AM" else "PM").

(** [t.strftime('%B %d, %Y at %I:%M %p')]. *)
Definition strftime_long (t : datetime) : string :=
  let '(y, m, d) := ord2ymd (toordinal t) in
  nth (Z.to_nat m) month_names "" +:+ " " +:+ pad 2 d +:+ ", " +:+ str_of_Z y
  +:+ " at " +:+ strftime_clock t.

(** [t.isoformat()]. *)
Definition isoformat (t : datetime) : string :=
  let '(y, m, d) := ord2ymd (toordinal t) in
  pad 4 y +:+ "-" +:+ pad 2 m +:+ "-" +:+ pad 2 d +:+ "T"
  +:+ pad 2 (hour t) +:+ ":" +:+ pad 2 (minute t) +:+ ":" +:+ pad 2 (second t)
  +:+ (if microsecond t =? 0 then "" else "." +:+ pad 6 (microsecond t)).

Fixpoint read_digits (n : nat) (s : string) (acc : Z) : option (Z * string) :=
  match n with
  | O => Some (acc, s)
  | S n' =>
      match s with
      | String c s' =>
          if is_digit c
          then read_digits n' s' (10 * acc + Z.of_nat (nat_of_ascii c - 48))
          else None
      | EmptyString => None
      end
  end.

Definition expect (c : ascii) (s : string) : option string :=
  match s with
  | String c' s' => if Ascii.eqb c c' then Some s' else None
  | EmptyString => None
  end.

(** [datetime.fromisoformat] on the two shapes [isoformat] writes for a
    naive datetime, [YYYY-MM-DDTHH:MM:SS] and the same with six digits of
    microseconds.  Any other text is reported as a [ValueError]; a
    session only ever holds text written by [isoformat]. *)
Definition parse_iso (s : string) : option datetime :=
  '(y, s) ← read_digits 4 s 0;
  s ← expect "-" s;
  '(m, s) ← read_digits 2 s 0;
  s ← expect "-" s;
  '(d, s) ← read_digits 2 s 0;
  s ← expect "T" s;
  '(hh, s) ← read_digits 2 s 0;
  s ← expect ":" s;
  '(mm, s) ← read_digits 2 s 0;
  s ← expect ":" s;
  '(ss, s) ← read_digits 2 s 0;
  '(us, s) ← match s with
             | String "." s' => read_digits 6 s' 0
             | _ => Some (0, s)
             end;
  if (1 <=? y) && (1 <=? m) && (m <=? 12) && (1 <=? d) && (d <=? days_in_month y m)
     && (hh <? 24) && (mm <? 60) && (ss <? 60) && (String.length s =? 0)%nat
  then Some (ymd2ord y m d * us_day + hh * us_hour + mm * us_minute + ss * us_second + us)
  else None.

Definition fromisoformat (s : string) : exc datetime :=
  match parse_iso s with
  | Some t => Ret t
  | None => Raise ValueError
  end.

(** [s.replace('Z', '+00:00')]. *)
Fixpoint replace_Z (s : string) : string :=
  match s with
  | EmptyString => EmptyString
  | String c s' =>
      if Ascii.eqb c "Z" then "+00:00" +:+ replace_Z s' else String c (replace_Z s')
  end.

End DateTime.

(** ** JSON values and Python dictionaries

    The dictionaries of the agent (extracted information) hold scalars.
    [loads] reads the JSON texts whose value is a scalar or an object of
    scalars, with integers for numbers and the one-character escapes in
    strings; this covers every text [dumps] writes.  A text with a nested
    container, a fraction, an exponent or a [\u] escape is outside the
    embedding and is reported like a malformed one. *)

Module Json.
Import PyStr.

Inductive scalar : Type :=
| JNull
| JBool (b : bool)
| JNum (n : Z)
| JStr (s : string).

(** A [dict] in insertion order. *)
Definition dict : Type := list (string * scalar).

Inductive json : Type :=
| JScalar (v : scalar)
| JObject (d : dict).

Fixpoint dict_get (k : string) (d : dict) : option scalar :=
  match d with
  | [] => None
  | (k', v) :: d' => if String.eqb k k' then Some v else dict_get k d'
  end.

(** [d[k] = v]. *)
Fixpoint dict_set (k : string) (v : scalar) (d : dict) : dict :=
  match d with
  | [] => [(k, v)]
  | (k', v') :: d' =>
      if String.eqb k k' then (k', v) :: d' else (k', v') :: dict_set k v d'
  end.

(** [d.get(k, default)]. *)
Definition get_default (k : string) (default : scalar) (d : dict) : scalar :=
  match dict_get k d with
  | Some v => v
  | None => default
  end.

(** Truth value of a scalar, as [if v:] tests it. *)
Definition truthy (v : scalar) : bool :=
  match v with
  | JNull => false
  | JBool b => b
  | JNum n => negb (n =? 0)
  | JStr s => negb (String.eqb s "")
  end.

(** [str(v)], as an f-string formats it. *)
Definition py_str (v : scalar) : string :=
  match v with
  | JNull => "None"
  | JBool true => "True"
  | JBool false => "False"
  | JNum n => str_of_Z n
  | JStr s => s
  end.

(** A method of [str] called on a value that may not be one. *)
Definition as_str (v : scalar) : exc string :=
  match v with
  | JStr s => Ret s
  | _ => Raise AttributeError
  end.

Definition dumps_scalar (v : scalar) : string :=
  match v with
  | JNull => "null"
  | JBool true => "true"
  | JBool false => "false"
  | JNum n => str_of_Z n
  | JStr s => dq +:+ s +:+ dq
  end.

Fixpoint dumps_members (d : dict) : string :=
  match d with
  | [] => ""
  | [(k, v)] => dq +:+ k +:+ dq +:+ ": " +:+ dumps_scalar v
  | (k, v) :: d' => dq +:+ k +:+ dq +:+ ": " +:+ dumps_scalar v +:+ ", " +:+ dumps_members d'
  end.

(** [json.dumps(d)]; the strings the agent serialises contain no
    character that JSON escapes. *)
Definition dumps (d : dict) : string := "{" +:+ dumps_members d +:+ "}".

Definition is_json_ws (c : ascii) : bool :=
  Ascii.eqb c " " || Ascii.eqb c "009" || Ascii.eqb c "010" || Ascii.eqb c "013".

Fixpoint skip_ws (s : string) : string :=
  match s with
  | String c s' => if is_json_ws c then skip_ws s' else s
  | EmptyString => s
  end.

Definition unescape (c : ascii) : option ascii :=
  if Ascii.eqb c "034" then Some "034"%char
  else if Ascii.eqb c "\" then Some "\"%char
  else if Ascii.eqb c "/" then Some "/"%char
  else if Ascii.eqb c "b" then Some "008"%char
  else if Ascii.eqb c "f" then Some "012"%char
  else if Ascii.eqb c "n" then Some "010"%char
  else if Ascii.eqb c "r" then Some "013"%char
  else if Ascii.eqb c "t" then Some "009"%char
  else None.

(** The text of a string after its opening quote. *)
Fixpoint read_string (s : string) (acc : string) : option (string * string) :=
  match s with
  | EmptyString => None
  | String c s' =>
      if Ascii.eqb c "034" then Some (rev_string acc "", s')
      else if Ascii.eqb c "\" then
        match s' with
        | String e s'' =>
            match unescape e with
            | Some ch => read_string s'' (String ch acc)
            | None => None
            end
        | EmptyString => None
        end
      else if (nat_of_ascii c <? 32)%nat then None
      else read_string s' (String c acc)
  end.

Fixpoint read_number (s : string) (acc : Z) : Z * string :=
  match s with
  | String c s' =>
      if is_digit c then read_number s' (10 * acc + Z.of_nat (nat_of_ascii c - 48))
      else (acc, s)
  | EmptyString => (acc, s)
  end.

Definition starts_fraction (s : string) : bool :=
  match s with
  | String c _ => Ascii.eqb c "." || Ascii.eqb c "e" || Ascii.eqb c "E"
  | EmptyString => false
  end.

(** An optional minus sign, then a zero or a run of digits without a
    leading zero, not followed by a fraction or an exponent. *)
Definition read_integer (s : string) : option (Z * string) :=
  let '(neg, s1) := match s with
                    | String "-" s' => (true, s')
                    | _ => (false, s)
                    end in
  match s1 with
  | String c s2 =>
      if Ascii.eqb c "0" then
        if starts_fraction s2 then None else Some (0, s2)
      else if is_digit c then
        let '(n, s3) := read_number s1 0 in
        if starts_fraction s3 then None else Some (if neg then - n else n, s3)
      else None
  | EmptyString => None
  end.

Definition read_word (w : string) (v : scalar) (s : string) : option (scalar * string) :=
  if startswith w s then Some (v, drop_front (String.length w) s) else None.

Definition read_scalar (s : string) : option (scalar * string) :=
  match s with
  | String c s' =>
      if Ascii.eqb c "034" then
        '(t, r) ← read_string s' ""; Some (JStr t, r)
      else if Ascii.eqb c "t" then read_word "true" (JBool true) s
      else if Ascii.eqb c "f" then read_word "false" (JBool false) s
      else if Ascii.eqb c "n" then read_word "null" JNull s
      else '(n, r) ← read_integer s; Some (JNum n, r)
  | EmptyString => None
  end.

(** The members of an object, the cursor being on the quote of a key. *)
Fixpoint read_members (fuel : nat) (s : string) (d : dict) : option (dict * string) :=
  match fuel with
  | O => None
  | S fuel' =>
      s ← DateTime.expect "034" s;
      '(k, s) ← read_string s "";
      s ← DateTime.expect ":" (skip_ws s);
      '(v, s) ← read_scalar (skip_ws s);
      let d' := dict_set k v d in
      match skip_ws s with
      | String c s' =>
          if Ascii.eqb c "," then read_members fuel' (skip_ws s') d'
          else if Ascii.eqb c "}" then Some (d', s')
          else None
      | EmptyString => None
      end
  end.

Definition read_json (s : string) : option json :=
  let s := skip_ws s in
  '(v, r) ← match s with
            | String "{" s' =>
                match skip_ws s' with
                | String "}" s'' => Some (JObject [], s'')
                | s1 => '(d, r) ← read_members (String.length s1) s1 []; Some (JObject d, r)
                end
            | _ => '(v, r) ← read_scalar s; Some (JScalar v, r)
            end;
  match skip_ws r with
  | EmptyString => Some v
  | String _ _ => None
  end.

(** [json.loads(s)]. *)
Definition loads (s : string) : exc json :=
  match read_json s with
  | Some v => Ret v
  | None => Raise JSONDecodeError
  end.

(** [v.get(k)] on the value [loads] returned: only a dictionary has the
    method. *)
Definition as_dict (v : json) : exc dict :=
  match v with
  | JObject d => Ret d
  | JScalar _ => Raise AttributeError
  end.

End Json.

(** ** Sessions, the world and the collaborators *)

Import PyStr DateTime Json.

Record Message : Type := { role : string; content : string }.

(** A slot as the agent offers it: ISO texts, a display text, a flag. *)
Record Slot : Type := {
  start_time : string;
  end_time : string;
  display : string;
  available : bool
}.

Record Session : Type := {
  messages : list Message;
  user_intent : string;
  extracted_info : dict;
  available_slots : list Slot;
  booking_confirmed : bool;
  session_id : string
}.

(** A slot as the calendar service returns it. *)
Record CalSlot : Type := {
  slot_start : datetime;
  slot_end : datetime;
  slot_available : bool;
  slot_title : string
}.

(** One call of [create_event]. *)
Record EventCall : Type := {
  call_title : string;
  call_start : datetime;
  call_end : datetime;
  call_description : string;
  call_attendees : list string
}.

(** What [create_event] returns; the [event_details] entry, which the
    agent never reads, is left out. *)
Record EventResult : Type := {
  success : bool;
  event_id : string;
  event_link : option string;
  message : string
}.

(** The time of a provider event as [datetime.fromisoformat] returns it:
    an aware instant when the text carries an offset, a naive datetime
    for an all-day date, or no datetime at all. *)
Inductive EventTime : Type :=
| Aware (instant : Z)
| Naive (t : datetime)
| Unparsable.

Record GEvent : Type := { g_start : EventTime; g_end : EventTime }.

(** The resource the provider returns for an inserted event. *)
Record CreatedEvent : Type := { ce_id : option string; ce_htmlLink : option string }.

Record Env : Type := {
  (** [LLM_AVAILABLE and model] *)
  llm_available : bool;
  (** [model.generate_content(prompt).text] *)
  generate_content : string -> exc string;
  (** [self.mock_mode] *)
  mock_mode : bool;
  (** [service.events().list(timeMin, timeMax).execute().get('items', [])] *)
  events_list : string -> string -> exc (list GEvent);
  (** [service.events().insert(body).execute()] *)
  events_insert : EventCall -> exc CreatedEvent;
  (** the successive readings of [datetime.now()] *)
  clock : nat -> datetime;
  (** [int(t.timestamp())], which depends on the local time zone *)
  timestamp : datetime -> Z
}.

Record World : Type := {
  sessions : gmap string Session;
  (** the calls of [create_event] so far, oldest first *)
  created : list EventCall;
  (** how many times the clock has been read *)
  tick : nat
}.

(** Computations that read and change the world and may raise; the
    changes made before an exception stay. *)
Definition M (A : Type) : Type := World -> exc A * World.

Definition ret {A : Type} (a : A) : M A := fun w => (Ret a, w).

Definition raise {A : Type} (e : exn) : M A := fun w => (Raise e, w).

Definition bind {A B : Type} (m : M A) (k : A -> M B) : M B :=
  fun w =>
    match m w with
    | (Ret a, w') => k a w'
    | (Raise e, w') => (Raise e, w')
    end.

Definition lift {A : Type} (m : exc A) : M A := fun w => (m, w).

Definition try_catch {A : Type} (body : M A) (handler : exn -> M A) : M A :=
  fun w =>
    match body w with
    | (Ret a, w') => (Ret a, w')
    | (Raise e, w') => handler e w'
    end.

Declare Scope m_scope.
Delimit Scope m_scope with M.
Notation "'let*' x ':=' m 'in' k" := (bind m (fun x => k))
  (at level 10, x pattern, m at level 100, k at level 200) : m_scope.
Notation "'let?' x ':=' m 'in' k" := (exc_bind m (fun x => k))
  (at level 10, x pattern, m at level 100, k at level 200) : m_scope.
Local Open Scope m_scope.

Definition set_sessions (s : gmap string Session) (w : World) : World :=
  {| sessions := s; created := created w; tick := tick w |}.

Definition record_call (c : EventCall) : M unit :=
  fun w => (Ret tt, {| sessions := sessions w; created := created w ++ [c]; tick := tick w |}).

(** ** calendar_service.py *)

Module GoogleCalendarService.

Section Service.
Variable env : Env.

(** [datetime.now()] *)
Definition now : M datetime :=
  fun w => (Ret (clock env (tick w)),
            {| sessions := sessions w; created := created w; tick := S (tick w) |}).

Definition default_working_hours : Z * Z := (9, 17).

Definition slot_title_of (duration_minutes : Z) : string :=
  "Available " +:+ str_of_Z duration_minutes +:+ "min slot".

Fixpoint mock_slots_loop (date : datetime) (duration_minutes end_hour : Z)
    (slot_times : list Z) (available_slots : list CalSlot) : M (list CalSlot) :=
  match slot_times with
  | [] => ret available_slots
  | hour :: slot_times' =>
      if hour <? end_hour then
        let* slot_start := lift (replace date hour 0) in
        let slot_end := add_minutes slot_start duration_minutes in
        let* t := now in
        if t <? slot_start then
          mock_slots_loop date duration_minutes end_hour slot_times'
            (available_slots ++
             [{| slot_start := slot_start; slot_end := slot_end;
                 slot_available := true; slot_title := slot_title_of duration_minutes |}])
        else mock_slots_loop date duration_minutes end_hour slot_times' available_slots
      else mock_slots_loop date duration_minutes end_hour slot_times' available_slots
  end.

Definition _get_mock_available_slots (date : datetime) (duration_minutes : Z)
    (working_hours : Z * Z) : M (list CalSlot) :=
  let '(start_hour, end_hour) := working_hours in
  let* current_time := lift (replace date start_hour 0) in
  let* end_time := lift (replace date end_hour 0) in
  let* available_slots :=
    mock_slots_loop date duration_minutes end_hour [9; 11; 14; 16] [] in
  ret (firstn 3 available_slots).

(** [naive < other] and [naive > other]: comparing a naive datetime with
    an aware one raises [TypeError]. *)
Definition naive_lt (a : datetime) (b : EventTime) : exc bool :=
  match b with
  | Naive t => Ret (a <? t)
  | Aware _ => Raise TypeError
  | Unparsable => Raise ValueError
  end.

Definition naive_gt (a : datetime) (b : EventTime) : exc bool :=
  match b with
  | Naive t => Ret (t <? a)
  | Aware _ => Raise TypeError
  | Unparsable => Raise ValueError
  end.

Definition parsed (x : EventTime) : exc EventTime :=
  match x with
  | Unparsable => Raise ValueError
  | _ => Ret x
  end.

(** The inner [for event in events] loop: [is_available]. *)
Fixpoint no_conflict (events : list GEvent) (current_time slot_end : datetime) : exc bool :=
  match events with
  | [] => Ret true
  | event :: events' =>
      let? event_start := parsed (g_start event) in
      let? event_end := parsed (g_end event) in
      let? before_end := naive_lt current_time event_end in
      if before_end then
        let? after_start := naive_gt slot_end event_start in
        if after_start then Ret false
        else no_conflict events' current_time slot_end
      else no_conflict events' current_time slot_end
  end.

(** The [while] loop; [rounds] bounds the number of iterations. *)
Fixpoint real_slots_loop (rounds : nat) (events : list GEvent) (duration_minutes : Z)
    (day_end current_time : datetime) (available_slots : list CalSlot)
    : M (list CalSlot) :=
  match rounds with
  | O => ret available_slots
  | S rounds' =>
      if add_minutes current_time duration_minutes <=? day_end then
        let slot_end := add_minutes current_time duration_minutes in
        let* is_available := lift (no_conflict events current_time slot_end) in
        let* keep :=
          (if is_available : bool
           then let* t := now in ret (t <? current_time)
           else ret false) in
        real_slots_loop rounds' events duration_minutes day_end
          (add_minutes current_time 30)
          (if keep : bool then
             available_slots ++
             [{| slot_start := current_time; slot_end := slot_end;
                 slot_available := true; slot_title := slot_title_of duration_minutes |}]
           else available_slots)
      else ret available_slots
  end.

(** The number of times the [while] condition can hold. *)
Definition rounds_needed (duration_minutes : Z) (day_start day_end : datetime) : nat :=
  Z.to_nat ((day_end - add_minutes day_start duration_minutes) / (30 * us_minute) + 1).

Definition _get_real_available_slots (date : datetime) (duration_minutes : Z)
    (working_hours : Z * Z) : M (list CalSlot) :=
  let '(start_hour, end_hour) := working_hours in
  let* day_start := lift (replace date start_hour 0) in
  let* day_end := lift (replace date end_hour 0) in
  let* events :=
    lift (events_list env (isoformat day_start +:+ "Z") (isoformat day_end +:+ "Z")) in
  let* available_slots :=
    real_slots_loop (rounds_needed duration_minutes day_start day_end)
      events duration_minutes day_end day_start [] in
  ret (firstn 5 available_slots).

Definition get_available_slots (date : datetime) (duration_minutes : Z)
    (working_hours : Z * Z) : M (list CalSlot) :=
  if mock_mode env then _get_mock_available_slots date duration_minutes working_hours
  else
    try_catch (_get_real_available_slots date duration_minutes working_hours)
      (fun _ => _get_mock_available_slots date duration_minutes working_hours).

Definition _create_mock_event (c : EventCall) : M EventResult :=
  let event_id := "mock_event_" +:+ str_of_Z (timestamp env (call_start c)) in
  ret {| success := true;
         event_id := event_id;
         event_link := Some ("https://calendar.google.com/calendar/event?eid=" +:+ event_id);
         message := "✅ Mock event '" +:+ call_title c +:+ "' created for "
                    +:+ strftime_long (call_start c) |}.

Definition _create_real_event (c : EventCall) : M EventResult :=
  let* created_event := lift (events_insert env c) in
  match ce_id created_event with
  | Some id =>
      ret {| success := true;
             event_id := id;
             event_link := ce_htmlLink created_event;
             message := "✅ Event '" +:+ call_title c +:+ "' created for "
                        +:+ strftime_long (call_start c) |}
  | None => raise KeyError
  end.

Definition create_event (title : string) (start_time end_time : datetime)
    (description : string) (attendees : list string) : M EventResult :=
  let c := {| call_title := title; call_start := start_time; call_end := end_time;
              call_description := description; call_attendees := attendees |} in
  let* _ := record_call c in
  if mock_mode env then _create_mock_event c
  else try_catch (_create_real_event c) (fun _ => _create_mock_event c).

End Service.

End GoogleCalendarService.

(** ** agent.py *)

Module CalendarBookingAgent.
Import GoogleCalendarService.

(** *** The three prompts

    Each prompt is an f-string around the user message: the text before
    the message and the text after it. *)

Definition intent_prompt_head : string :=
  join [
    "You are a smart calendar booking assistant. Analyze this user message and determine their intent.";
    nl; nl; "User message: "; dq].

Definition intent_prompt_tail : string :=
  join [dq; nl; nl; "Intent categories:"; nl;
    "- book_appointment: User wants to schedule/book a meeting, call, appointment, or event";
    nl;
    "- check_availability: User is asking about free time, availability, or when they're free";
    nl; "- general_conversation: Greetings, questions, or unclear requests"; nl; nl;
    "Examples:"; nl; "- "; dq; "I want to schedule a call"; dq; " → book_appointment";
    nl; "- "; dq; "Book a meeting for tomorrow"; dq; " → book_appointment"; nl; "- ";
    dq; "Do you have any free time?"; dq; " → check_availability"; nl; "- "; dq;
    "When am I available?"; dq; " → check_availability"; nl; "- "; dq; "Hi there"; dq;
    " → general_conversation"; nl; nl;
    "Respond with ONLY the intent name (book_appointment, check_availability, or general_conversation)."].

Definition extract_prompt_head : string :=
  join [
    "You are a smart calendar assistant. Extract booking details from this message.";
    nl; nl; "User message: "; dq].

Definition extract_prompt_tail : string :=
  join [dq; nl; nl; "Extract these details:"; nl;
    "- day: The day mentioned (today, tomorrow, Monday, Friday, next week, etc.)"; nl;
    "- time: Specific time or time period (2 PM, afternoon, morning, 3-5 PM, etc.)";
    nl; "- type: Type of meeting (call, meeting, appointment, interview, etc.)"; nl;
    "- duration: How long (1 hour, 30 minutes, etc.)"; nl; nl;
    "Return a JSON object with the extracted information. If the message contains time/scheduling information, set ";
    dq; "has_time_info"; dq; ": true."; nl; nl; "Examples:"; nl; dq;
    "Schedule a call for tomorrow afternoon"; dq; " → {"; dq; "has_time_info"; dq;
    ": true, "; dq; "day"; dq; ": "; dq; "tomorrow"; dq; ", "; dq; "time"; dq; ": ";
    dq; "afternoon"; dq; ", "; dq; "type"; dq; ": "; dq; "call"; dq; "}"; nl; dq;
    "Meeting at 2 PM Friday"; dq; " → {"; dq; "has_time_info"; dq; ": true, "; dq;
    "day"; dq; ": "; dq; "Friday"; dq; ", "; dq; "time"; dq; ": "; dq; "2 PM"; dq;
    ", "; dq; "type"; dq; ": "; dq; "meeting"; dq; "}"; nl; dq; "Just saying hi"; dq;
    " → {"; dq; "has_time_info"; dq; ": false}"; nl; nl; "Return ONLY valid JSON:"].

Definition conversation_prompt_head : string :=
  join ["You are a helpful calendar booking assistant. The user said: "; dq].

Definition conversation_prompt_tail : string :=
  join [dq; nl; nl;
    "Context: This is a calendar booking conversation. The user might be:"; nl;
    "- Greeting you"; nl; "- Asking for help"; nl;
    "- Asking about availability without specific times"; nl;
    "- Making unclear requests"; nl; "- Asking questions about the service"; nl; nl;
    "Respond naturally and helpfully. Keep responses concise (1-2 sentences). Always guide them toward booking if appropriate.";
    nl; nl; "Examples:"; nl; "- "; dq; "Hi"; dq; " → "; dq;
    "Hi! I'm your calendar assistant. What would you like to schedule today?"; dq; nl;
    "- "; dq; "Help"; dq; " → "; dq;
    "I can help you schedule meetings, check availability, and book appointments. What would you like to schedule?";
    dq; nl; "- "; dq; "What can you do?"; dq; " → "; dq;
    "I can schedule meetings, check your calendar availability, and book appointments. Just tell me when you'd like to meet!";
    dq; nl; nl; "Respond naturally:"].

Definition intent_prompt (message : string) : string :=
  intent_prompt_head +:+ message +:+ intent_prompt_tail.

Definition extract_prompt (message : string) : string :=
  extract_prompt_head +:+ message +:+ extract_prompt_tail.

Definition conversation_prompt (message : string) : string :=
  conversation_prompt_head +:+ message +:+ conversation_prompt_tail.

Definition dq_char : ascii := "034"%char.

(** [prompt.split(dq)[1].lower()], read under the guard that the prompt
    contains a double quote. *)
Definition quoted_user_msg (prompt : string) : string :=
  lower (nth 1 (split dq_char prompt) "").

Definition time_words : list string :=
  ["tomorrow"; "today"; "monday"; "tuesday"; "wednesday"; "thursday"; "friday";
   "saturday"; "sunday"; "next week"; "pm"; "am"; "afternoon"; "morning"; "evening"].

(** The dictionary the extraction branch of the fallback builds. *)
Definition fallback_extraction (user_msg : string) : dict :=
  let result := [("has_time_info", JBool false)] in
  if any_in time_words user_msg then
    let result := dict_set "has_time_info" (JBool true) result in
    let result :=
      if contains "tomorrow" user_msg then dict_set "day" (JStr "tomorrow") result
      else if contains "today" user_msg then dict_set "day" (JStr "today") result
      else if contains "friday" user_msg then dict_set "day" (JStr "Friday") result
      else if contains "monday" user_msg then dict_set "day" (JStr "Monday") result
      else if contains "next week" user_msg then dict_set "day" (JStr "next week") result
      else result in
    let result :=
      if contains "2 pm" user_msg || contains "2pm" user_msg
      then dict_set "time" (JStr "2 PM") result
      else if contains "afternoon" user_msg then dict_set "time" (JStr "afternoon") result
      else if contains "morning" user_msg then dict_set "time" (JStr "morning") result
      else result in
    if contains "call" user_msg then dict_set "type" (JStr "call") result
    else if contains "meeting" user_msg then dict_set "type" (JStr "meeting") result
    else dict_set "type" (JStr "appointment") result
  else result.

Definition default_fallback : string :=
  "I can help you schedule appointments. What would you like to book?".

Definition _get_fallback_response (prompt : string) : string :=
  let prompt_lower := lower prompt in
  if contains "intent" prompt_lower && contains "analyze this user message" prompt_lower then
    if contains dq prompt then
      let user_msg := quoted_user_msg prompt in
      if any_in ["schedule"; "book"; "meeting"; "call"; "appointment"] user_msg
      then "book_appointment"
      else if any_in ["free"; "available"; "availability"; "time"] user_msg
      then "check_availability"
      else "general_conversation"
    else "book_appointment"
  else if contains "extract booking information" prompt_lower then
    if contains dq prompt then dumps (fallback_extraction (quoted_user_msg prompt))
    else "{" +:+ dq +:+ "has_time_info" +:+ dq +:+ ": false}"
  else if contains "calendar booking assistant" prompt_lower then
    if contains dq prompt then
      let user_msg := quoted_user_msg prompt in
      if any_in ["hi"; "hello"; "hey"] user_msg
      then "Hi! I'm your calendar assistant. What would you like to schedule today?"
      else if any_in ["help"; "what"; "how"] user_msg
      then "I can help you schedule meetings, check availability, and book appointments. What would you like to schedule?"
      else "I'd be happy to help you schedule something! What would you like to book?"
    else default_fallback
  else default_fallback.

Section Agent.
Variable env : Env.

Definition _call_llm (prompt : string) : exc string :=
  if negb (llm_available env) then Ret (_get_fallback_response prompt)
  else
    try_except
      (let? text := generate_content env prompt in Ret (strip text))
      (fun _ => Ret (_get_fallback_response prompt)).

Definition _understand_intent (message : string) : exc string :=
  let? response := _call_llm (intent_prompt message) in
  Ret (lower (strip response)).

Definition time_patterns : list Re.regex :=
  [Re.clock_pattern; Re.daypart_pattern; Re.noon_pattern].

Definition day_patterns : list Re.regex :=
  [Re.relative_day_pattern; Re.weekday_pattern; Re.next_pattern].

(** The first pattern of the list that matches somewhere in [s]. *)
Fixpoint first_match (patterns : list Re.regex) (s : string) : option Re.rmatch :=
  match patterns with
  | [] => None
  | pattern :: patterns' =>
      match Re.search pattern s with
      | Some m => Some m
      | None => first_match patterns' s
      end
  end.

Definition _regex_extract (message : string) : dict :=
  let info := [("has_time_info", JBool false)] in
  let info :=
    match first_match time_patterns (lower message) with
    | Some m => dict_set "time" (JStr (Re.whole m)) (dict_set "has_time_info" (JBool true) info)
    | None => info
    end in
  let info :=
    match first_match day_patterns (lower message) with
    | Some m => dict_set "day" (JStr (Re.whole m)) (dict_set "has_time_info" (JBool true) info)
    | None => info
    end in
  if contains "call" (lower message) then dict_set "type" (JStr "call") info
  else if contains "meeting" (lower message) then dict_set "type" (JStr "meeting") info
  else if contains "appointment" (lower message) then dict_set "type" (JStr "appointment") info
  else dict_set "type" (JStr "meeting") info.

(** The clean-up of the response before [json.loads]. *)
Definition clean_response (response : string) : string :=
  let response := strip response in
  let response := if startswith "```json" response then drop_front 7 response else response in
  let response := if endswith "```" response then drop_back 3 response else response in
  strip response.

Definition _extract_details (message : string) : exc json :=
  let? response := _call_llm (extract_prompt message) in
  try_except (loads (clean_response response))
    (fun _ => Ret (JObject (_regex_extract message))).

Definition _parse_date (day_str : scalar) : M datetime :=
  let* today := now env in
  let* day := lift (as_str day_str) in
  let day := lower day in
  if contains "today" day then ret today
  else if contains "tomorrow" day then ret (add_days today 1)
  else if contains "monday" day then
    let days_ahead := 0 - weekday today in
    let days_ahead := if days_ahead <=? 0 then days_ahead + 7 else days_ahead in
    ret (add_days today days_ahead)
  else ret (add_days today 1).

Definition offered (slot : CalSlot) : Slot :=
  {| start_time := isoformat (slot_start slot);
     end_time := isoformat (slot_end slot);
     display := strftime_clock (slot_start slot);
     available := true |}.

Definition _check_availability (extracted_info : dict) : M (list Slot) :=
  let* target_date := _parse_date (get_default "day" (JStr "tomorrow") extracted_info) in
  let* available_slots := get_available_slots env target_date 60 default_working_hours in
  ret (map offered (firstn 3 available_slots)).

(** The numbered lines [f"{i}. {slot['display']}\n"], counted from [i]. *)
Fixpoint numbered (i : Z) (slots : list Slot) : string :=
  match slots with
  | [] => ""
  | slot :: slots' => str_of_Z i +:+ ". " +:+ display slot +:+ nl +:+ numbered (i + 1) slots'
  end.

Definition _suggest_slots (slots : list Slot) (extracted_info : dict) : string :=
  let meeting_type := get_default "type" (JStr "meeting") extracted_info in
  match slots with
  | _ :: _ =>
      "I found some available times for your " +:+ py_str meeting_type +:+ ":" +:+ nl +:+ nl
      +:+ numbered 1 slots
      +:+ nl +:+ "Which time works best for you? Just reply with the number."
  | [] => "I couldn't find any available times. Would you like to try a different day?"
  end.

Definition select_prompt : string := "Please select 1, 2, or 3 for your preferred time.".

Definition _handle_conversation (message : string) (session_data : Session) : exc string :=
  if negb (Nat.eqb (length (available_slots session_data)) 0)
     && bool_decide (is_Some (Re.search Re.slot_test_pattern message))
  then
    try_except
      (match Re.search Re.slot_number_pattern message with
       | Some m =>
           let slot_num := int_of_digits (Re.group m 1) 0 in
           let slots := available_slots session_data in
           if (0 <=? slot_num - 1) && (slot_num - 1 <? Z.of_nat (length slots)) then
             match slots !! Z.to_nat (slot_num - 1) with
             | Some selected_slot =>
                 Ret ("Perfect! You've selected " +:+ display selected_slot
                      +:+ ". I'll book this time slot for you. The meeting has been scheduled!")
             | None => Raise IndexError
             end
           else Ret select_prompt
       | None => Raise AttributeError
       end)
      (fun _ => Ret select_prompt)
  else
    let? ai_response := _call_llm (conversation_prompt message) in
    let response := strip ai_response in
    if String.eqb response "" || (String.length response <? 10)%nat then
      if any_in ["hi"; "hello"; "hey"; "good morning"; "good afternoon"] (lower message)
      then Ret "Hi! I'm your calendar assistant. What would you like to schedule today?"
      else if any_in ["help"; "what"; "how"] (lower message)
      then Ret "I can help you schedule meetings, check availability, and book appointments. What would you like to schedule?"
      else Ret "I'd be happy to help you schedule something! Try saying 'I want to schedule a call for tomorrow afternoon' or 'Do you have any free time this Friday?'"
    else Ret response.

(** The hour and the minute [_direct_book_appointment] reads in the
    lower-cased time text; nine o'clock when nothing is recognised. *)
Definition clock_hour (hour : Z) (half : string) : Z :=
  if String.eqb half "pm" && negb (hour =? 12) then hour + 12
  else if String.eqb half "am" && (hour =? 12) then 0
  else hour.

Definition parse_time (time_str : string) : Z * Z :=
  if contains "8pm" time_str || contains "8 pm" time_str then (20, 0)
  else if contains "8am" time_str || contains "8 am" time_str then (8, 0)
  else if contains "9pm" time_str || contains "9 pm" time_str then (21, 0)
  else if contains "9am" time_str || contains "9 am" time_str then (9, 0)
  else if contains "10pm" time_str || contains "10 pm" time_str then (22, 0)
  else if contains "10am" time_str || contains "10 am" time_str then (10, 0)
  else if contains "11pm" time_str || contains "11 pm" time_str then (23, 0)
  else if contains "11am" time_str || contains "11 am" time_str then (11, 0)
  else if contains "12pm" time_str || contains "12 pm" time_str || contains "noon" time_str
  then (12, 0)
  else if contains "12am" time_str || contains "12 am" time_str || contains "midnight" time_str
  then (0, 0)
  else if contains "afternoon" time_str then (14, 0)
  else if contains "morning" time_str then (9, 0)
  else if contains "evening" time_str then (18, 0)
  else
    match Re.search Re.clock_pattern time_str with
    | Some m =>
        let hour := int_of_digits (Re.group m 1) 0 in
        let minute :=
          if String.eqb (Re.group m 2) "" then 0 else int_of_digits (Re.group m 2) 0 in
        (clock_hour hour (Re.group m 3), minute)
    | None =>
        match Re.search Re.hour_pattern time_str with
        | Some m => (clock_hour (int_of_digits (Re.group m 1) 0) (Re.group m 2), 0)
        | None => (9, 0)
        end
    end.

Record BookingDetails : Type := {
  bd_start_time : string;
  bd_end_time : string;
  bd_title : string;
  booking_id : string;
  bd_event_link : option string
}.

Record BookingResult : Type := {
  b_success : bool;
  b_message : string;
  booking_details : option BookingDetails
}.

Definition failure (text : string) : BookingResult :=
  {| b_success := false; b_message := text; booking_details := None |}.

Definition past_message (start_time : datetime) : string :=
  "Sorry, " +:+ strftime_clock start_time +:+ " is in the past. Please choose a future time.".

Definition _direct_book_appointment (extracted_info : dict) : M BookingResult :=
  try_catch
    (let* target_date := _parse_date (get_default "day" (JStr "tomorrow") extracted_info) in
     let* time_str := lift (as_str (get_default "time" (JStr "") extracted_info)) in
     let '(hour, minute) := parse_time (lower time_str) in
     let* start_time := lift (replace target_date hour minute) in
     let end_time := add_hours start_time 1 in
     let* t := now env in
     if start_time <=? t then ret (failure (past_message start_time))
     else
       let* meeting_type := lift (as_str (get_default "type" (JStr "Meeting") extracted_info)) in
       let event_title := capitalize meeting_type +:+ " - " +:+ strftime_clock start_time in
       let* booking_result :=
         create_event env event_title start_time end_time
           ("Booked via Calendar Agent - " +:+ meeting_type) [] in
       if success booking_result then
         ret {| b_success := true;
                b_message := message booking_result;
                booking_details :=
                  Some {| bd_start_time := isoformat start_time;
                          bd_end_time := isoformat end_time;
                          bd_title := event_title;
                          booking_id := event_id booking_result;
                          bd_event_link := event_link booking_result |} |}
       else ret (failure "Failed to create calendar event. Please try again."))
    (fun _ =>
       ret (failure "I had trouble booking that time. Let me show you some available slots instead.")).

(** *** The session store *)

Definition new_session (sid : string) : Session :=
  {| messages := []; user_intent := ""; extracted_info := []; available_slots := [];
     booking_confirmed := false; session_id := sid |}.

Definition append_message (m : Message) (s : Session) : Session :=
  {| messages := messages s ++ [m]; user_intent := user_intent s;
     extracted_info := extracted_info s; available_slots := available_slots s;
     booking_confirmed := booking_confirmed s; session_id := session_id s |}.

Definition set_extracted_info (d : dict) (s : Session) : Session :=
  {| messages := messages s; user_intent := user_intent s;
     extracted_info := d; available_slots := available_slots s;
     booking_confirmed := booking_confirmed s; session_id := session_id s |}.

Definition set_available_slots (l : list Slot) (s : Session) : Session :=
  {| messages := messages s; user_intent := user_intent s;
     extracted_info := extracted_info s; available_slots := l;
     booking_confirmed := booking_confirmed s; session_id := session_id s |}.

Definition set_booking_confirmed (b : bool) (s : Session) : Session :=
  {| messages := messages s; user_intent := user_intent s;
     extracted_info := extracted_info s; available_slots := available_slots s;
     booking_confirmed := b; session_id := session_id s |}.

(** [if session_id not in self.sessions: self.sessions[session_id] = ...] *)
Definition ensure_session (sid : string) : M unit :=
  fun w =>
    match sessions w !! sid with
    | Some _ => (Ret tt, w)
    | None => (Ret tt, set_sessions (<[sid := new_session sid]> (sessions w)) w)
    end.

(** [session_data = self.sessions[session_id]] *)
Definition session_data (sid : string) : M Session :=
  fun w =>
    match sessions w !! sid with
    | Some s => (Ret s, w)
    | None => (Raise KeyError, w)
    end.

(** An assignment through the reference [session_data]. *)
Definition update_session (sid : string) (f : Session -> Session) : M unit :=
  fun w => (Ret tt, set_sessions (alter f sid (sessions w)) w).

Record ChatResponse : Type := {
  r_response : string;
  r_available_slots : list Slot;
  r_session_id : string;
  r_intent : string;
  r_extracted_info : dict
}.

Definition ask_when : string :=
  "I'd love to help you schedule that! Could you tell me when you'd like to meet? For example: 'tomorrow at 2 PM' or 'Friday morning'.".

Definition ask_day : string :=
  "I can check your availability! Which day are you interested in? For example: 'tomorrow', 'Friday', or 'next week'.".

Definition availability_text (day : scalar) (slots : list Slot) : string :=
  match slots with
  | _ :: _ =>
      "Let me check your availability for " +:+ py_str day +:+ ":" +:+ nl +:+ nl
      +:+ "Here are your free time slots:" +:+ nl +:+ nl
      +:+ numbered 1 slots
      +:+ nl +:+ "Would you like to book any of these times? Just reply with the number."
  | [] =>
      "Sorry, you don't have any free time slots for " +:+ py_str day
      +:+ ". Would you like to try a different day?"
  end.

(** The branch of [process_message] taken for a booking intent. *)
Definition book_branch (message sid : string) : M string :=
  let* extracted := lift (_extract_details message) in
  let* extracted_info := lift (as_dict extracted) in
  if truthy (get_default "has_time_info" JNull extracted_info) then
    let* direct_booking_result := _direct_book_appointment extracted_info in
    if b_success direct_booking_result then
      let* _ := update_session sid (set_booking_confirmed true) in
      let* _ := update_session sid (set_available_slots []) in
      ret (b_message direct_booking_result)
    else
      let* slots := _check_availability extracted_info in
      let* _ := update_session sid (set_available_slots slots) in
      let* _ := update_session sid (set_extracted_info extracted_info) in
      ret (b_message direct_booking_result +:+ nl +:+ nl
           +:+ _suggest_slots slots extracted_info)
  else ret ask_when.

(** The branch taken for an availability question. *)
Definition availability_branch (message sid : string) : M string :=
  let* extracted := lift (_extract_details message) in
  let* extracted_info := lift (as_dict extracted) in
  if truthy (get_default "has_time_info" JNull extracted_info) then
    let* slots := _check_availability extracted_info in
    let* _ := update_session sid (set_available_slots slots) in
    let* _ := update_session sid (set_extracted_info extracted_info) in
    ret (availability_text (get_default "day" (JStr "that day") extracted_info) slots)
  else ret ask_day.

(** The last branch: conversation, or the choice of a slot by number. *)
Definition conversation_branch (message sid : string) : M string :=
  let* s := session_data sid in
  lift (_handle_conversation message s).

Definition process_message (message sid : string) : M ChatResponse :=
  let* _ := ensure_session sid in
  let* _ := update_session sid (append_message {| role := "user"; content := message |}) in
  let* intent := lift (_understand_intent message) in
  let* response :=
    (if contains "book_appointment" intent then book_branch message sid
     else if contains "check_availability" intent then availability_branch message sid
     else conversation_branch message sid) in
  let* _ := update_session sid
              (append_message {| role := "assistant"; content := response |}) in
  let* s := session_data sid in
  ret {| r_response := response;
         r_available_slots := available_slots s;
         r_session_id := sid;
         r_intent := intent;
         r_extracted_info := extracted_info s |}.

Definition confirm_booking (sid : string) (slot_index : Z) : M BookingResult :=
  fun w =>
    match sessions w !! sid with
    | None => (Ret (failure "Session not found"), w)
    | Some state =>
        let slots := available_slots state in
        if (0 <=? slot_index) && (slot_index <? Z.of_nat (length slots)) then
          (let* selected_slot :=
             (match slots !! Z.to_nat slot_index with
              | Some slot => ret slot
              | None => raise IndexError
              end) in
           let extracted_info := extracted_info state in
           let* start_at := lift (fromisoformat (replace_Z (start_time selected_slot))) in
           let* end_at := lift (fromisoformat (replace_Z (end_time selected_slot))) in
           let* meeting_type :=
             lift (as_str (get_default "type" (JStr "Meeting") extracted_info)) in
           let event_title := capitalize meeting_type +:+ " - " +:+ strftime_clock start_at in
           let* booking_result :=
             create_event env event_title start_at end_at
               ("Booked via Calendar Agent - " +:+ meeting_type) [] in
           if success booking_result then
             let* _ := update_session sid (set_booking_confirmed true) in
             ret {| b_success := true;
                    b_message := message booking_result;
                    booking_details :=
                      Some {| bd_start_time := start_time selected_slot;
                              bd_end_time := end_time selected_slot;
                              bd_title := event_title;
                              booking_id := event_id booking_result;
                              bd_event_link := event_link booking_result |} |}
           else ret (failure "Failed to create calendar event. Please try again.")) w
        else (Ret (failure "Invalid slot selection"), w)
    end.

End Agent.

End CalendarBookingAgent.

(** ** main.py

    The two POST endpoints.  The agent is a global of the module: every
    request works on the same world. *)

Module Api.
Import GoogleCalendarService.

(** What an endpoint sends: the returned dictionary, with status 200, or
    the [HTTPException] it raises; its detail text [str(e)] is left out. *)
Inductive Response (A : Type) : Type :=
| Ok (body : A)
| HTTPException (status_code : Z).

Arguments Ok {A} body.
Arguments HTTPException {A} status_code.

(** The request models; [session_id] of a chat message is [default]
    when the request leaves it out. *)
Record ChatMessage : Type := { cm_message : string; cm_session_id : string }.

Definition chat_message (message : string) (session_id : option string) : ChatMessage :=
  {| cm_message := message;
     cm_session_id := match session_id with
                      | Some sid => sid
                      | None => "default"
                      end |}.

Record BookingConfirmation : Type := { bc_session_id : string; bc_slot_index : Z }.

Section Endpoints.
Variable env : Env.

(** [try: return await ...; except Exception as e: raise HTTPException(500, ...)] *)
Definition guarded {A : Type} (call : M A) : World -> Response A * World :=
  fun w =>
    match call w with
    | (Ret response, w') => (Ok response, w')
    | (Raise _, w') => (HTTPException 500, w')
    end.

Definition chat (request : ChatMessage)
    : World -> Response CalendarBookingAgent.ChatResponse * World :=
  guarded (CalendarBookingAgent.process_message env
             (cm_message request) (cm_session_id request)).

Definition confirm_booking (request : BookingConfirmation)
    : World -> Response CalendarBookingAgent.BookingResult * World :=
  guarded (CalendarBookingAgent.confirm_booking env
             (bc_session_id request) (bc_slot_index request)).

End Endpoints.

End Api.

(** ** Concrete environments and worlds *)

Module Examples.
Import GoogleCalendarService CalendarBookingAgent.

(** Thursday 29 February 2024, 14:05:09. *)
Definition afternoon_2024_02_29 : datetime :=
  ymd2ord 2024 2 29 * us_day + 14 * us_hour + 5 * us_minute + 9 * us_second.

(** The service without a text-completion model and with the simulated
    calendar; the clock advances by one microsecond at each reading. *)
Definition offline_env : Env :=
  {| llm_available := false;
     generate_content := fun _ => Raise ServiceError;
     mock_mode := true;
     events_list := fun _ _ => Raise ServiceError;
     events_insert := fun _ => Raise ServiceError;
     clock := fun n => afternoon_2024_02_29 + Z.of_nat n;
     timestamp := fun t => (t - ymd2ord 1970 1 1 * us_day) / us_second |}.

(** The same clock, read in the morning of that day. *)
Definition morning_env : Env :=
  {| llm_available := false;
     generate_content := fun _ => Raise ServiceError;
     mock_mode := true;
     events_list := fun _ _ => Raise ServiceError;
     events_insert := fun _ => Raise ServiceError;
     clock := fun n => afternoon_2024_02_29 - 6 * us_hour + Z.of_nat n;
     timestamp := fun t => (t - ymd2ord 1970 1 1 * us_day) / us_second |}.

(** A provider whose every request fails, and a model that fails too. *)
Definition failing_env : Env :=
  {| llm_available := true;
     generate_content := fun _ => Raise ServiceError;
     mock_mode := false;
     events_list := fun _ _ => Raise ServiceError;
     events_insert := fun _ => Raise ServiceError;
     clock := fun n => afternoon_2024_02_29 - 6 * us_hour + Z.of_nat n;
     timestamp := fun t => (t - ymd2ord 1970 1 1 * us_day) / us_second |}.

(** A provider with one all-day event and a model that answers. *)
Definition online_env : Env :=
  {| llm_available := true;
     generate_content := fun _ => Ret "general_conversation";
     mock_mode := false;
     events_list := fun _ _ =>
       Ret [{| g_start := Naive (ymd2ord 2024 2 28 * us_day);
               g_end := Naive (ymd2ord 2024 2 29 * us_day) |}];
     events_insert := fun _ => Ret {| ce_id := Some "evt1"; ce_htmlLink := None |};
     clock := fun n => afternoon_2024_02_29 - 6 * us_hour + Z.of_nat n;
     timestamp := fun t => (t - ymd2ord 1970 1 1 * us_day) / us_second |}.

(** The day tokens of the specification: the two relative days and the
    seven weekday names. *)
Definition day_tokens : list string :=
  ["today"; "tomorrow"; "monday"; "tuesday"; "wednesday"; "thursday"; "friday";
   "saturday"; "sunday"].

(** A model that answers the extraction prompt with a JSON object whose
    day is [null], and every other prompt with a booking intent. *)
Definition null_day_env : Env :=
  {| llm_available := true;
     generate_content := fun prompt =>
       if contains "Extract booking details" prompt
       then Ret ("{" +:+ dq +:+ "has_time_info" +:+ dq +:+ ": true, "
                 +:+ dq +:+ "day" +:+ dq +:+ ": null}")
       else Ret "book_appointment";
     mock_mode := true;
     events_list := fun _ _ => Raise ServiceError;
     events_insert := fun _ => Raise ServiceError;
     clock := fun n => afternoon_2024_02_29 + Z.of_nat n;
     timestamp := fun t => (t - ymd2ord 1970 1 1 * us_day) / us_second |}.

(** A real calendar whose provider reports one timed event, from 10:00
    to 11:00 UTC on 1 March 2024. *)
Definition timed_event_env : Env :=
  {| llm_available := false;
     generate_content := fun _ => Raise ServiceError;
     mock_mode := false;
     events_list := fun _ _ =>
       Ret [{| g_start := Aware (ymd2ord 2024 3 1 * us_day + 10 * us_hour);
               g_end := Aware (ymd2ord 2024 3 1 * us_day + 11 * us_hour) |}];
     events_insert := fun _ => Ret {| ce_id := Some "evt1"; ce_htmlLink := None |};
     clock := fun n => afternoon_2024_02_29 + Z.of_nat n;
     timestamp := fun t => (t - ymd2ord 1970 1 1 * us_day) / us_second |}.

(** The simulated calendar under a clock stopped in the morning of
    29 February 2024. *)
Definition frozen_env : Env :=
  {| llm_available := false;
     generate_content := fun _ => Raise ServiceError;
     mock_mode := true;
     events_list := fun _ _ => Raise ServiceError;
     events_insert := fun _ => Raise ServiceError;
     clock := fun _ => afternoon_2024_02_29 - 6 * us_hour;
     timestamp := fun t => (t - ymd2ord 1970 1 1 * us_day) / us_second |}.

(** The JSON text a model may give for the details of a meeting. *)
Definition details_json : string :=
  "{" +:+ dq +:+ "has_time_info" +:+ dq +:+ ": true, "
  +:+ dq +:+ "day" +:+ dq +:+ ": " +:+ dq +:+ "friday" +:+ dq +:+ "}".

(** A model that gives its answers in a fence, opened with the
    language [json] or with no language. *)
Definition fenced_env (language : string) : Env :=
  {| llm_available := true;
     generate_content := fun _ =>
       Ret ("```" +:+ language +:+ nl +:+ details_json +:+ nl +:+ "```");
     mock_mode := true;
     events_list := fun _ _ => Raise ServiceError;
     events_insert := fun _ => Raise ServiceError;
     clock := fun n => afternoon_2024_02_29 + Z.of_nat n;
     timestamp := fun t => (t - ymd2ord 1970 1 1 * us_day) / us_second |}.

Definition empty_world : World := {| sessions := ∅; created := []; tick := 0 |}.

Definition free_message : string := "Do you have any free time tomorrow?".

(** A message that quotes its scheduling verb. *)
Definition quoted_book_message : string :=
  "Please " +:+ dq +:+ "book" +:+ dq +:+ " a room".

Definition tuesday_message : string := "extract booking information for tuesday".

Definition call_message : string := "I want to schedule a call for tomorrow afternoon".

(** A session that was offered the 09:00 slot of 29 February 2024. *)
Definition morning_slot : Slot :=
  {| start_time := "2024-02-29T09:00:00";
     end_time := "2024-02-29T10:00:00";
     display := "09:00 AM";
     available := true |}.

Definition offered_session : Session :=
  {| messages := [];
     user_intent := "";
     extracted_info := [("has_time_info", JBool true); ("day", JStr "today");
                        ("type", JStr "call")];
     available_slots := [morning_slot];
     booking_confirmed := false;
     session_id := "s1" |}.

(** The world in which that slot has already begun when the user confirms. *)
Definition late_world : World :=
  {| sessions := {[ "s1" := offered_session ]}; created := []; tick := 0 |}.

(** The session of [late_world] after a model has answered the
    extraction with a number for the type of the meeting. *)
Definition numeric_type_world : World :=
  {| sessions :=
       {[ "s1" := set_extracted_info
                    [("has_time_info", JBool true); ("day", JStr "today");
                     ("type", JNum 2)] offered_session ]};
     created := []; tick := 0 |}.

End Examples.

(** ** Vocabulary of the statements *)

Module Spec.
Import GoogleCalendarService CalendarBookingAgent.

(** What a computation that only reads the clock leaves as it was: the
    session store and the record of created events; the clock is never
    read backwards. *)
Definition frame (w w' : World) : Prop :=
  sessions w' = sessions w /\ created w' = created w /\ (tick w <= tick w')%nat.

(** The slot was compared with a reading of the clock taken at or after
    the [n0]-th one, and starts later than that reading. *)
Definition checked_after (env : Env) (n0 : nat) (s : CalSlot) : Prop :=
  exists n, (n0 <= n)%nat /\ clock env n < slot_start s.

(** From its [n0]-th reading on, the clock does not run before that
    reading. *)
Definition clock_not_before (env : Env) (n0 : nat) : Prop :=
  forall n, (n0 <= n)%nat -> clock env n0 <= clock env n.

(** The messages of a session, none for an unknown identifier. *)
Definition messages_of (w : World) (sid : string) : list Message :=
  match sessions w !! sid with
  | Some s => messages s
  | None => []
  end.

(** The value under [day] is absent or a text. *)
Definition day_is_text (d : dict) : Prop :=
  match dict_get "day" d with
  | Some (JStr _) | None => True
  | Some _ => False
  end.

(** An offer of at most three slots, each marked available. *)
Definition bounded_offer (l : list Slot) : Prop :=
  (length l <= 3)%nat /\ Forall (fun s => available s = true) l.

(** What a branch of [process_message] may do to a session: the
    messages stay, and a bounded offer stays bounded. *)
Definition session_step (s s' : Session) : Prop :=
  messages s' = messages s
  /\ (bounded_offer (available_slots s) -> bounded_offer (available_slots s')).

(** The same, for every session of the store; no session appears or
    disappears. *)
Definition store_step (w w' : World) : Prop :=
  forall sid,
    match sessions w !! sid, sessions w' !! sid with
    | Some s, Some s' => session_step s s'
    | None, None => True
    | _, _ => False
    end.

Definition offers_bounded (w : World) : Prop :=
  forall sid s, sessions w !! sid = Some s -> bounded_offer (available_slots s).

Definition user_says (text : string) : Message := {| role := "user"; content := text |}.

Definition assistant_says (text : string) : Message :=
  {| role := "assistant"; content := text |}.

(** The world once [process_message] has found or created the session
    and appended the message of the user. *)
Definition entered (m sid : string) (w : World) : World :=
  set_sessions
    (alter (append_message (user_says m)) sid
       (match sessions w !! sid with
        | Some _ => sessions w
        | None => <[sid := new_session sid]> (sessions w)
        end))
    w.

(** The branch [process_message] takes for an intent. *)
Definition branch_of (env : Env) (intent m sid : string) : M string :=
  if contains "book_appointment" intent then book_branch env m sid
  else if contains "check_availability" intent then availability_branch env m sid
  else conversation_branch env m sid.

(** The world once the answer of the assistant is appended. *)
Definition answered (response sid : string) (w : World) : World :=
  set_sessions (alter (append_message (assistant_says response)) sid (sessions w)) w.

(** The reply to the choice of an offered slot by its number. *)
Definition selection_reply (slot : Slot) : string :=
  "Perfect! You've selected " +:+ display slot
  +:+ ". I'll book this time slot for you. The meeting has been scheduled!".

End Spec.

(** ** Further vocabulary: what the code does beyond the claims *)

Module Behaviour.
Import GoogleCalendarService CalendarBookingAgent.

(** The keyword classification of the fallback, on the lower-cased text
    it reads back from the prompt. *)
Definition keyword_intent (user_msg : string) : string :=
  if any_in ["schedule"; "book"; "meeting"; "call"; "appointment"] user_msg
  then "book_appointment"
  else if any_in ["free"; "available"; "availability"; "time"] user_msg
  then "check_availability"
  else "general_conversation".

(** The model is not available, or raises on this prompt. *)
Definition degraded (env : Env) (prompt : string) : Prop :=
  llm_available env = false \/ exists e, generate_content env prompt = Raise e.

(** The shape of the event a direct booking creates when the clock reads
    [now] at its entry and [checked] at the comparison: a start on the
    minute, at most a week after the day of [now], later than [checked];
    an end one hour after the start; no attendee; the title and the
    description built from the meeting type. *)
Definition direct_event (now checked : datetime) (c : EventCall) : Prop :=
  exists k h mi meeting_type,
    0 <= k <= 7 /\ 0 <= h < 24 /\ 0 <= mi < 60
    /\ call_start c = (toordinal now + k) * us_day + h * us_hour + mi * us_minute
    /\ checked < call_start c
    /\ call_end c = add_hours (call_start c) 1
    /\ call_attendees c = []
    /\ call_title c = capitalize meeting_type +:+ " - " +:+ strftime_clock (call_start c)
    /\ call_description c = "Booked via Calendar Agent - " +:+ meeting_type.

(** The instant of [date]'s day at [hour] o'clock. *)
Definition at_hour (date : datetime) (hour : Z) : datetime :=
  toordinal date * us_day + hour * us_hour.

(** The slot the simulated calendar builds for an hour of the day. *)
Definition mock_slot (date : datetime) (duration_minutes hour : Z) : CalSlot :=
  {| slot_start := at_hour date hour;
     slot_end := add_minutes (at_hour date hour) duration_minutes;
     slot_available := true;
     slot_title := slot_title_of duration_minutes |}.

Definition earlier (a b : CalSlot) : Prop := slot_start a < slot_start b.

(** The interval from [start] to [finish] overlaps an event whose two
    times are naive. *)
Definition overlaps (start finish : datetime) (e : GEvent) : Prop :=
  exists s f, g_start e = Naive s /\ g_end e = Naive f /\ start < f /\ s < finish.

(** The shape of a slot of the real calendar: on the half-hour grid that
    begins with the working day, ending within it, free of every event. *)
Definition real_slot (events : list GEvent) (duration_minutes : Z)
    (day_start day_end : datetime) (s : CalSlot) : Prop :=
  (exists k, 0 <= k /\ slot_start s = day_start + k * (30 * us_minute))
  /\ slot_end s = add_minutes (slot_start s) duration_minutes
  /\ slot_end s <= day_end
  /\ Forall (fun e => ~ overlaps (slot_start s) (slot_end s) e) events
  /\ slot_available s = true.

(** Only the session [sid] may differ between the two stores. *)
Definition only_session (sid : string) (w w' : World) : Prop :=
  forall sid', sid' <> sid -> sessions w' !! sid' = sessions w !! sid'.

(** The call of [create_event] that [confirm_booking] and the direct
    booking make for a meeting type and two instants. *)
Definition booking_call (meeting_type : string) (t1 t2 : datetime) : EventCall :=
  {| call_title := capitalize meeting_type +:+ " - " +:+ strftime_clock t1;
     call_start := t1;
     call_end := t2;
     call_description := "Booked via Calendar Agent - " +:+ meeting_type;
     call_attendees := [] |}.

(** The character of a decimal digit, and the text of [n] on exactly
    [k] digits. *)
Definition digit_char (d : Z) : ascii := ascii_of_nat (48 + Z.to_nat d).

Fixpoint dec (k : nat) (n : Z) : string :=
  match k with
  | O => ""
  | S k' => dec k' (n / 10) +:+ String (digit_char (n mod 10)) ""
  end.

(** The date of the day [1 + r] of the first four hundred years is a
    date of the calendar, [ymd2ord] leads back to the day, and a day up
    to the last of the year 399 is in a year up to 399. *)
Definition date_ok (r : Z) : bool :=
  let '(y, m, d) := ord2ymd (1 + r) in
  (1 <=? y) && (y <=? 400) && (1 <=? m) && (m <=? 12)
  && (1 <=? d) && (d <=? days_in_month y m)
  && (ymd2ord y m d =? 1 + r)
  && ((145730 <? r) || (y <=? 399)).

Fixpoint dates_ok (fuel : nat) (r : Z) : bool :=
  match fuel with
  | O => true
  | S fuel' => if date_ok r then dates_ok fuel' (r + 1) else false
  end.

(** The slot lies between the two instants. *)
Definition within (lo hi : datetime) (s : CalSlot) : Prop :=
  lo <= slot_start s /\ slot_start s <= slot_end s /\ slot_end s <= hi.

(** The datetimes Python has: the years 1 to 9999. *)
Definition in_years (t : datetime) : Prop := us_day <= t < 3652060 * us_day.

(** The [n]-th reading of the clock is a datetime that leaves the ten
    days to come within the years Python has. *)
Definition clock_in_years (env : Env) (n : nat) : Prop :=
  us_day <= clock env n < 3652050 * us_day.

(** The two time texts of an offered slot are read by
    [datetime.fromisoformat] as [t1] and [t2]. *)
Definition reads_as (slot : Slot) (t1 t2 : datetime) : Prop :=
  fromisoformat (replace_Z (start_time slot)) = Ret t1
  /\ fromisoformat (replace_Z (end_time slot)) = Ret t2.

Definition readable (slot : Slot) : Prop := exists t1 t2, reads_as slot t1 t2.

(** Every offer of the store has the property [P]. *)
Definition offers_satisfy (P : list Slot -> Prop) (w : World) : Prop :=
  forall sid s, sessions w !! sid = Some s -> P (available_slots s).

(** Every offer of the store can be read. *)
Definition offers_readable (w : World) : Prop := offers_satisfy (Forall readable) w.

(** The reply of the fallback to a conversation, on the lower-cased
    text it reads back from the prompt. *)
Definition keyword_reply (user_msg : string) : string :=
  if any_in ["hi"; "hello"; "hey"] user_msg
  then "Hi! I'm your calendar assistant. What would you like to schedule today?"
  else if any_in ["help"; "what"; "how"] user_msg
  then "I can help you schedule meetings, check availability, and book appointments. What would you like to schedule?"
  else "I'd be happy to help you schedule something! What would you like to book?".

(** The text is empty or opens with a backtick. *)
Definition backtick_or_empty (s : string) : Prop :=
  s = "" \/ exists u, s = String "`" u.

(** The line of an offer that shows a slot under the number [i]. *)
Definition numbered_line (i : Z) (slot : Slot) : string :=
  str_of_Z i +:+ ". " +:+ display slot +:+ nl.

End Behaviour.

(** * Properties *)

(** ** Facts about strings *)

Module PyStrFacts.
Import PyStr.

Lemma append_nil_l (s : string) : "" +:+ s = s.
Proof. reflexivity. Qed.

Lemma append_cons (c : ascii) (a b : string) : String c a +:+ b = String c (a +:+ b).
Proof. reflexivity. Qed.

(** Push the characters of the left operand out of an append. *)
Ltac push_append := rewrite ?append_cons, ?append_nil_l.

Lemma append_nil_r (s : string) : s +:+ "" = s.
Proof. induction s as [|c s IH]; push_append; [reflexivity | f_equal; exact IH]. Qed.

Lemma append_assoc (a b c : string) : (a +:+ b) +:+ c = a +:+ (b +:+ c).
Proof. induction a as [|x a IH]; push_append; [reflexivity | f_equal; exact IH]. Qed.

Lemma lower_app (a b : string) : lower (a +:+ b) = lower a +:+ lower b.
Proof.
  induction a as [|x a IH]; push_append; simpl; push_append;
    [reflexivity | f_equal; exact IH].
Qed.

Lemma startswith_app (n r : string) : startswith n (n +:+ r) = true.
Proof.
  induction n as [|x n IH]; push_append; simpl; [reflexivity |].
  rewrite Ascii.eqb_refl. exact IH.
Qed.

Lemma startswith_inv (n h : string) :
  startswith n h = true -> exists r, h = n +:+ r.
Proof.
  revert h. induction n as [|x n IH]; intros h H.
  - exists h. reflexivity.
  - destruct h as [|y h]; simpl in H; [discriminate |].
    apply andb_true_iff in H as [Hxy Hn].
    apply Ascii.eqb_eq in Hxy. subst y.
    destruct (IH h Hn) as [r ->]. exists r. reflexivity.
Qed.

Lemma contains_here (n r : string) : contains n (n +:+ r) = true.
Proof.
  destruct n as [|x n]; destruct r as [|y r]; push_append; simpl;
    rewrite ?Ascii.eqb_refl, ?startswith_app; reflexivity.
Qed.

Lemma contains_skip (n a b : string) :
  contains n b = true -> contains n (a +:+ b) = true.
Proof.
  intros H. induction a as [|x a IH]; push_append; [exact H |].
  simpl. rewrite IH. apply orb_true_r.
Qed.

(** A text that is somewhere inside another is found by [contains]. *)
Lemma contains_intro (n a b : string) : contains n (a +:+ n +:+ b) = true.
Proof. apply contains_skip, contains_here. Qed.

Lemma contains_inv (n h : string) :
  contains n h = true -> exists a b, h = a +:+ n +:+ b.
Proof.
  induction h as [|y h IH]; intros H.
  - simpl in H. rewrite orb_false_r in H.
    destruct (startswith_inv _ _ H) as [r Hr]. exists "", r. exact Hr.
  - simpl in H. apply orb_true_iff in H as [H | H].
    + destruct (startswith_inv _ _ H) as [r Hr]. exists "", r. exact Hr.
    + destruct (IH H) as (a & b & ->). exists (String y a), b. reflexivity.
Qed.

Lemma contains_app_l (n a b : string) :
  contains n a = true -> contains n (a +:+ b) = true.
Proof.
  intros H. destruct (contains_inv _ _ H) as (x & y & ->).
  rewrite !append_assoc. apply contains_intro.
Qed.

(** Lower-casing keeps every occurrence of a text that is already in
    lower case. *)
Lemma contains_lower (n m : string) :
  lower n = n -> contains n m = true -> contains n (lower m) = true.
Proof.
  intros Hn H. destruct (contains_inv _ _ H) as (a & b & ->).
  rewrite !lower_app, Hn. apply contains_intro.
Qed.

Lemma any_in_intro (w : string) (words : list string) (s : string) :
  In w words -> contains w s = true -> any_in words s = true.
Proof.
  intros Hin H. unfold any_in. apply existsb_exists. exists w. split; assumption.
Qed.

Lemma contains_char (c : ascii) (s : string) :
  contains (String c "") s = has_char c s.
Proof.
  induction s as [|x s IH]; simpl; [reflexivity |].
  rewrite IH, andb_true_r, (Ascii.eqb_sym c x). reflexivity.
Qed.

Lemma startswith_before_sep (c : ascii) (n a b : string) :
  has_char c n = false ->
  startswith n (a +:+ String c b) = startswith n a.
Proof.
  revert n. induction a as [|x a IH]; intros n Hn.
  - destruct n as [|y n]; push_append; simpl; [reflexivity |].
    simpl in Hn. apply orb_false_iff in Hn as [Hy _]. now rewrite Hy.
  - destruct n as [|y n]; push_append; simpl; [reflexivity |].
    simpl in Hn. apply orb_false_iff in Hn as [_ Hn]. now rewrite IH.
Qed.

(** A text without the character [c] cannot lie across an occurrence of
    [c]: it is found on one side of it or not at all. *)
Lemma contains_sep (c : ascii) (n a b : string) :
  has_char c n = false ->
  contains n (a +:+ String c b) = contains n a || contains n b.
Proof.
  intros Hn. induction a as [|x a IH].
  - pose proof (startswith_before_sep c n "" b Hn) as Hs.
    rewrite append_nil_l in *.
    cbn [contains]. rewrite Hs.
    destruct n; simpl; reflexivity.
  - pose proof (startswith_before_sep c n (String x a) b Hn) as Hs.
    rewrite append_cons in *.
    cbn [contains]. rewrite IH, Hs.
    now rewrite orb_assoc.
Qed.

Lemma rev_string_acc (s acc : string) : rev_string s acc = rev_string s "" +:+ acc.
Proof.
  revert acc. induction s as [|x s IH]; intros acc; simpl; [reflexivity |].
  rewrite (IH (String x acc)), (IH (String x "")), append_assoc. reflexivity.
Qed.

Lemma split_on_before_sep (c : ascii) (a b cur : string) :
  has_char c a = false ->
  split_on c (a +:+ String c b) cur = (rev_string cur "" +:+ a) :: split_on c b "".
Proof.
  revert cur. induction a as [|x a IH]; intros cur Ha.
  - push_append. simpl. rewrite Ascii.eqb_refl, append_nil_r. reflexivity.
  - simpl in Ha. apply orb_false_iff in Ha as [Hx Ha].
    push_append. simpl. rewrite Hx, (IH _ Ha). simpl.
    rewrite (rev_string_acc cur (String x "")), append_assoc. reflexivity.
Qed.

(** The second element of [(a + c + m + c + t).split(c)] is [m] when
    neither [a] nor [m] contains [c]. *)
Lemma split_second (c : ascii) (a m t : string) :
  has_char c a = false -> has_char c m = false ->
  nth 1 (split c (a +:+ String c (m +:+ String c t))) "" = m.
Proof.
  intros Ha Hm. unfold split.
  rewrite (split_on_before_sep c a _ "" Ha), (split_on_before_sep c m _ "" Hm).
  reflexivity.
Qed.

End PyStrFacts.

(** ** The fallback of the text-completion service *)

Module FallbackFacts.
Import PyStr PyStrFacts GoogleCalendarService CalendarBookingAgent Examples.

Lemma has_char_sep (c : ascii) (a b : string) : has_char c (a +:+ String c b) = true.
Proof.
  induction a as [|x a IH]; push_append; simpl.
  - now rewrite Ascii.eqb_refl.
  - rewrite IH. apply orb_true_r.
Qed.

(** Without a model the answer is the canned one. *)
Lemma call_llm_offline (env : Env) (prompt : string) :
  llm_available env = false ->
  _call_llm env prompt = Ret (_get_fallback_response prompt).
Proof. intros H. unfold _call_llm. now rewrite H. Qed.

(** A model that raises is answered for by the canned text as well. *)
Lemma call_llm_error (env : Env) (prompt : string) (e : exn) :
  llm_available env = true ->
  generate_content env prompt = Raise e ->
  _call_llm env prompt = Ret (_get_fallback_response prompt).
Proof. intros H1 H2. unfold _call_llm. rewrite H1, H2. reflexivity. Qed.

Lemma call_llm_returns (env : Env) (prompt : string) :
  exists text, _call_llm env prompt = Ret text.
Proof.
  unfold _call_llm. destruct (llm_available env); simpl; [| eauto].
  destruct (generate_content env prompt); simpl; eauto.
Qed.

(** The shape of the three prompts: a head that ends with the opening
    quote, the message, a tail that begins with the closing quote. *)
Lemma intent_prompt_shape (m : string) :
  intent_prompt m =
  before dq_char intent_prompt_head
  +:+ String dq_char (m +:+ String dq_char (drop_front 1 intent_prompt_tail)).
Proof.
  unfold intent_prompt.
  change intent_prompt_tail with (String dq_char (drop_front 1 intent_prompt_tail)).
  change intent_prompt_head with (before dq_char intent_prompt_head +:+ String dq_char "") at 1.
  rewrite append_assoc. reflexivity.
Qed.

Lemma extract_prompt_shape (m : string) :
  extract_prompt m =
  before dq_char extract_prompt_head
  +:+ String dq_char (m +:+ String dq_char (drop_front 1 extract_prompt_tail)).
Proof.
  unfold extract_prompt.
  change extract_prompt_tail with (String dq_char (drop_front 1 extract_prompt_tail)).
  change extract_prompt_head with (before dq_char extract_prompt_head +:+ String dq_char "") at 1.
  rewrite append_assoc. reflexivity.
Qed.

Lemma conversation_prompt_shape (m : string) :
  conversation_prompt m =
  before dq_char conversation_prompt_head
  +:+ String dq_char (m +:+ String dq_char (drop_front 1 conversation_prompt_tail)).
Proof.
  unfold conversation_prompt.
  change conversation_prompt_tail
    with (String dq_char (drop_front 1 conversation_prompt_tail)).
  change conversation_prompt_head
    with (before dq_char conversation_prompt_head +:+ String dq_char "") at 1.
  rewrite append_assoc. reflexivity.
Qed.

(** On a prompt whose head announces the intent question, the fallback
    classifies the quoted message by its keywords. *)
Lemma fallback_on_intent_prompt (h m t : string) :
  contains "intent" (lower h) = true ->
  contains "analyze this user message" (lower h) = true ->
  has_char dq_char h = false ->
  has_char dq_char m = false ->
  _get_fallback_response (h +:+ String dq_char (m +:+ String dq_char t)) =
  if any_in ["schedule"; "book"; "meeting"; "call"; "appointment"] (lower m)
  then "book_appointment"
  else if any_in ["free"; "available"; "availability"; "time"] (lower m)
  then "check_availability"
  else "general_conversation".
Proof.
  intros Hi Ha Hh Hm. unfold _get_fallback_response.
  rewrite lower_app, (contains_app_l _ _ _ Hi), (contains_app_l _ _ _ Ha).
  cbn [andb].
  change dq with (String dq_char "").
  rewrite contains_char, has_char_sep.
  unfold quoted_user_msg. rewrite (split_second _ _ _ _ Hh Hm). reflexivity.
Qed.

(** Intent classification of a message without a double quote, when the
    model is not available. *)
Lemma understand_intent_offline (env : Env) (m : string) :
  llm_available env = false ->
  has_char dq_char m = false ->
  _understand_intent env m =
  Ret (if any_in ["schedule"; "book"; "meeting"; "call"; "appointment"] (lower m)
       then "book_appointment"
       else if any_in ["free"; "available"; "availability"; "time"] (lower m)
       then "check_availability"
       else "general_conversation").
Proof.
  intros Hoff Hm. unfold _understand_intent.
  rewrite (call_llm_offline _ _ Hoff), intent_prompt_shape.
  rewrite fallback_on_intent_prompt; [| reflexivity | reflexivity | reflexivity | exact Hm].
  cbn [exc_bind].
  destruct (any_in _ (lower m)); [reflexivity |].
  destruct (any_in _ (lower m)); reflexivity.
Qed.

(** A message with a scheduling verb and no double quote is classified
    as a booking request. *)
Lemma scheduling_verb_unquoted (env : Env) (m : string) :
  llm_available env = false ->
  has_char dq_char m = false ->
  contains "book" m || contains "schedule" m || contains "meeting" m = true ->
  _understand_intent env m = Ret "book_appointment".
Proof.
  intros Hoff Hm Hverb.
  rewrite (understand_intent_offline env m Hoff Hm).
  replace (any_in ["schedule"; "book"; "meeting"; "call"; "appointment"] (lower m))
    with true; [reflexivity |].
  symmetry.
  apply orb_true_iff in Hverb as [Hverb | Hverb];
    [apply orb_true_iff in Hverb as [Hverb | Hverb] |].
  - apply (any_in_intro "book"); [simpl; tauto | now apply contains_lower].
  - apply (any_in_intro "schedule"); [simpl; tauto | now apply contains_lower].
  - apply (any_in_intro "meeting"); [simpl; tauto | now apply contains_lower].
Qed.

(** C1. The message [Please "book" a room] contains the scheduling verb
    [book], yet without a model its intent is classified as
    [general_conversation]: the fallback reads the message back from the
    prompt up to its first double quote only. *)
Theorem C1_quoted_verb_misclassified (env : Env) :
  llm_available env = false ->
  contains "book" quoted_book_message = true /\
  _understand_intent env quoted_book_message = Ret "general_conversation".
Proof.
  intros Hoff. split; [reflexivity |].
  unfold _understand_intent. rewrite (call_llm_offline _ _ Hoff). reflexivity.
Qed.

Lemma C1_quoted_verb_misclassified_witness :
  contains "book" quoted_book_message = true /\
  _understand_intent offline_env quoted_book_message = Ret "general_conversation".
Proof. apply (C1_quoted_verb_misclassified offline_env). reflexivity. Defined.

End FallbackFacts.

(** ** Matching and dictionaries *)

Module ReFacts.
Import PyStr PyStrFacts Re.

(** A pattern that matches at the start of [s], whatever precedes it,
    is found by a search in any text that ends with [s]. *)
Lemma search_from_suffix (r : regex) (a s : string) :
  (forall pv, run r (MState pv s []) Some <> None) ->
  forall pv, search_from r pv (a +:+ s) <> None.
Proof.
  intros Hs. induction a as [|x a IH]; intros pv; push_append.
  - specialize (Hs pv). destruct s; simpl;
      destruct (run r _ Some); congruence.
  - simpl. destruct (run r _ Some); [congruence | apply IH].
Qed.

Lemma search_suffix (r : regex) (a s : string) :
  (forall pv, run r (MState pv s []) Some <> None) ->
  is_Some (search r (a +:+ s)).
Proof.
  intros Hs. unfold search.
  pose proof (search_from_suffix r a s Hs None) as H.
  destruct (search_from r None (a +:+ s)); [eauto | congruence].
Qed.

(** Each relative day is matched where it stands. *)
Lemma relative_day_here (w b : string) :
  In w ["today"; "tomorrow"] ->
  forall pv, run relative_day_pattern (MState pv (w +:+ b) []) Some <> None.
Proof.
  intros Hw pv. simpl in Hw.
  destruct Hw as [<- | [<- | []]]; vm_compute; discriminate.
Qed.

(** Each weekday name is matched where it stands. *)
Lemma weekday_here (w b : string) :
  In w ["monday"; "tuesday"; "wednesday"; "thursday"; "friday"; "saturday"; "sunday"] ->
  forall pv, run weekday_pattern (MState pv (w +:+ b) []) Some <> None.
Proof.
  intros Hw pv. simpl in Hw.
  destruct Hw as [<- | [<- | [<- | [<- | [<- | [<- | [<- | []]]]]]]];
    vm_compute; discriminate.
Qed.

End ReFacts.

Module JsonFacts.
Import Json.

Lemma dict_get_set_eq (k : string) (v : scalar) (d : dict) :
  dict_get k (dict_set k v d) = Some v.
Proof.
  induction d as [|[k' v'] d IH]; simpl.
  - now rewrite String.eqb_refl.
  - destruct (String.eqb k k') eqn:E; simpl; rewrite E; [reflexivity | exact IH].
Qed.

Lemma dict_get_set_ne (k k' : string) (v : scalar) (d : dict) :
  String.eqb k k' = false ->
  dict_get k (dict_set k' v d) = dict_get k d.
Proof.
  intros Hne. induction d as [|[k0 v0] d IH]; simpl.
  - now rewrite Hne.
  - destruct (String.eqb k' k0) eqn:E; simpl.
    + apply String.eqb_eq in E. subst k0. now rewrite Hne.
    + destruct (String.eqb k k0); [reflexivity | exact IH].
Qed.

End JsonFacts.

(** ** Detail extraction *)

Module ExtractionFacts.
Import PyStr PyStrFacts Re ReFacts Json JsonFacts.
Import GoogleCalendarService CalendarBookingAgent Examples FallbackFacts.

Lemma lower_cons (c : ascii) (s : string) :
  lower (String c s) = String (lower_char c) (lower s).
Proof. reflexivity. Qed.

(** Unless the prompt holds the words the extraction branch of the
    fallback looks for, the canned answer is not JSON. *)
Lemma fallback_not_json (prompt : string) :
  contains "extract booking information" (lower prompt) = false ->
  loads (clean_response (_get_fallback_response prompt)) = Raise JSONDecodeError.
Proof.
  intros H. unfold _get_fallback_response. rewrite H.
  repeat match goal with
         | |- context [if ?c then _ else _] => destruct c
         end; vm_compute; reflexivity.
Qed.

(** The extraction prompt holds those words only if the message does. *)
Lemma extract_prompt_phrase (m : string) :
  contains "extract booking information" (lower (extract_prompt m)) =
  contains "extract booking information" (lower m).
Proof.
  rewrite extract_prompt_shape, lower_app, lower_cons, lower_app, lower_cons.
  change (lower_char dq_char) with dq_char.
  rewrite !(contains_sep dq_char) by reflexivity.
  replace (contains "extract booking information"
             (lower (before dq_char extract_prompt_head)))
    with false by (vm_compute; reflexivity).
  replace (contains "extract booking information"
             (lower (drop_front 1 extract_prompt_tail)))
    with false by (vm_compute; reflexivity).
  now rewrite orb_false_r.
Qed.

(** Without a model, extraction is the regular-expression one for every
    message that does not hold those words. *)
Lemma extract_details_offline (env : Env) (m : string) :
  llm_available env = false ->
  contains "extract booking information" (lower m) = false ->
  _extract_details env m = Ret (JObject (_regex_extract m)).
Proof.
  intros Hoff Hm. unfold _extract_details.
  rewrite (call_llm_offline _ _ Hoff). cbn [exc_bind].
  rewrite fallback_not_json; [reflexivity |].
  now rewrite extract_prompt_phrase.
Qed.

Lemma day_token_matched (w m : string) :
  In w day_tokens -> contains w m = true ->
  is_Some (first_match day_patterns (lower m)).
Proof.
  intros Hw Hm.
  assert (Hlow : lower w = w).
  { simpl in Hw. repeat (destruct Hw as [<- | Hw]; [reflexivity |]). destruct Hw. }
  pose proof (contains_lower w m Hlow Hm) as Hc.
  destruct (contains_inv _ _ Hc) as (a & b & Hab).
  unfold day_patterns, first_match. rewrite Hab.
  simpl in Hw. destruct Hw as [<- | [<- | Hw]].
  - destruct (search_suffix relative_day_pattern a ("today" +:+ b)) as [x ->]; [| eauto].
    apply relative_day_here. simpl. tauto.
  - destruct (search_suffix relative_day_pattern a ("tomorrow" +:+ b)) as [x ->]; [| eauto].
    apply relative_day_here. simpl. tauto.
  - destruct (search relative_day_pattern (a +:+ w +:+ b)); [eauto |].
    destruct (search_suffix weekday_pattern a (w +:+ b)) as [x ->]; [| eauto].
    apply weekday_here. simpl. tauto.
Qed.

(** The regular-expression extraction records a day for every message
    with a day token. *)
Lemma regex_extract_day (w m : string) :
  In w day_tokens -> contains w m = true ->
  dict_get "has_time_info" (_regex_extract m) = Some (JBool true) /\
  exists t, dict_get "day" (_regex_extract m) = Some (JStr t).
Proof.
  intros Hw Hm. destruct (day_token_matched w m Hw Hm) as [mt Hmt].
  unfold _regex_extract. rewrite Hmt.
  split; [| exists (whole mt)];
    repeat match goal with
           | |- context [if ?c then _ else _] => destruct c
           end;
    repeat (rewrite dict_get_set_ne by reflexivity);
    apply dict_get_set_eq.
Qed.

(** Without a model, a message with a day token that does not hold the
    words [extract booking information] gets a record with a day. *)
Lemma day_token_extracted (env : Env) (w m : string) :
  llm_available env = false ->
  contains "extract booking information" (lower m) = false ->
  In w day_tokens -> contains w m = true ->
  exists d t, _extract_details env m = Ret (JObject d)
    /\ dict_get "has_time_info" d = Some (JBool true)
    /\ dict_get "day" d = Some (JStr t).
Proof.
  intros Hoff Hphrase Hw Hm.
  destruct (regex_extract_day w m Hw Hm) as (Htime & t & Hday).
  exists (_regex_extract m), t.
  rewrite (extract_details_offline env m Hoff Hphrase). auto.
Qed.

(** C2. The message [extract booking information for tuesday] holds the
    weekday [tuesday]; without a model its extraction is the dictionary
    the fallback builds, which has [has_time_info] set and no [day]. *)
Theorem C2_weekday_without_day (env : Env) :
  llm_available env = false ->
  contains "tuesday" tuesday_message = true /\
  exists d, _extract_details env tuesday_message = Ret (JObject d)
    /\ dict_get "has_time_info" d = Some (JBool true)
    /\ dict_get "day" d = None.
Proof.
  intros Hoff. split; [reflexivity |].
  exists [("has_time_info", JBool true); ("type", JStr "appointment")].
  unfold _extract_details. rewrite (call_llm_offline _ _ Hoff).
  repeat split; reflexivity.
Qed.

Lemma C2_weekday_without_day_witness :
  contains "tuesday" tuesday_message = true /\
  exists d, _extract_details offline_env tuesday_message = Ret (JObject d)
    /\ dict_get "has_time_info" d = Some (JBool true)
    /\ dict_get "day" d = None.
Proof. apply (C2_weekday_without_day offline_env). reflexivity. Defined.

(** The record extracted from the example message of the specification. *)
Lemma call_message_extracted (env : Env) :
  llm_available env = false ->
  _extract_details env call_message =
  Ret (JObject [("has_time_info", JBool true); ("time", JStr "afternoon");
                ("day", JStr "tomorrow"); ("type", JStr "call")]).
Proof.
  intros Hoff. unfold _extract_details. rewrite (call_llm_offline _ _ Hoff).
  reflexivity.
Qed.

End ExtractionFacts.

(** ** The calendar service *)

Module ServiceFacts.
Import PyStr DateTime Spec GoogleCalendarService Examples.

Lemma frame_refl (w : World) : frame w w.
Proof. unfold frame. auto. Qed.

Lemma frame_trans (w1 w2 w3 : World) : frame w1 w2 -> frame w2 w3 -> frame w1 w3.
Proof.
  unfold frame. intros (Hs1 & Hc1 & Ht1) (Hs2 & Hc2 & Ht2).
  repeat split; [congruence | congruence | lia].
Qed.

Lemma bind_inv {A B : Type} (m : M A) (k : A -> M B) (w w' : World) (r : exc B) :
  bind m k w = (r, w') ->
  (exists a w1, m w = (Ret a, w1) /\ k a w1 = (r, w'))
  \/ (exists e, m w = (Raise e, w') /\ r = Raise e).
Proof.
  unfold bind. destruct (m w) as [[a | e] w1]; intros H.
  - left. eauto.
  - right. inversion H. eauto.
Qed.

Lemma bind_ret {A B : Type} (m : M A) (k : A -> M B) (w w1 : World) (a : A) :
  m w = (Ret a, w1) -> bind m k w = k a w1.
Proof. intros H. unfold bind. now rewrite H. Qed.

Lemma bind_raise {A B : Type} (m : M A) (k : A -> M B) (w w1 : World) (e : exn) :
  m w = (Raise e, w1) -> bind m k w = (Raise e, w1).
Proof. intros H. unfold bind. now rewrite H. Qed.

Lemma bind_ext {A B : Type} (m : M A) (k1 k2 : A -> M B) (w : World) :
  (forall a w1, k1 a w1 = k2 a w1) -> bind m k1 w = bind m k2 w.
Proof. intros H. unfold bind. destruct (m w) as [[a | e] w1]; [apply H | reflexivity]. Qed.

Lemma lift_inv {A : Type} (m : exc A) (w w' : World) (r : exc A) :
  lift m w = (r, w') -> r = m /\ w' = w.
Proof. unfold lift. intros H. inversion H. auto. Qed.

Lemma replace_valid (t : datetime) (h m : Z) :
  0 <= h < 24 -> 0 <= m < 60 ->
  replace t h m = Ret (toordinal t * us_day + h * us_hour + m * us_minute).
Proof.
  intros Hh Hm. unfold replace.
  replace (0 <=? h) with true by (symmetry; apply Z.leb_le; lia).
  replace (h <? 24) with true by (symmetry; apply Z.ltb_lt; lia).
  replace (0 <=? m) with true by (symmetry; apply Z.leb_le; lia).
  replace (m <? 60) with true by (symmetry; apply Z.ltb_lt; lia).
  reflexivity.
Qed.

Section Facts.
Variable env : Env.

Lemma now_frame (w w' : World) (r : exc datetime) :
  now env w = (r, w') ->
  r = Ret (clock env (tick w)) /\ frame w w' /\ tick w' = S (tick w).
Proof.
  unfold now. intros H. inversion H. unfold frame. simpl.
  repeat split; auto.
Qed.

Lemma checked_after_weaken (n0 n1 : nat) (s : CalSlot) :
  (n0 <= n1)%nat -> checked_after env n1 s -> checked_after env n0 s.
Proof. intros Hle (n & Hn & Hlt). exists n. split; [lia | exact Hlt]. Qed.

(** The loop of the simulated calendar: it only reads the clock, and
    every slot it adds was compared with a reading taken meanwhile. *)
Lemma mock_slots_loop_spec (date : datetime) (dur end_hour : Z) (times : list Z) :
  forall (acc : list CalSlot) (w w' : World) (r : exc (list CalSlot)),
    mock_slots_loop env date dur end_hour times acc w = (r, w') ->
    frame w w' /\
    forall res, r = Ret res ->
      forall n0, (n0 <= tick w)%nat ->
        Forall (checked_after env n0) acc -> Forall (checked_after env n0) res.
Proof.
  induction times as [|hour times IH]; intros acc w w' r H.
  - inversion H. subst. split; [apply frame_refl |].
    intros res Hres n0 _ Hacc. now inversion Hres; subst.
  - cbn [mock_slots_loop] in H.
    destruct (hour <? end_hour); [| exact (IH _ _ _ _ H)].
    apply bind_inv in H as [(slot_start & w1 & H1 & H) | (e & H1 & ->)].
    2:{ apply lift_inv in H1 as [_ ->]. split; [apply frame_refl | discriminate]. }
    apply lift_inv in H1 as [Hrep ->].
    apply bind_inv in H as [(t & w1 & H1 & H) | (e & H1 & ->)].
    2:{ apply now_frame in H1 as (? & ? & _). discriminate. }
    apply now_frame in H1 as (Ht & Hfr & Htick). inversion Ht; subst t.
    destruct (clock env (tick w) <? slot_start) eqn:Hcmp.
    + destruct (IH _ _ _ _ H) as [Hfr' Hres]. split; [eapply frame_trans; eauto |].
      intros res -> n0 Hn0 Hacc. apply (Hres res eq_refl n0); [lia |].
      apply Forall_app. split; [exact Hacc |].
      constructor; [| constructor].
      exists (tick w). split; [exact Hn0 |]. simpl. now apply Z.ltb_lt.
    + destruct (IH _ _ _ _ H) as [Hfr' Hres]. split; [eapply frame_trans; eauto |].
      intros res -> n0 Hn0 Hacc. apply (Hres res eq_refl n0); [lia | exact Hacc].
Qed.

Lemma Forall_firstn {A : Type} (P : A -> Prop) (n : nat) (l : list A) :
  Forall P l -> Forall P (firstn n l).
Proof.
  intros H. revert n. induction H as [|x l Hx Hl IH]; intros [|n]; simpl;
    constructor; auto.
Qed.

Lemma mock_slots_spec (date : datetime) (dur : Z) (hours : Z * Z)
    (w w' : World) (r : exc (list CalSlot)) :
  _get_mock_available_slots env date dur hours w = (r, w') ->
  frame w w' /\
  forall res, r = Ret res ->
    (length res <= 3)%nat /\ Forall (checked_after env (tick w)) res.
Proof.
  unfold _get_mock_available_slots. destruct hours as [start_hour end_hour]. intros H.
  apply bind_inv in H as [(t1 & w1 & H1 & H) | (e & H1 & ->)].
  2:{ apply lift_inv in H1 as [_ ->]. split; [apply frame_refl | discriminate]. }
  apply lift_inv in H1 as [_ ->].
  apply bind_inv in H as [(t2 & w1 & H1 & H) | (e & H1 & ->)].
  2:{ apply lift_inv in H1 as [_ ->]. split; [apply frame_refl | discriminate]. }
  apply lift_inv in H1 as [_ ->].
  apply bind_inv in H as [(slots & w1 & H1 & H) | (e & H1 & ->)].
  - destruct (mock_slots_loop_spec _ _ _ _ _ _ _ _ H1) as [Hfr Hres].
    inversion H; subst. split; [exact Hfr |].
    intros res Hr. inversion Hr; subst. split.
    + rewrite length_firstn. lia.
    + apply Forall_firstn. apply (Hres slots eq_refl); [lia | constructor].
  - destruct (mock_slots_loop_spec _ _ _ _ _ _ _ _ H1) as [Hfr _].
    split; [exact Hfr | discriminate].
Qed.

(** The simulated calendar answers whenever the working hours are hours
    of the day. *)
Lemma mock_slots_loop_returns (date : datetime) (dur end_hour : Z) (times : list Z) :
  Forall (fun h => 0 <= h < 24) times ->
  forall acc w, exists res w',
    mock_slots_loop env date dur end_hour times acc w = (Ret res, w').
Proof.
  induction 1 as [|hour times Hh Ht IH]; intros acc w.
  - simpl. unfold ret. eauto.
  - cbn [mock_slots_loop]. destruct (hour <? end_hour); [| apply IH].
    unfold bind, lift. rewrite (replace_valid date hour 0 Hh) by lia.
    unfold now. destruct (_ <? _); apply IH.
Qed.

Lemma mock_slots_returns (date : datetime) (dur : Z) (hours : Z * Z) (w : World) :
  0 <= fst hours < 24 -> 0 <= snd hours < 24 ->
  exists res w', _get_mock_available_slots env date dur hours w = (Ret res, w').
Proof.
  destruct hours as [start_hour end_hour]. simpl. intros Hs He.
  destruct (mock_slots_loop_returns date dur end_hour [9; 11; 14; 16])
    with (acc := @nil CalSlot) (w := w) as (res & w' & Hloop).
  { repeat constructor; lia. }
  exists (firstn 3 res), w'. unfold _get_mock_available_slots.
  erewrite bind_ret; [| unfold lift; rewrite (replace_valid date start_hour 0 Hs) by lia; reflexivity].
  erewrite bind_ret; [| unfold lift; rewrite (replace_valid date end_hour 0 He) by lia; reflexivity].
  erewrite bind_ret; [| exact Hloop].
  reflexivity.
Qed.

(** The loop of the real calendar, with the same two properties. *)
Lemma real_slots_loop_spec (events : list GEvent) (dur : Z) (day_end : datetime)
    (rounds : nat) :
  forall (cur : datetime) (acc : list CalSlot) (w w' : World) (r : exc (list CalSlot)),
    real_slots_loop env rounds events dur day_end cur acc w = (r, w') ->
    frame w w' /\
    forall res, r = Ret res ->
      forall n0, (n0 <= tick w)%nat ->
        Forall (checked_after env n0) acc -> Forall (checked_after env n0) res.
Proof.
  induction rounds as [|rounds IH]; intros cur acc w w' r H.
  - inversion H. subst. split; [apply frame_refl |].
    intros res Hres n0 _ Hacc. now inversion Hres; subst.
  - cbn [real_slots_loop] in H.
    destruct (add_minutes cur dur <=? day_end).
    2:{ inversion H. subst. split; [apply frame_refl |].
        intros res Hres n0 _ Hacc. now inversion Hres; subst. }
    apply bind_inv in H as [(free & w1 & H1 & H) | (e & H1 & ->)].
    2:{ apply lift_inv in H1 as [_ ->]. split; [apply frame_refl | discriminate]. }
    apply lift_inv in H1 as [_ ->].
    apply bind_inv in H as [(keep & w1 & H1 & H) | (e & H1 & ->)].
    + destruct (IH _ _ _ _ _ H) as [Hfr' Hres]. destruct free.
      * apply bind_inv in H1 as [(t & w2 & H2 & H1) | (e & H2 & ?)]; [| discriminate].
        apply now_frame in H2 as (Ht & Hfr & Htick). inversion Ht; subst t.
        inversion H1; subst keep w2. split; [eapply frame_trans; eauto |].
        intros res -> n0 Hn0 Hacc. apply (Hres res eq_refl n0); [lia |].
        destruct (clock env (tick w) <? cur) eqn:Hcmp; [| exact Hacc].
        apply Forall_app. split; [exact Hacc |].
        constructor; [| constructor].
        exists (tick w). split; [exact Hn0 |]. simpl. now apply Z.ltb_lt.
      * inversion H1; subst keep w1. split; [exact Hfr' |].
        intros res -> n0 Hn0 Hacc. exact (Hres res eq_refl n0 Hn0 Hacc).
    + destruct free.
      * apply bind_inv in H1 as [(t & w2 & H2 & H1) | (e' & H2 & ?)].
        -- inversion H1.
        -- apply now_frame in H2 as (Ht & _). discriminate.
      * inversion H1.
Qed.

(** The bound on the iterations of the [while] loop is never what stops
    it: more rounds give the same result. *)
Lemma real_slots_loop_rounds (events : list GEvent) (dur : Z) (day_end : datetime)
    (rounds : nat) :
  forall (extra : nat) (cur : datetime) (acc : list CalSlot) (w : World),
    (rounds_needed dur cur day_end <= rounds)%nat ->
    real_slots_loop env (rounds + extra) events dur day_end cur acc w =
    real_slots_loop env rounds events dur day_end cur acc w.
Proof.
  induction rounds as [|rounds IH]; intros extra cur acc w Hn.
  - assert (Hstop : (add_minutes cur dur <=? day_end) = false).
    { apply Z.leb_gt. unfold rounds_needed in Hn.
      assert (Hz : (day_end - add_minutes cur dur) / (30 * us_minute) + 1 <= 0) by lia.
      assert (Hs : 0 < 30 * us_minute) by reflexivity.
      destruct (Z.lt_ge_cases (day_end - add_minutes cur dur) 0) as [Hlt | Hge]; [lia |].
      pose proof (Z.div_pos _ _ Hge Hs). lia. }
    destruct extra as [|extra]; [reflexivity |].
    simpl. now rewrite Hstop.
  - change (S rounds + extra)%nat with (S (rounds + extra)).
    cbn [real_slots_loop].
    destruct (add_minutes cur dur <=? day_end) eqn:Hgo; [| reflexivity].
    apply Z.leb_le in Hgo.
    assert (Hnext : (rounds_needed dur (add_minutes cur 30) day_end <= rounds)%nat).
    { unfold rounds_needed in *. unfold add_minutes in *.
      replace (day_end - (cur + 30 * us_minute + dur * us_minute))
        with ((day_end - (cur + dur * us_minute)) + (-1) * (30 * us_minute)) by ring.
      rewrite Z.div_add by discriminate.
      assert (0 <= (day_end - (cur + dur * us_minute)) / (30 * us_minute))
        by (apply Z.div_pos; [lia | reflexivity]).
      lia. }
    apply bind_ext. intros free w1.
    apply bind_ext. intros keep w2.
    apply IH. exact Hnext.
Qed.

Lemma real_slots_spec (date : datetime) (dur : Z) (hours : Z * Z)
    (w w' : World) (r : exc (list CalSlot)) :
  _get_real_available_slots env date dur hours w = (r, w') ->
  frame w w' /\
  forall res, r = Ret res ->
    (length res <= 5)%nat /\ Forall (checked_after env (tick w)) res.
Proof.
  unfold _get_real_available_slots. destruct hours as [start_hour end_hour]. intros H.
  apply bind_inv in H as [(t1 & w1 & H1 & H) | (e & H1 & ->)].
  2:{ apply lift_inv in H1 as [_ ->]. split; [apply frame_refl | discriminate]. }
  apply lift_inv in H1 as [_ ->].
  apply bind_inv in H as [(t2 & w1 & H1 & H) | (e & H1 & ->)].
  2:{ apply lift_inv in H1 as [_ ->]. split; [apply frame_refl | discriminate]. }
  apply lift_inv in H1 as [_ ->].
  apply bind_inv in H as [(events & w1 & H1 & H) | (e & H1 & ->)].
  2:{ apply lift_inv in H1 as [_ ->]. split; [apply frame_refl | discriminate]. }
  apply lift_inv in H1 as [_ ->].
  apply bind_inv in H as [(slots & w1 & H1 & H) | (e & H1 & ->)].
  - destruct (real_slots_loop_spec _ _ _ _ _ _ _ _ _ H1) as [Hfr Hres].
    inversion H; subst. split; [exact Hfr |].
    intros res Hr. inversion Hr; subst. split.
    + rewrite length_firstn. lia.
    + apply Forall_firstn. apply (Hres slots eq_refl); [lia | constructor].
  - destruct (real_slots_loop_spec _ _ _ _ _ _ _ _ _ H1) as [Hfr _].
    split; [exact Hfr | discriminate].
Qed.

Lemma get_available_slots_spec (date : datetime) (dur : Z) (hours : Z * Z)
    (w w' : World) (r : exc (list CalSlot)) :
  get_available_slots env date dur hours w = (r, w') ->
  frame w w' /\
  forall res, r = Ret res ->
    (length res <= 5)%nat /\ Forall (checked_after env (tick w)) res.
Proof.
  unfold get_available_slots. destruct (mock_mode env).
  - intros H. destruct (mock_slots_spec _ _ _ _ _ _ H) as [Hfr Hres].
    split; [exact Hfr |]. intros res Hr. destruct (Hres res Hr). split; [lia | assumption].
  - unfold try_catch.
    destruct (_get_real_available_slots env date dur hours w) as [[slots | e] w1] eqn:Hreal;
      intros H.
    + inversion H; subst. exact (real_slots_spec _ _ _ _ _ _ Hreal).
    + destruct (real_slots_spec _ _ _ _ _ _ Hreal) as [Hfr1 _].
      destruct (mock_slots_spec _ _ _ _ _ _ H) as [Hfr2 Hres].
      split; [eapply frame_trans; eauto |].
      intros res Hr. destruct (Hres res Hr) as [Hlen Hall]. split; [lia |].
      eapply Forall_impl; [exact Hall |].
      intros s. apply checked_after_weaken. destruct Hfr1 as (_ & _ & Ht). exact Ht.
Qed.

(** Slot listing answers for every date and duration at hours of the
    day, in either mode and whatever the provider does. *)
Lemma get_available_slots_returns (date : datetime) (dur : Z) (hours : Z * Z) (w : World) :
  0 <= fst hours < 24 -> 0 <= snd hours < 24 ->
  exists res w', get_available_slots env date dur hours w = (Ret res, w').
Proof.
  intros Hs He. unfold get_available_slots. destruct (mock_mode env).
  - now apply mock_slots_returns.
  - unfold try_catch.
    destruct (_get_real_available_slots env date dur hours w) as [[slots | e] w1].
    + eauto.
    + now apply mock_slots_returns.
Qed.

(** [create_event] answers with a success, records its call and touches
    nothing else. *)
Lemma create_event_spec (title : string) (t1 t2 : datetime) (description : string)
    (attendees : list string) (w w' : World) (r : exc EventResult) :
  create_event env title t1 t2 description attendees w = (r, w') ->
  sessions w' = sessions w /\ tick w' = tick w /\
  created w' = (created w ++ [{| call_title := title; call_start := t1; call_end := t2;
                                 call_description := description;
                                 call_attendees := attendees |}])%list /\
  exists res, r = Ret res /\ success res = true.
Proof.
  unfold create_event, bind, record_call, try_catch, _create_real_event,
    _create_mock_event, bind, lift, ret, raise.
  destruct (mock_mode env); simpl.
  - intros H. inversion H; subst. simpl. repeat split; eauto.
  - destruct (events_insert env _) as [[[id |] link] | e]; simpl;
      intros H; inversion H; subst; simpl; repeat split; eauto.
Qed.

End Facts.

(** C4. A slot the availability engine returns starts later than the
    time of the call, on the simulated path, on the real path and through
    [get_available_slots], for every date, duration and pair of working
    hours, as long as the clock does not run before the time of the
    call. *)
Theorem C4_slots_start_after_call (env : Env) (date : datetime) (dur : Z)
    (hours : Z * Z) (w w' : World) (slots : list CalSlot) :
  clock_not_before env (tick w) ->
  get_available_slots env date dur hours w = (Ret slots, w')
  \/ _get_mock_available_slots env date dur hours w = (Ret slots, w')
  \/ _get_real_available_slots env date dur hours w = (Ret slots, w') ->
  Forall (fun s => clock env (tick w) < slot_start s) slots.
Proof.
  intros Hclock H.
  assert (Hall : Forall (checked_after env (tick w)) slots).
  { destruct H as [H | [H | H]].
    - apply (proj2 (get_available_slots_spec env _ _ _ _ _ _ H) slots eq_refl).
    - apply (proj2 (mock_slots_spec env _ _ _ _ _ _ H) slots eq_refl).
    - apply (proj2 (real_slots_spec env _ _ _ _ _ _ H) slots eq_refl). }
  eapply Forall_impl; [exact Hall |].
  intros s (n & Hn & Hlt). specialize (Hclock n Hn). lia.
Qed.

Lemma C4_slots_start_after_call_witness :
  exists slots w',
    get_available_slots morning_env (clock morning_env 0) 60 default_working_hours
      empty_world = (Ret slots, w')
    /\ length slots = 3%nat
    /\ Forall (fun s => clock morning_env 0 < slot_start s) slots.
Proof.
  eexists. eexists. split; [vm_compute; reflexivity |]. split; [reflexivity |].
  apply (C4_slots_start_after_call morning_env (clock morning_env 0) 60
           default_working_hours empty_world
           {| sessions := ∅; created := []; tick := 4 |}).
  - intros n Hn. unfold morning_env, clock. simpl. lia.
  - left. vm_compute. reflexivity.
Defined.

End ServiceFacts.

(** ** The agent: availability and direct booking *)

Module AgentFacts.
Import PyStr PyStrFacts DateTime Json JsonFacts Spec.
Import GoogleCalendarService CalendarBookingAgent Examples.
Import FallbackFacts ExtractionFacts ServiceFacts.

Lemma ret_inv {A : Type} (a : A) (w w' : World) (r : exc A) :
  ret a w = (r, w') -> r = Ret a /\ w' = w.
Proof. unfold ret. intros H. inversion H. auto. Qed.

Section Facts.
Variable env : Env.

Lemma parse_date_spec (d : scalar) (w w' : World) (r : exc datetime) :
  _parse_date env d w = (r, w') -> frame w w' /\ tick w' = S (tick w).
Proof.
  unfold _parse_date. intros H.
  apply bind_inv in H as [(today & w1 & H1 & H) | (e & H1 & ->)].
  2:{ apply now_frame in H1 as (? & ? & ?). auto. }
  apply now_frame in H1 as (_ & Hfr & Htick).
  apply bind_inv in H as [(day & w2 & H2 & H) | (e & H2 & ->)].
  2:{ apply lift_inv in H2 as [_ ->]. auto. }
  apply lift_inv in H2 as [_ ->].
  repeat match type of H with
         | (if ?c then _ else _) _ = _ => destruct c
         end;
    apply ret_inv in H as [_ ->]; auto.
Qed.

Lemma parse_date_returns (s : string) (w : World) :
  exists t w', _parse_date env (JStr s) w = (Ret t, w').
Proof.
  unfold _parse_date, bind, now, lift, ret. simpl.
  repeat match goal with
         | |- context [if ?c then _ else _] => destruct c
         end; eauto.
Qed.

Lemma offered_available (slots : list CalSlot) :
  Forall (fun s => available s = true) (map offered slots).
Proof. induction slots; simpl; constructor; auto. Qed.

(** The availability check only reads the clock, and what it returns is
    at most three slots, each marked available. *)
Lemma check_availability_spec (info : dict) (w w' : World) (r : exc (list Slot)) :
  _check_availability env info w = (r, w') ->
  frame w w' /\
  forall slots, r = Ret slots ->
    (length slots <= 3)%nat /\ Forall (fun s => available s = true) slots.
Proof.
  unfold _check_availability. intros H.
  apply bind_inv in H as [(target & w1 & H1 & H) | (e & H1 & ->)].
  2:{ apply parse_date_spec in H1 as [? _]. split; [assumption | discriminate]. }
  apply parse_date_spec in H1 as [Hfr1 _].
  apply bind_inv in H as [(cal & w2 & H2 & H) | (e & H2 & ->)].
  2:{ apply get_available_slots_spec in H2 as [? _].
      split; [eapply frame_trans; eauto | discriminate]. }
  apply get_available_slots_spec in H2 as [Hfr2 _].
  apply ret_inv in H as [-> ->].
  split; [eapply frame_trans; eauto |].
  intros slots Hs. inversion Hs; subst. split.
  - rewrite length_map, length_firstn. lia.
  - apply offered_available.
Qed.

Lemma check_availability_returns (info : dict) (w : World) :
  day_is_text info ->
  exists slots w', _check_availability env info w = (Ret slots, w').
Proof.
  intros Hday. unfold _check_availability.
  assert (Hs : exists s, get_default "day" (JStr "tomorrow") info = JStr s).
  { unfold get_default, day_is_text in *.
    destruct (dict_get "day" info) as [[| | |s] |]; try contradiction; eauto. }
  destruct Hs as [s ->].
  destruct (parse_date_returns s w) as (t & w1 & Hp).
  erewrite bind_ret; [| exact Hp].
  destruct (get_available_slots_returns env t 60 default_working_hours w1)
    as (cal & w2 & Hg); [simpl; lia | simpl; lia |].
  erewrite bind_ret; [| exact Hg].
  unfold ret. eauto.
Qed.

(** What a direct booking does to the world: the sessions stay, and an
    event is created only together with a success, for a start that is
    later than the clock reading it was compared with. *)
Lemma direct_book_spec (info : dict) (w w' : World) (r : exc BookingResult) :
  _direct_book_appointment env info w = (r, w') ->
  sessions w' = sessions w /\
  exists b, r = Ret b /\
    ((b_success b = false /\ created w' = created w)
     \/ (b_success b = true /\ exists c,
          created w' = (created w ++ [c])%list
          /\ clock env (S (tick w)) < call_start c)).
Proof.
  unfold _direct_book_appointment, try_catch.
  match goal with
  | |- context [match ?body w with _ => _ end] =>
      destruct (body w) as [[b | e] w1] eqn:Hbody
  end.
  2:{ intros H. apply ret_inv in H as [-> ->].
      apply bind_inv in Hbody as [(target & w2 & H1 & Hbody) | (e1 & H1 & _)].
      2:{ apply parse_date_spec in H1 as [(Hs & Hc & _) _].
          split; [exact Hs |]. eexists. split; [reflexivity |]. left. auto. }
      pose proof (parse_date_spec _ _ _ _ H1) as [(Hs1 & Hc1 & _) Htick1].
      apply bind_inv in Hbody as [(time_str & w3 & H2 & Hbody) | (e2 & H2 & _)].
      2:{ apply lift_inv in H2 as [_ ->].
          split; [exact Hs1 |]. eexists. split; [reflexivity |]. left. auto. }
      apply lift_inv in H2 as [_ ->].
      destruct (parse_time (lower time_str)) as [hour minute].
      apply bind_inv in Hbody as [(start & w3 & H3 & Hbody) | (e3 & H3 & _)].
      2:{ apply lift_inv in H3 as [_ ->].
          split; [exact Hs1 |]. eexists. split; [reflexivity |]. left. auto. }
      apply lift_inv in H3 as [_ ->].
      apply bind_inv in Hbody as [(t & w3 & H4 & Hbody) | (e4 & H4 & _)].
      2:{ apply now_frame in H4 as (? & _). discriminate. }
      apply now_frame in H4 as (Ht & (Hs2 & Hc2 & _) & _).
      destruct (start <=? t); [apply ret_inv in Hbody as [? _]; discriminate |].
      apply bind_inv in Hbody as [(mt & w4 & H5 & Hbody) | (e5 & H5 & _)].
      2:{ apply lift_inv in H5 as [_ ->].
          split; [congruence |]. eexists. split; [reflexivity |]. left.
          split; [reflexivity | congruence]. }
      apply lift_inv in H5 as [_ ->].
      apply bind_inv in Hbody as [(res & w4 & H6 & Hbody) | (e6 & H6 & _)].
      - destruct (success res); apply ret_inv in Hbody as [? _]; discriminate.
      - apply create_event_spec in H6 as (_ & _ & _ & res & ? & _). discriminate. }
  intros H. inversion H; subst r w'. clear H.
  apply bind_inv in Hbody as [(target & w2 & H1 & Hbody) | (e1 & H1 & ?)]; [| discriminate].
  pose proof (parse_date_spec _ _ _ _ H1) as [(Hs1 & Hc1 & _) Htick1].
  apply bind_inv in Hbody as [(time_str & w3 & H2 & Hbody) | (e2 & H2 & ?)]; [| discriminate].
  apply lift_inv in H2 as [_ ->].
  destruct (parse_time (lower time_str)) as [hour minute].
  apply bind_inv in Hbody as [(start & w3 & H3 & Hbody) | (e3 & H3 & ?)]; [| discriminate].
  apply lift_inv in H3 as [_ ->].
  apply bind_inv in Hbody as [(t & w3 & H4 & Hbody) | (e4 & H4 & ?)]; [| discriminate].
  apply now_frame in H4 as (Ht & (Hs2 & Hc2 & _) & Htick2).
  inversion Ht; subst t. rewrite Htick1 in *.
  destruct (start <=? clock env (S (tick w))) eqn:Hcmp.
  { apply ret_inv in Hbody as [Hb ->]. inversion Hb; subst.
    split; [congruence |]. eexists. split; [reflexivity |]. left.
    split; [reflexivity | congruence]. }
  apply Z.leb_gt in Hcmp.
  apply bind_inv in Hbody as [(mt & w4 & H5 & Hbody) | (e5 & H5 & ?)]; [| discriminate].
  apply lift_inv in H5 as [_ ->].
  apply bind_inv in Hbody as [(res & w4 & H6 & Hbody) | (e6 & H6 & ?)]; [| discriminate].
  apply create_event_spec in H6 as (Hs3 & _ & Hc3 & res' & Hres & Hsucc).
  inversion Hres; subst res'. rewrite Hsucc in Hbody.
  apply ret_inv in Hbody as [Hb ->]. inversion Hb; subst.
  split; [congruence |]. eexists. split; [reflexivity |]. right.
  split; [reflexivity |]. eexists. split; [rewrite Hc3, Hc2, Hc1; reflexivity |]. exact Hcmp.
Qed.

(** A direct booking whose start is not later than the clock is
    rejected with the past-time message, and no event is created. *)
Lemma direct_book_past_rejected (info : dict) (w w1 : World)
    (target start : datetime) (time_str : string) (hour minute : Z) :
  _parse_date env (get_default "day" (JStr "tomorrow") info) w = (Ret target, w1) ->
  as_str (get_default "time" (JStr "") info) = Ret time_str ->
  parse_time (lower time_str) = (hour, minute) ->
  replace target hour minute = Ret start ->
  start <= clock env (tick w1) ->
  exists w',
    _direct_book_appointment env info w = (Ret (failure (past_message start)), w')
    /\ created w' = created w /\ sessions w' = sessions w.
Proof.
  intros Hdate Htime Hparse Hstart Hpast.
  pose proof (parse_date_spec _ _ _ _ Hdate) as [(Hs1 & Hc1 & _) _].
  unfold _direct_book_appointment, try_catch.
  erewrite bind_ret; [| exact Hdate].
  erewrite bind_ret; [| unfold lift; rewrite Htime; reflexivity].
  rewrite Hparse.
  erewrite bind_ret; [| unfold lift; rewrite Hstart; reflexivity].
  erewrite bind_ret; [| reflexivity].
  replace (start <=? clock env (tick w1)) with true by (symmetry; now apply Z.leb_le).
  unfold ret. eexists. split; [reflexivity |]. simpl. auto.
Qed.

End Facts.

(** C3. [confirm_booking] has no check of the start time: in a world
    whose clock reads 14:05 on 29 February 2024, confirming the offered
    09:00 slot of that day creates the event and reports a success. *)
Theorem C3_confirm_books_started_slot :
  exists b w' c,
    confirm_booking offline_env "s1" 0 late_world = (Ret b, w')
    /\ b_success b = true
    /\ created w' = [c]
    /\ call_start c <= clock offline_env (tick late_world).
Proof.
  do 3 eexists. split; [vm_compute; reflexivity |].
  split; [reflexivity |]. split; [reflexivity |].
  vm_compute. discriminate.
Qed.

(** C5. Confirming with an index outside the offered list fails and
    leaves the whole world, sessions and created events, as it was. *)
Theorem C5_confirm_out_of_bounds (env : Env) (sid : string) (slot_index : Z)
    (w : World) (s : Session) :
  sessions w !! sid = Some s ->
  slot_index < 0 \/ Z.of_nat (length (available_slots s)) <= slot_index ->
  confirm_booking env sid slot_index w = (Ret (failure "Invalid slot selection"), w)
  /\ b_success (failure "Invalid slot selection") = false.
Proof.
  intros Hs Hout. unfold confirm_booking. rewrite Hs. split; [| reflexivity].
  destruct (0 <=? slot_index) eqn:H0; [| reflexivity].
  destruct (slot_index <? Z.of_nat (length (available_slots s))) eqn:H1; [| reflexivity].
  apply Z.leb_le in H0. apply Z.ltb_lt in H1. lia.
Qed.

Lemma C5_confirm_out_of_bounds_witness :
  confirm_booking offline_env "s1" 1 late_world
    = (Ret (failure "Invalid slot selection"), late_world)
  /\ b_success (failure "Invalid slot selection") = false.
Proof.
  apply (C5_confirm_out_of_bounds offline_env "s1" 1 late_world offered_session).
  - reflexivity.
  - right. simpl. lia.
Defined.

(** An unknown session is refused as well, with nothing changed. *)
Lemma confirm_unknown_session (env : Env) (sid : string) (slot_index : Z) (w : World) :
  sessions w !! sid = None ->
  confirm_booking env sid slot_index w = (Ret (failure "Session not found"), w).
Proof. intros Hs. unfold confirm_booking. now rewrite Hs. Qed.

(** C8. Whatever the extracted information, the list the availability
    check produces has at most three slots, each marked available; and
    the check does produce a list whenever the day of the record is
    absent or a text. *)
Theorem C8_offered_slots_bounded (env : Env) (info : dict) (w : World) :
  (forall r w', _check_availability env info w = (r, w') ->
     forall slots, r = Ret slots ->
       (length slots <= 3)%nat /\ Forall (fun s => available s = true) slots)
  /\ (day_is_text info ->
      exists slots w', _check_availability env info w = (Ret slots, w')).
Proof.
  split.
  - intros r w' H. exact (proj2 (check_availability_spec env info w w' r H)).
  - apply check_availability_returns.
Qed.

Lemma C8_offered_slots_bounded_witness :
  exists slots w',
    _check_availability morning_env [("day", JStr "today")] empty_world = (Ret slots, w')
    /\ (length slots <= 3)%nat /\ Forall (fun s => available s = true) slots.
Proof.
  destruct (C8_offered_slots_bounded morning_env [("day", JStr "today")] empty_world)
    as [Hbound Hret].
  destruct (Hret I) as (slots & w' & Hrun).
  exists slots, w'. split; [exact Hrun |].
  exact (Hbound (Ret slots) w' Hrun slots eq_refl).
Defined.

End AgentFacts.

(** ** Failures of the collaborators *)

Module FailureFacts.
Import PyStr DateTime Json Spec.
Import GoogleCalendarService CalendarBookingAgent Examples.
Import FallbackFacts ExtractionFacts ServiceFacts AgentFacts.

Lemma call_llm_degrades (env : Env) (prompt : string) :
  llm_available env = false \/ (exists e, generate_content env prompt = Raise e) ->
  _call_llm env prompt = Ret (_get_fallback_response prompt).
Proof.
  intros [Hoff | [e He]]; [now apply call_llm_offline |].
  destruct (llm_available env) eqn:Hon.
  - now apply (call_llm_error env prompt e).
  - now apply call_llm_offline.
Qed.

Lemma understand_intent_returns (env : Env) (m : string) :
  exists intent, _understand_intent env m = Ret intent.
Proof.
  unfold _understand_intent.
  destruct (call_llm_returns env (intent_prompt m)) as [text ->].
  cbn [exc_bind]. eauto.
Qed.

Lemma extract_details_returns (env : Env) (m : string) :
  exists v, _extract_details env m = Ret v.
Proof.
  unfold _extract_details.
  destruct (call_llm_returns env (extract_prompt m)) as [text ->].
  cbn [exc_bind]. destruct (loads (clean_response text)); cbn [try_except]; eauto.
Qed.

Lemma create_event_returns (env : Env) (title : string) (t1 t2 : datetime)
    (description : string) (attendees : list string) (w : World) :
  exists res w', create_event env title t1 t2 description attendees w = (Ret res, w').
Proof.
  destruct (create_event env title t1 t2 description attendees w) as [r w'] eqn:H.
  destruct (create_event_spec env _ _ _ _ _ _ _ _ H) as (_ & _ & _ & res & -> & _).
  eauto.
Qed.

(** C7. No failure of a collaborator reaches the caller.  With the model
    unavailable or raising, [_call_llm] gives the canned answer, so that
    intent classification is the keyword one and extraction is the
    parsed canned answer or else the regular-expression record; when
    [json.loads] raises, extraction is the regular-expression record;
    when the real calendar raises, slot listing and event creation give
    what the simulated calendar gives; and each of the four operations
    returns a value. *)
Theorem C7_failures_do_not_propagate (env : Env) :
  (forall m,
     llm_available env = false
     \/ (exists e, generate_content env (intent_prompt m) = Raise e) ->
     _understand_intent env m
     = Ret (lower (strip (_get_fallback_response (intent_prompt m)))))
  /\ (forall m,
       llm_available env = false
       \/ (exists e, generate_content env (extract_prompt m) = Raise e) ->
       _extract_details env m
       = Ret (match loads (clean_response (_get_fallback_response (extract_prompt m))) with
              | Ret v => v
              | Raise _ => JObject (_regex_extract m)
              end))
  /\ (forall m response e,
       _call_llm env (extract_prompt m) = Ret response ->
       loads (clean_response response) = Raise e ->
       _extract_details env m = Ret (JObject (_regex_extract m)))
  /\ (forall date dur hours w e w1,
       mock_mode env = false ->
       _get_real_available_slots env date dur hours w = (Raise e, w1) ->
       get_available_slots env date dur hours w
       = _get_mock_available_slots env date dur hours w1)
  /\ (forall title t1 t2 description attendees w e w1 w2,
       mock_mode env = false ->
       record_call {| call_title := title; call_start := t1; call_end := t2;
                      call_description := description;
                      call_attendees := attendees |} w = (Ret tt, w1) ->
       _create_real_event env
         {| call_title := title; call_start := t1; call_end := t2;
            call_description := description; call_attendees := attendees |} w1
       = (Raise e, w2) ->
       create_event env title t1 t2 description attendees w
       = _create_mock_event env
           {| call_title := title; call_start := t1; call_end := t2;
              call_description := description; call_attendees := attendees |} w2)
  /\ (forall m, exists intent, _understand_intent env m = Ret intent)
  /\ (forall m, exists v, _extract_details env m = Ret v)
  /\ (forall date dur w, exists slots w',
       get_available_slots env date dur default_working_hours w = (Ret slots, w'))
  /\ (forall title t1 t2 description attendees w, exists res w',
       create_event env title t1 t2 description attendees w = (Ret res, w')).
Proof.
  refine (conj _ (conj _ (conj _ (conj _ (conj _ (conj _ (conj _ (conj _ _)))))))).
  - intros m H. unfold _understand_intent.
    rewrite (call_llm_degrades env _ H). cbn [exc_bind]. reflexivity.
  - intros m H. unfold _extract_details.
    rewrite (call_llm_degrades env _ H). cbn [exc_bind].
    destruct (loads _); cbn [try_except]; reflexivity.
  - intros m response e Hcall Hloads. unfold _extract_details.
    rewrite Hcall. cbn [exc_bind]. rewrite Hloads. reflexivity.
  - intros date dur hours w e w1 Hmode Hreal. unfold get_available_slots, try_catch.
    rewrite Hmode, Hreal. reflexivity.
  - intros title t1 t2 description attendees w e w1 w2 Hmode Hrec Hreal.
    unfold create_event. erewrite bind_ret; [| exact Hrec].
    unfold try_catch. rewrite Hmode, Hreal. reflexivity.
  - apply understand_intent_returns.
  - apply extract_details_returns.
  - intros date dur w. apply get_available_slots_returns; simpl; lia.
  - apply create_event_returns.
Qed.

Lemma C7_failures_do_not_propagate_witness :
  _understand_intent failing_env call_message = Ret "book_appointment"
  /\ get_available_slots failing_env (clock failing_env 0) 60 default_working_hours
       empty_world
     = _get_mock_available_slots failing_env (clock failing_env 0) 60
         default_working_hours empty_world.
Proof.
  destruct (C7_failures_do_not_propagate failing_env)
    as (Hintent & _ & _ & Hslots & _).
  split.
  - rewrite (Hintent call_message); [reflexivity |].
    right. exists ServiceError. reflexivity.
  - apply (Hslots _ _ _ _ ServiceError empty_world); reflexivity.
Defined.

End FailureFacts.

(** ** The session store through [process_message] *)

Module ProcessFacts.
Import PyStr PyStrFacts DateTime Json JsonFacts Spec.
Import GoogleCalendarService CalendarBookingAgent Examples.
Import FallbackFacts ExtractionFacts ServiceFacts AgentFacts FailureFacts.

Lemma session_step_refl (s : Session) : session_step s s.
Proof. split; auto. Qed.

Lemma session_step_trans (s1 s2 s3 : Session) :
  session_step s1 s2 -> session_step s2 s3 -> session_step s1 s3.
Proof. intros [Hm1 Hb1] [Hm2 Hb2]. split; [congruence | auto]. Qed.

Lemma store_step_refl (w : World) : store_step w w.
Proof. intros sid. destruct (sessions w !! sid); [apply session_step_refl | exact I]. Qed.

Lemma store_step_trans (w1 w2 w3 : World) :
  store_step w1 w2 -> store_step w2 w3 -> store_step w1 w3.
Proof.
  intros H12 H23 sid. specialize (H12 sid). specialize (H23 sid).
  destruct (sessions w1 !! sid), (sessions w2 !! sid), (sessions w3 !! sid);
    try contradiction; try exact I.
  eapply session_step_trans; eauto.
Qed.

Lemma store_step_same (w w' : World) : sessions w' = sessions w -> store_step w w'.
Proof. intros H sid. rewrite H. destruct (sessions w !! sid); [apply session_step_refl | exact I]. Qed.

(** An assignment through the session reference, when what is assigned
    respects [session_step]. *)
Lemma update_session_spec (sid : string) (f : Session -> Session)
    (w w' : World) (r : exc unit) :
  update_session sid f w = (r, w') ->
  r = Ret tt /\ created w' = created w /\ tick w' = tick w
  /\ sessions w' = alter f sid (sessions w).
Proof. unfold update_session. intros H. inversion H. simpl. auto. Qed.

Lemma update_session_step (sid : string) (f : Session -> Session) (w w' : World)
    (r : exc unit) :
  (forall s, session_step s (f s)) ->
  update_session sid f w = (r, w') -> store_step w w'.
Proof.
  intros Hf H. apply update_session_spec in H as (_ & _ & _ & Hs).
  intros sid'. rewrite Hs. destruct (decide (sid = sid')) as [<- | Hne].
  - rewrite lookup_alter_eq. destruct (sessions w !! sid); simpl; [apply Hf | exact I].
  - rewrite lookup_alter_ne by exact Hne.
    destruct (sessions w !! sid'); [apply session_step_refl | exact I].
Qed.

Lemma set_booking_confirmed_step (b : bool) (s : Session) :
  session_step s (set_booking_confirmed b s).
Proof. split; auto. Qed.

Lemma set_extracted_info_step (d : dict) (s : Session) :
  session_step s (set_extracted_info d s).
Proof. split; auto. Qed.

Lemma set_available_slots_step (l : list Slot) (s : Session) :
  bounded_offer l -> session_step s (set_available_slots l s).
Proof. intros Hl. split; auto. Qed.

Lemma bounded_offer_nil : bounded_offer [].
Proof. split; [simpl; lia | constructor]. Qed.

Section Facts.
Variable env : Env.

(** The booking branch changes the store by steps only. *)
Lemma book_branch_spec (m sid : string) (w w' : World) (r : exc string) :
  book_branch env m sid w = (r, w') -> store_step w w'.
Proof.
  unfold book_branch. intros H.
  apply bind_inv in H as [(extracted & w1 & H1 & H) | (e & H1 & _)].
  2:{ apply lift_inv in H1 as [_ ->]. apply store_step_refl. }
  apply lift_inv in H1 as [_ ->].
  apply bind_inv in H as [(info & w1 & H1 & H) | (e & H1 & _)].
  2:{ apply lift_inv in H1 as [_ ->]. apply store_step_refl. }
  apply lift_inv in H1 as [_ ->].
  destruct (truthy _); [| apply ret_inv in H as [_ ->]; apply store_step_refl].
  apply bind_inv in H as [(direct & w1 & H1 & H) | (e & H1 & _)].
  2:{ apply direct_book_spec in H1 as [Hs _]. now apply store_step_same. }
  apply direct_book_spec in H1 as [Hs1 _].
  apply (store_step_trans _ w1); [now apply store_step_same |].
  destruct (b_success direct).
  - apply bind_inv in H as [([] & w2 & H2 & H) | (e & H2 & _)].
    2:{ apply update_session_spec in H2 as (? & _). discriminate. }
    apply (store_step_trans _ w2).
    { eapply update_session_step; [| exact H2]. apply set_booking_confirmed_step. }
    apply bind_inv in H as [([] & w3 & H3 & H) | (e & H3 & _)].
    2:{ apply update_session_spec in H3 as (? & _). discriminate. }
    apply ret_inv in H as [_ ->].
    eapply update_session_step; [| exact H3].
    intros s. apply set_available_slots_step, bounded_offer_nil.
  - apply bind_inv in H as [(slots & w2 & H2 & H) | (e & H2 & _)].
    2:{ apply check_availability_spec in H2 as [(Hs & _) _]. now apply store_step_same. }
    apply check_availability_spec in H2 as [(Hs2 & _) Hslots].
    apply (store_step_trans _ w2); [now apply store_step_same |].
    apply bind_inv in H as [([] & w3 & H3 & H) | (e & H3 & _)].
    2:{ apply update_session_spec in H3 as (? & _). discriminate. }
    apply (store_step_trans _ w3).
    { eapply update_session_step; [| exact H3].
      intros s. apply set_available_slots_step. exact (Hslots slots eq_refl). }
    apply bind_inv in H as [([] & w4 & H4 & H) | (e & H4 & _)].
    2:{ apply update_session_spec in H4 as (? & _). discriminate. }
    apply ret_inv in H as [_ ->].
    eapply update_session_step; [| exact H4]. apply set_extracted_info_step.
Qed.

(** The availability branch does the same and creates no event. *)
Lemma availability_branch_spec (m sid : string) (w w' : World) (r : exc string) :
  availability_branch env m sid w = (r, w') ->
  store_step w w' /\ created w' = created w.
Proof.
  unfold availability_branch. intros H.
  apply bind_inv in H as [(extracted & w1 & H1 & H) | (e & H1 & _)].
  2:{ apply lift_inv in H1 as [_ ->]. split; [apply store_step_refl | reflexivity]. }
  apply lift_inv in H1 as [_ ->].
  apply bind_inv in H as [(info & w1 & H1 & H) | (e & H1 & _)].
  2:{ apply lift_inv in H1 as [_ ->]. split; [apply store_step_refl | reflexivity]. }
  apply lift_inv in H1 as [_ ->].
  destruct (truthy _).
  2:{ apply ret_inv in H as [_ ->]. split; [apply store_step_refl | reflexivity]. }
  apply bind_inv in H as [(slots & w2 & H2 & H) | (e & H2 & _)].
  2:{ apply check_availability_spec in H2 as [(Hs & Hc & _) _].
      split; [now apply store_step_same | exact Hc]. }
  apply check_availability_spec in H2 as [(Hs2 & Hc2 & _) Hslots].
  apply bind_inv in H as [([] & w3 & H3 & H) | (e & H3 & _)].
  2:{ apply update_session_spec in H3 as (? & _). discriminate. }
  apply bind_inv in H as [([] & w4 & H4 & H) | (e & H4 & _)].
  2:{ apply update_session_spec in H4 as (? & _). discriminate. }
  apply ret_inv in H as [_ ->].
  split.
  - apply (store_step_trans _ w2); [now apply store_step_same |].
    apply (store_step_trans _ w3).
    + eapply update_session_step; [| exact H3].
      intros s. apply set_available_slots_step. exact (Hslots slots eq_refl).
    + eapply update_session_step; [| exact H4]. apply set_extracted_info_step.
  - apply update_session_spec in H3 as (_ & Hc3 & _).
    apply update_session_spec in H4 as (_ & Hc4 & _). congruence.
Qed.

(** The conversation branch changes nothing at all. *)
Lemma conversation_branch_spec (m sid : string) (w w' : World) (r : exc string) :
  conversation_branch env m sid w = (r, w') -> w' = w.
Proof.
  unfold conversation_branch, bind, session_data, lift.
  destruct (sessions w !! sid); intros H; inversion H; reflexivity.
Qed.

(** [process_message], step by step. *)
Lemma process_message_unfold (m sid : string) (w : World) :
  process_message env m sid w =
  match _understand_intent env m with
  | Raise e => (Raise e, entered m sid w)
  | Ret intent =>
      match branch_of env intent m sid (entered m sid w) with
      | (Raise e, w3) => (Raise e, w3)
      | (Ret response, w3) =>
          match sessions (answered response sid w3) !! sid with
          | Some s =>
              (Ret {| r_response := response;
                      r_available_slots := available_slots s;
                      r_session_id := sid;
                      r_intent := intent;
                      r_extracted_info := extracted_info s |},
               answered response sid w3)
          | None => (Raise KeyError, answered response sid w3)
          end
      end
  end.
Proof.
  unfold process_message.
  assert (Henter : forall k : unit -> M ChatResponse,
             bind (ensure_session sid)
               (fun _ => bind (update_session sid (append_message (user_says m))) k) w
             = k tt (entered m sid w)).
  { intros k. unfold bind, ensure_session, update_session, entered, set_sessions.
    destruct (sessions w !! sid); reflexivity. }
  change {| role := "user"; content := m |} with (user_says m).
  rewrite Henter.
  unfold bind at 1, lift at 1.
  destruct (_understand_intent env m) as [intent | e]; [| reflexivity].
  fold (branch_of env intent m sid).
  unfold bind at 1.
  destruct (branch_of env intent m sid (entered m sid w)) as [[response | e] w3];
    [| reflexivity].
  unfold bind, update_session, session_data, ret, answered, assistant_says. cbn [sessions set_sessions].
  destruct (alter _ sid (sessions w3) !! sid); reflexivity.
Qed.

Lemma branch_of_step (intent m sid : string) (w w' : World) (r : exc string) :
  branch_of env intent m sid w = (r, w') -> store_step w w'.
Proof.
  unfold branch_of. destruct (contains "book_appointment" intent).
  - apply book_branch_spec.
  - destruct (contains "check_availability" intent).
    + intros H. exact (proj1 (availability_branch_spec _ _ _ _ _ H)).
    + intros H. apply conversation_branch_spec in H. subst. apply store_step_refl.
Qed.

(** Unless the intent is a booking, no event is created. *)
Lemma branch_of_creates_nothing (intent m sid : string) (w w' : World) (r : exc string) :
  contains "book_appointment" intent = false ->
  branch_of env intent m sid w = (r, w') -> created w' = created w.
Proof.
  intros Hbook. unfold branch_of. rewrite Hbook.
  destruct (contains "check_availability" intent).
  - intros H. exact (proj2 (availability_branch_spec _ _ _ _ _ H)).
  - intros H. apply conversation_branch_spec in H. now subst.
Qed.

End Facts.

Lemma entered_session (m sid : string) (w : World) :
  sessions (entered m sid w) !! sid
  = Some (append_message (user_says m)
            (match sessions w !! sid with
             | Some s => s
             | None => new_session sid
             end)).
Proof.
  unfold entered. cbn [sessions set_sessions]. rewrite lookup_alter_eq.
  destruct (sessions w !! sid) as [s |] eqn:Hs.
  - now rewrite Hs.
  - now rewrite lookup_insert_eq.
Qed.

Lemma entered_other (m sid sid' : string) (w : World) :
  is_Some (sessions w !! sid') -> is_Some (sessions (entered m sid w) !! sid').
Proof.
  intros Hsome. destruct (decide (sid = sid')) as [<- | Hne].
  - rewrite entered_session. eauto.
  - unfold entered. cbn [sessions set_sessions]. rewrite lookup_alter_ne by exact Hne.
    destruct (sessions w !! sid); [exact Hsome |].
    now rewrite lookup_insert_ne.
Qed.

Lemma entered_frame (m sid : string) (w : World) :
  created (entered m sid w) = created w /\ tick (entered m sid w) = tick w.
Proof. split; reflexivity. Qed.

Lemma store_step_is_Some (w w' : World) (sid : string) :
  store_step w w' -> is_Some (sessions w !! sid) -> is_Some (sessions w' !! sid).
Proof.
  intros Hstep [s Hs]. specialize (Hstep sid). rewrite Hs in Hstep.
  destruct (sessions w' !! sid); [eauto | contradiction].
Qed.

Lemma answered_is_Some (response sid sid' : string) (w : World) :
  is_Some (sessions w !! sid') -> is_Some (sessions (answered response sid w) !! sid').
Proof.
  intros [s Hs]. unfold answered. cbn [sessions set_sessions].
  destruct (decide (sid = sid')) as [<- | Hne].
  - rewrite lookup_alter_eq, Hs. simpl. eauto.
  - rewrite lookup_alter_ne by exact Hne. eauto.
Qed.

(** After a call of [process_message] that returns, the store has an
    entry for the session, whose messages are the former ones (none for
    a new identifier) followed by the message of the user and then the
    returned response; and every session that was in the store is still
    there. *)
Lemma returning_call_extends_messages (env : Env) (m sid : string) (w w' : World)
    (r : ChatResponse) :
  process_message env m sid w = (Ret r, w') ->
  (exists s', sessions w' !! sid = Some s'
     /\ messages s'
        = (messages_of w sid ++ [user_says m; assistant_says (r_response r)])%list)
  /\ (forall sid', is_Some (sessions w !! sid') -> is_Some (sessions w' !! sid')).
Proof.
  rewrite process_message_unfold.
  destruct (_understand_intent env m) as [intent | e]; [| discriminate].
  destruct (branch_of env intent m sid (entered m sid w)) as [[response | e] w3] eqn:Hbranch;
    [| discriminate].
  pose proof (branch_of_step env _ _ _ _ _ _ Hbranch) as Hstep.
  destruct (sessions (answered response sid w3) !! sid) as [s4 |] eqn:Hs4; [| discriminate].
  intros H. inversion H; subst r w'. clear H. cbn [r_response]. split.
  - exists s4. split; [exact Hs4 |].
    unfold answered in Hs4. cbn [sessions set_sessions] in Hs4.
    rewrite lookup_alter_eq in Hs4.
    pose proof (Hstep sid) as Hsid. rewrite entered_session in Hsid.
    destruct (sessions w3 !! sid) as [s3 |]; [| contradiction].
    destruct Hsid as [Hmsg _]. simpl in Hs4. inversion Hs4; subst s4.
    cbn [messages append_message]. rewrite Hmsg. cbn [messages append_message].
    unfold messages_of. rewrite <- app_assoc.
    destruct (sessions w !! sid); reflexivity.
  - intros sid' Hsome. apply answered_is_Some.
    apply (store_step_is_Some _ _ _ Hstep). now apply entered_other.
Qed.

Lemma returning_call_extends_messages_example :
  exists r w' s',
    process_message offline_env call_message "s1" late_world = (Ret r, w')
    /\ sessions w' !! "s1" = Some s'
    /\ messages s' = [user_says call_message; assistant_says (r_response r)].
Proof.
  destruct (process_message offline_env call_message "s1" late_world) as [[r | e] w'] eqn:Hrun;
    [| vm_compute in Hrun; discriminate].
  destruct (returning_call_extends_messages offline_env call_message "s1" late_world w' r
              Hrun)
    as [(s' & Hs' & Hmsg) _].
  exists r, w', s'. split; [reflexivity |]. split; [exact Hs' |]. exact Hmsg.
Defined.

End ProcessFacts.

(** ** The choice of a slot in the conversation *)

Module SelectionFacts.
Import PyStr PyStrFacts DateTime Json Spec Re.
Import GoogleCalendarService CalendarBookingAgent Examples.
Import FallbackFacts ServiceFacts AgentFacts FailureFacts ProcessFacts.

(** The pattern of the test and the pattern with the group match at the
    same places. *)
Lemma slot_patterns_agree_here (st : mstate) :
  run slot_test_pattern st Some = None <-> run slot_number_pattern st Some = None.
Proof.
  unfold slot_test_pattern, slot_number_pattern. cbn [run].
  destruct (at_boundary st); [| tauto].
  destruct (rest st) as [|c s']; [tauto |].
  destruct (one_two_three c); [| tauto].
  unfold at_boundary. cbn [prev rest].
  destruct (xorb _ _); [split; intros H; discriminate H | tauto].
Qed.

Lemma slot_patterns_agree_from (s : string) :
  forall pv, search_from slot_test_pattern pv s = None
             <-> search_from slot_number_pattern pv s = None.
Proof.
  induction s as [|c s IH]; intros pv; cbn [search_from].
  - pose proof (slot_patterns_agree_here (MState pv "" [])) as [H1 H2].
    destruct (run slot_test_pattern _ Some), (run slot_number_pattern _ Some);
      try tauto; try (split; intros H; discriminate H).
    + discriminate (H2 eq_refl).
    + discriminate (H1 eq_refl).
  - pose proof (slot_patterns_agree_here (MState pv (String c s) [])) as [H1 H2].
    destruct (run slot_test_pattern _ Some), (run slot_number_pattern _ Some);
      try (split; intros H; discriminate H).
    + discriminate (H2 eq_refl).
    + discriminate (H1 eq_refl).
    + apply IH.
Qed.

Lemma slot_test_found (m : string) (mt : rmatch) :
  search slot_number_pattern m = Some mt ->
  bool_decide (is_Some (search slot_test_pattern m)) = true.
Proof.
  intros H. apply bool_decide_eq_true. unfold search in *.
  destruct (search_from slot_test_pattern None m) eqn:Ht; [eauto |].
  apply slot_patterns_agree_from in Ht. congruence.
Qed.

Section Facts.
Variable env : Env.

(** The reply to a number that designates an offered slot. *)
Lemma handle_conversation_selection (m : string) (s : Session) (mt : rmatch)
    (slot : Slot) :
  search slot_number_pattern m = Some mt ->
  1 <= int_of_digits (group mt 1) 0 ->
  available_slots s !! Z.to_nat (int_of_digits (group mt 1) 0 - 1) = Some slot ->
  _handle_conversation env m s = Ret (selection_reply slot).
Proof.
  intros Hm Hk Hslot. unfold _handle_conversation.
  rewrite (slot_test_found m mt Hm), Hm.
  pose proof (lookup_lt_Some _ _ _ Hslot) as Hlt.
  destruct (length (available_slots s)) as [|n] eqn:Hlen; [lia |].
  cbn [Nat.eqb negb andb].
  replace (0 <=? int_of_digits (group mt 1) 0 - 1) with true
    by (symmetry; apply Z.leb_le; lia).
  replace (int_of_digits (group mt 1) 0 - 1 <? Z.of_nat (S n)) with true
    by (symmetry; apply Z.ltb_lt; lia).
  cbn [andb]. rewrite Hslot. reflexivity.
Qed.

Lemma handle_conversation_returns (m : string) (s : Session) :
  exists text, _handle_conversation env m s = Ret text.
Proof.
  unfold _handle_conversation.
  destruct (negb _ && bool_decide _).
  - destruct (search slot_number_pattern m) as [mt |]; cbn [try_except]; [| eauto].
    destruct (_ && _); [| cbn [try_except]; eauto].
    destruct (available_slots s !! _); cbn [try_except]; eauto.
  - destruct (call_llm_returns env (conversation_prompt m)) as [text ->].
    cbn [exc_bind].
    destruct (_ || _); [| eauto].
    destruct (any_in _ (lower m)); [eauto |].
    destruct (any_in _ (lower m)); eauto.
Qed.

End Facts.

(** C10. In a session with offered slots, a message that the agent
    classifies as conversation and in which a number 1, 2 or 3 designates
    an offered slot is answered with the confirmation text, which says
    that the meeting has been scheduled; yet no event is created, the
    confirmation flag and the offered slots stay as they were.  Neither
    the availability branch nor the conversation branch of
    [process_message] ever creates an event. *)
Theorem C10_number_reply_books_nothing (env : Env) (m sid intent : string)
    (w : World) (s : Session) (mt : rmatch) (slot : Slot) :
  sessions w !! sid = Some s ->
  _understand_intent env m = Ret intent ->
  contains "book_appointment" intent = false ->
  contains "check_availability" intent = false ->
  search slot_number_pattern m = Some mt ->
  1 <= int_of_digits (group mt 1) 0 ->
  available_slots s !! Z.to_nat (int_of_digits (group mt 1) 0 - 1) = Some slot ->
  (exists r w' s',
     process_message env m sid w = (Ret r, w')
     /\ r_response r = selection_reply slot
     /\ contains "The meeting has been scheduled!" (r_response r) = true
     /\ created w' = created w
     /\ sessions w' !! sid = Some s'
     /\ booking_confirmed s' = booking_confirmed s
     /\ available_slots s' = available_slots s)
  /\ (forall m0 sid0 w0 r0 w0',
        availability_branch env m0 sid0 w0 = (r0, w0') -> created w0' = created w0)
  /\ (forall m0 sid0 w0 r0 w0',
        conversation_branch env m0 sid0 w0 = (r0, w0') -> created w0' = created w0).
Proof.
  intros Hs Hintent Hbook Hcheck Hm Hk Hslot. split; [| split].
  - rewrite process_message_unfold, Hintent.
    unfold branch_of. rewrite Hbook, Hcheck.
    unfold conversation_branch.
    erewrite bind_ret;
      [| unfold session_data; rewrite entered_session, Hs; reflexivity].
    unfold lift.
    rewrite (handle_conversation_selection env m _ mt slot Hm Hk)
      by (cbn [available_slots append_message]; exact Hslot).
    assert (Hanswered :
              sessions (answered (selection_reply slot) sid (entered m sid w)) !! sid
              = Some (append_message (assistant_says (selection_reply slot))
                        (append_message (user_says m) s))).
    { unfold answered. cbn [sessions set_sessions].
      rewrite lookup_alter_eq, entered_session, Hs. reflexivity. }
    rewrite Hanswered.
    do 3 eexists. split; [reflexivity |]. cbn [r_response].
    split; [reflexivity |]. split.
    + unfold selection_reply. rewrite <- append_assoc.
      apply contains_skip. reflexivity.
    + split; [reflexivity |]. split; [exact Hanswered |]. split; reflexivity.
  - intros m0 sid0 w0 r0 w0' H.
    exact (proj2 (availability_branch_spec env _ _ _ _ _ H)).
  - intros m0 sid0 w0 r0 w0' H. apply conversation_branch_spec in H. now subst.
Qed.

Lemma C10_number_reply_books_nothing_witness :
  exists r w' s',
    process_message offline_env "1" "s1" late_world = (Ret r, w')
    /\ r_response r = selection_reply morning_slot
    /\ contains "The meeting has been scheduled!" (r_response r) = true
    /\ created w' = created late_world
    /\ sessions w' !! "s1" = Some s'
    /\ booking_confirmed s' = booking_confirmed offered_session
    /\ available_slots s' = available_slots offered_session.
Proof.
  refine (proj1 (C10_number_reply_books_nothing offline_env "1" "s1"
                   "general_conversation" late_world offered_session
                   {| whole := "1"; groups := [(1%nat, "1")] |} morning_slot
                   _ _ _ _ _ _ _)); reflexivity.
Defined.

End SelectionFacts.

(** ** Calls of [process_message] that return, and one that does not *)

Module TotalityFacts.
Import PyStr PyStrFacts DateTime Json JsonFacts Spec.
Import GoogleCalendarService CalendarBookingAgent Examples.
Import FallbackFacts ExtractionFacts ServiceFacts AgentFacts FailureFacts.
Import ProcessFacts SelectionFacts.

(** What the canned answer parses to, when it parses: a dictionary whose
    day is a text or is absent. *)
Lemma fallback_json_well_typed (prompt : string) :
  match loads (clean_response (_get_fallback_response prompt)) with
  | Ret (JObject d) => day_is_text d
  | Ret (JScalar _) => False
  | Raise _ => True
  end.
Proof.
  unfold _get_fallback_response, fallback_extraction. cbv zeta.
  repeat match goal with
         | |- context [if ?c then _ else _] => destruct c
         end; vm_compute; exact I.
Qed.

Lemma regex_extract_well_typed (m : string) : day_is_text (_regex_extract m).
Proof.
  unfold _regex_extract, day_is_text. cbv zeta.
  destruct (first_match time_patterns (lower m));
    destruct (first_match day_patterns (lower m));
    repeat match goal with
           | |- context [if ?c then _ else _] => destruct c
           end; vm_compute; exact I.
Qed.

(** Without a model, extraction returns a dictionary whose day is a text
    or is absent. *)
Lemma offline_extraction_well_typed (env : Env) (m : string) :
  llm_available env = false ->
  exists d, _extract_details env m = Ret (JObject d) /\ day_is_text d.
Proof.
  intros Hoff. unfold _extract_details.
  rewrite (call_llm_offline _ _ Hoff). cbn [exc_bind].
  pose proof (fallback_json_well_typed (extract_prompt m)) as Htyped.
  destruct (loads (clean_response (_get_fallback_response (extract_prompt m))))
    as [[v | d] | e]; cbn [try_except].
  - contradiction.
  - eauto.
  - eexists. split; [reflexivity | apply regex_extract_well_typed].
Qed.

Section Facts.
Variable env : Env.

Lemma update_session_run (sid : string) (f : Session -> Session) (w : World) :
  update_session sid f w = (Ret tt, set_sessions (alter f sid (sessions w)) w).
Proof. reflexivity. Qed.

Lemma book_branch_returns (m sid : string) (w : World) (d : dict) :
  _extract_details env m = Ret (JObject d) -> day_is_text d ->
  exists response w', book_branch env m sid w = (Ret response, w').
Proof.
  intros Hext Hday. unfold book_branch.
  erewrite bind_ret; [| unfold lift; rewrite Hext; reflexivity].
  erewrite bind_ret; [| reflexivity].
  destruct (truthy _); [| unfold ret; eauto].
  destruct (_direct_book_appointment env d w) as [r1 w1] eqn:Hdirect.
  destruct (direct_book_spec env _ _ _ _ Hdirect) as (_ & b & -> & _).
  erewrite bind_ret; [| exact Hdirect].
  destruct (b_success b).
  - erewrite bind_ret; [| apply update_session_run].
    erewrite bind_ret; [| apply update_session_run].
    unfold ret. eauto.
  - destruct (check_availability_returns env d w1 Hday) as (slots & w2 & Hcheck).
    erewrite bind_ret; [| exact Hcheck].
    erewrite bind_ret; [| apply update_session_run].
    erewrite bind_ret; [| apply update_session_run].
    unfold ret. eauto.
Qed.

Lemma availability_branch_returns (m sid : string) (w : World) (d : dict) :
  _extract_details env m = Ret (JObject d) -> day_is_text d ->
  exists response w', availability_branch env m sid w = (Ret response, w').
Proof.
  intros Hext Hday. unfold availability_branch.
  erewrite bind_ret; [| unfold lift; rewrite Hext; reflexivity].
  erewrite bind_ret; [| reflexivity].
  destruct (truthy _); [| unfold ret; eauto].
  destruct (check_availability_returns env d w Hday) as (slots & w2 & Hcheck).
  erewrite bind_ret; [| exact Hcheck].
  erewrite bind_ret; [| apply update_session_run].
  erewrite bind_ret; [| apply update_session_run].
  unfold ret. eauto.
Qed.

Lemma conversation_branch_returns (m sid : string) (w : World) :
  is_Some (sessions w !! sid) ->
  exists response w', conversation_branch env m sid w = (Ret response, w').
Proof.
  intros [s Hs]. unfold conversation_branch.
  erewrite bind_ret; [| unfold session_data; rewrite Hs; reflexivity].
  destruct (handle_conversation_returns env m s) as [text Htext].
  unfold lift. rewrite Htext. eauto.
Qed.

(** [process_message] returns whenever extraction gives a dictionary
    whose day is a text or is absent. *)
Lemma process_message_returns (m sid : string) (w : World) (d : dict) :
  _extract_details env m = Ret (JObject d) -> day_is_text d ->
  exists r w', process_message env m sid w = (Ret r, w').
Proof.
  intros Hext Hday. rewrite process_message_unfold.
  destruct (understand_intent_returns env m) as [intent ->].
  assert (Hbranch : exists response w3,
             branch_of env intent m sid (entered m sid w) = (Ret response, w3)).
  { unfold branch_of. destruct (contains "book_appointment" intent).
    - now apply (book_branch_returns m sid _ d).
    - destruct (contains "check_availability" intent).
      + now apply (availability_branch_returns m sid _ d).
      + apply conversation_branch_returns. rewrite entered_session. eauto. }
  destruct Hbranch as (response & w3 & Hbranch). rewrite Hbranch.
  pose proof (branch_of_step env _ _ _ _ _ _ Hbranch) as Hstep.
  assert (Hsome : is_Some (sessions (answered response sid w3) !! sid)).
  { apply answered_is_Some. apply (store_step_is_Some _ _ _ Hstep).
    rewrite entered_session. eauto. }
  destruct Hsome as [s4 ->]. eauto.
Qed.

End Facts.

Lemma store_step_offers_bounded (w w' : World) :
  store_step w w' -> offers_bounded w -> offers_bounded w'.
Proof.
  intros Hstep Hb sid s' Hs'. specialize (Hstep sid). rewrite Hs' in Hstep.
  destruct (sessions w !! sid) as [s |] eqn:Hs; [| contradiction].
  destruct Hstep as [_ Hkeep]. apply Hkeep. exact (Hb sid s Hs).
Qed.

Lemma entered_offers_bounded (m sid : string) (w : World) :
  offers_bounded w -> offers_bounded (entered m sid w).
Proof.
  intros Hb sid' s' Hs'. destruct (decide (sid = sid')) as [<- | Hne].
  - rewrite entered_session in Hs'. inversion Hs'; subst s'.
    cbn [available_slots append_message].
    destruct (sessions w !! sid) as [s |] eqn:Hs; [exact (Hb sid s Hs) |].
    apply bounded_offer_nil.
  - unfold entered in Hs'. cbn [sessions set_sessions] in Hs'.
    rewrite lookup_alter_ne in Hs' by exact Hne.
    destruct (sessions w !! sid); [exact (Hb sid' s' Hs') |].
    rewrite lookup_insert_ne in Hs' by exact Hne. exact (Hb sid' s' Hs').
Qed.

Lemma answered_offers_bounded (response sid : string) (w : World) :
  offers_bounded w -> offers_bounded (answered response sid w).
Proof.
  intros Hb sid' s' Hs'. unfold answered in Hs'. cbn [sessions set_sessions] in Hs'.
  destruct (decide (sid = sid')) as [<- | Hne].
  - rewrite lookup_alter_eq in Hs'.
    destruct (sessions w !! sid) as [s |] eqn:Hs; [| discriminate].
    simpl in Hs'. inversion Hs'; subst s'. exact (Hb sid s Hs).
  - rewrite lookup_alter_ne in Hs' by exact Hne. exact (Hb sid' s' Hs').
Qed.

(** The offers kept in the store stay bounded through every call of
    [process_message], whether it returns or raises: what the call
    stores is the list of the availability check or the empty list. *)
Lemma process_message_offers_bounded (env : Env) (m sid : string) (w w' : World)
    (r : exc ChatResponse) :
  offers_bounded w -> process_message env m sid w = (r, w') -> offers_bounded w'.
Proof.
  intros Hb. rewrite process_message_unfold.
  pose proof (entered_offers_bounded m sid w Hb) as Hentered.
  destruct (_understand_intent env m) as [intent | e].
  2:{ intros H. inversion H; subst. exact Hentered. }
  destruct (branch_of env intent m sid (entered m sid w)) as [[response | e] w3] eqn:Hbranch.
  - pose proof (store_step_offers_bounded _ _
                  (branch_of_step env _ _ _ _ _ _ Hbranch) Hentered) as H3.
    destruct (sessions (answered response sid w3) !! sid);
      intros H; inversion H; subst; now apply answered_offers_bounded.
  - intros H. inversion H; subst.
    exact (store_step_offers_bounded _ _ (branch_of_step env _ _ _ _ _ _ Hbranch) Hentered).
Qed.

(** Without a model every call of [process_message] returns. *)
Lemma process_message_offline_returns (env : Env) (m sid : string) (w : World) :
  llm_available env = false ->
  exists r w', process_message env m sid w = (Ret r, w').
Proof.
  intros Hoff. destruct (offline_extraction_well_typed env m Hoff) as (d & Hext & Hday).
  exact (process_message_returns env m sid w d Hext Hday).
Qed.

(** With a model that answers the extraction prompt with a [null] day,
    the call raises after the message of the user has been appended. *)
Lemma process_message_can_raise :
  exists w' s',
    process_message null_day_env "book it" "s1" empty_world = (Raise AttributeError, w')
    /\ sessions w' !! "s1" = Some s'
    /\ messages s' = [user_says "book it"].
Proof. do 2 eexists. split; [vm_compute; reflexivity |]. split; reflexivity. Qed.

(** C6. Without a model, the detail extractor reads the record of the
    specification in the example message; but the reply of
    [process_message] to that message in a new session, whose direct
    booking succeeds, carries a non-empty response and an empty
    [extracted_info]: the success branch does not store the record. *)
Theorem C6_reply_without_extracted_info :
  _extract_details offline_env call_message
  = Ret (JObject [("has_time_info", JBool true); ("time", JStr "afternoon");
                  ("day", JStr "tomorrow"); ("type", JStr "call")])
  /\ exists r w',
       process_message offline_env call_message "s1" empty_world = (Ret r, w')
       /\ r_response r <> ""
       /\ r_extracted_info r = []
       /\ length (created w') = 1%nat.
Proof.
  split; [apply call_message_extracted; reflexivity |].
  do 2 eexists. split; [vm_compute; reflexivity |].
  split; [discriminate |]. split; reflexivity.
Qed.

End TotalityFacts.

(** * Further properties of the code *)

(** ** The fallback classification and the regular-expression extraction *)

Module FallbackExtras.
Import PyStr PyStrFacts Re ReFacts Json JsonFacts Spec Behaviour.
Import GoogleCalendarService CalendarBookingAgent Examples.
Import FallbackFacts ExtractionFacts FailureFacts.

Lemma before_app_sep (c : ascii) (m t : string) :
  before c (m +:+ String c t) = before c m.
Proof.
  induction m as [|x m IH]; push_append; cbn [before].
  - now rewrite Ascii.eqb_refl.
  - destruct (Ascii.eqb x c); [reflexivity | now rewrite IH].
Qed.

Lemma split_on_first (c : ascii) (s : string) :
  forall cur, nth 0 (split_on c s cur) "" = rev_string cur "" +:+ before c s.
Proof.
  induction s as [|x s IH]; intros cur; cbn [split_on before].
  - cbn [nth]. now rewrite append_nil_r.
  - destruct (Ascii.eqb x c).
    + cbn [nth]. now rewrite append_nil_r.
    + rewrite IH. cbn [rev_string].
      rewrite (rev_string_acc cur (String x "")), append_assoc. reflexivity.
Qed.

(** The second element of [(a + c + rest).split(c)] is the part of
    [rest] before its first [c]. *)
Lemma split_second_before (c : ascii) (a rest : string) :
  has_char c a = false ->
  nth 1 (split c (a +:+ String c rest)) "" = before c rest.
Proof.
  intros Ha. unfold split. rewrite (split_on_before_sep c a rest "" Ha).
  cbn [nth]. rewrite split_on_first. reflexivity.
Qed.

Lemma fallback_intent_any (h m t : string) :
  contains "intent" (lower h) = true ->
  contains "analyze this user message" (lower h) = true ->
  has_char dq_char h = false ->
  _get_fallback_response (h +:+ String dq_char (m +:+ String dq_char t))
  = keyword_intent (lower (before dq_char m)).
Proof.
  intros Hi Ha Hh. unfold _get_fallback_response.
  rewrite lower_app, (contains_app_l _ _ _ Hi), (contains_app_l _ _ _ Ha).
  cbn [andb]. change dq with (String dq_char "").
  rewrite contains_char, has_char_sep.
  unfold quoted_user_msg. rewrite (split_second_before _ _ _ Hh), before_app_sep.
  reflexivity.
Qed.

(** X1. When the model is unavailable or raises, the intent of a message
    is the keyword classification of the lower-cased text that precedes
    its first double quote (of the whole message when it has none); it is
    therefore always one of the three intent names. *)
Theorem X_intent_reads_text_before_quote (env : Env) (m : string) :
  degraded env (intent_prompt m) ->
  _understand_intent env m = Ret (keyword_intent (lower (before dq_char m)))
  /\ In (keyword_intent (lower (before dq_char m)))
        ["book_appointment"; "check_availability"; "general_conversation"].
Proof.
  intros Hdeg. split.
  - unfold _understand_intent. rewrite (call_llm_degrades env _ Hdeg).
    cbn [exc_bind]. rewrite intent_prompt_shape.
    rewrite fallback_intent_any by reflexivity.
    unfold keyword_intent.
    destruct (any_in _ _); [reflexivity |]. destruct (any_in _ _); reflexivity.
  - unfold keyword_intent.
    destruct (any_in _ _); [cbn; tauto |]. destruct (any_in _ _); cbn; tauto.
Qed.

Lemma X_intent_reads_text_before_quote_witness :
  _understand_intent offline_env quoted_book_message
  = Ret (keyword_intent (lower (before dq_char quoted_book_message)))
  /\ In (keyword_intent (lower (before dq_char quoted_book_message)))
        ["book_appointment"; "check_availability"; "general_conversation"].
Proof.
  apply (X_intent_reads_text_before_quote offline_env quoted_book_message).
  left. reflexivity.
Defined.

(** X2. When the model is unavailable or raises, the details of a message
    that does not hold the words [extract booking information] are those
    of the regular-expression extraction: the extraction branch of the
    fallback is not reached, because the prompt does not hold the words
    it looks for. *)
Theorem X_degraded_extraction_is_regex (env : Env) (m : string) :
  degraded env (extract_prompt m) ->
  contains "extract booking information" (lower m) = false ->
  _extract_details env m = Ret (JObject (_regex_extract m)).
Proof.
  intros Hdeg Hm. unfold _extract_details.
  rewrite (call_llm_degrades env _ Hdeg). cbn [exc_bind].
  rewrite fallback_not_json; [reflexivity |].
  now rewrite extract_prompt_phrase.
Qed.

Lemma X_degraded_extraction_is_regex_witness :
  _extract_details failing_env call_message = Ret (JObject (_regex_extract call_message)).
Proof.
  apply (X_degraded_extraction_is_regex failing_env call_message).
  - right. exists ServiceError. reflexivity.
  - reflexivity.
Defined.

Lemma take_prefix (n : nat) (s : string) : exists r, s = take n s +:+ r.
Proof.
  revert s. induction n as [|n IH]; intros s.
  - exists s. destruct s; reflexivity.
  - destruct s as [|c s]; [exists ""; reflexivity |].
    destruct (IH s) as [r Hr]. exists r. cbn [take]. push_append. now f_equal.
Qed.

(** What a search matches is a part of the subject. *)
Lemma search_from_whole (r : regex) (s : string) :
  forall pv mt, search_from r pv s = Some mt -> contains (whole mt) s = true.
Proof.
  induction s as [|c s IH]; intros pv mt; cbn [search_from];
    destruct (run r _ Some) as [st' |].
  - intros H. inversion H. reflexivity.
  - discriminate.
  - intros H. inversion H. cbn [whole]. unfold taken.
    destruct (take_prefix (String.length (String c s) - String.length (rest st'))
                (String c s)) as [tl Htl].
    remember (take (String.length (String c s) - String.length (rest st')) (String c s))
      as pre eqn:Hpre.
    rewrite Htl. apply contains_here.
  - intros H. apply IH in H.
    change (String c s) with (String c "" +:+ s). now apply contains_skip.
Qed.

Lemma first_match_whole (patterns : list regex) (s : string) (mt : rmatch) :
  first_match patterns s = Some mt -> contains (whole mt) s = true.
Proof.
  induction patterns as [|p ps IH]; cbn [first_match]; [discriminate |].
  destruct (search p s) as [m0 |] eqn:Hp; [| exact IH].
  intros H. inversion H; subst. exact (search_from_whole p s None mt Hp).
Qed.

(** X3. The regular-expression extraction always records a type, one of
    call, meeting and appointment; the time and the day it records are
    texts that occur in the lower-cased message; and [has_time_info] is
    true exactly when a time or a day is recorded. *)
Theorem X_regex_extract_shape (m : string) :
  (exists t, dict_get "type" (_regex_extract m) = Some (JStr t)
             /\ In t ["call"; "meeting"; "appointment"])
  /\ match dict_get "time" (_regex_extract m) with
     | Some v => exists t, v = JStr t /\ contains t (lower m) = true
     | None => True
     end
  /\ match dict_get "day" (_regex_extract m) with
     | Some v => exists t, v = JStr t /\ contains t (lower m) = true
     | None => True
     end
  /\ dict_get "has_time_info" (_regex_extract m)
     = Some (JBool (match dict_get "time" (_regex_extract m),
                          dict_get "day" (_regex_extract m) with
                    | None, None => false
                    | _, _ => true
                    end)).
Proof.
  unfold _regex_extract. cbv zeta.
  destruct (first_match time_patterns (lower m)) as [mt |] eqn:Htime;
    destruct (first_match day_patterns (lower m)) as [md |] eqn:Hday;
    try (pose proof (first_match_whole _ _ _ Htime) as Hwt);
    try (pose proof (first_match_whole _ _ _ Hday) as Hwd);
    repeat match goal with
           | |- context [if contains ?a ?b then _ else _] => destruct (contains a b)
           end;
    (split; [eexists; split; [vm_compute; reflexivity | cbn; tauto] |]);
    (split; [cbv [dict_get dict_set String.eqb Ascii.eqb Bool.eqb andb]; eauto |]);
    (split; [cbv [dict_get dict_set String.eqb Ascii.eqb Bool.eqb andb]; eauto |]);
    cbv [dict_get dict_set String.eqb Ascii.eqb Bool.eqb andb]; reflexivity.
Qed.

End FallbackExtras.

(** ** Dates, times and the direct booking *)

Module BookingExtras.
Import PyStr PyStrFacts DateTime Json JsonFacts Spec Behaviour.
Import GoogleCalendarService CalendarBookingAgent Examples.
Import FallbackFacts ServiceFacts AgentFacts FailureFacts.

Lemma toordinal_add_days (t : datetime) (k : Z) :
  toordinal (add_days t k) = toordinal t + k.
Proof. unfold toordinal, add_days. apply Z.div_add. discriminate. Qed.

Lemma weekday_range (t : datetime) : 0 <= weekday t < 7.
Proof. unfold weekday. apply Z.mod_pos_bound. lia. Qed.

(** The day that follows [t] by [7 - weekday t] days is a Monday. *)
Lemma next_monday (t : datetime) : weekday (add_days t (7 - weekday t)) = 0.
Proof.
  unfold weekday at 1. rewrite toordinal_add_days. unfold weekday.
  set (x := toordinal t + 6).
  replace (toordinal t + (7 - x mod 7) + 6) with (x - x mod 7 + 1 * 7) by (unfold x; ring).
  rewrite Z.mod_add by discriminate.
  rewrite (Z.div_mod x 7) at 1 by discriminate.
  replace (7 * (x / 7) + x mod 7 - x mod 7) with ((x / 7) * 7) by ring.
  apply Z.mod_mul. discriminate.
Qed.

Section Facts.
Variable env : Env.

(** [_parse_date] on a text, as a function of the clock. *)
Lemma parse_date_text (s : string) (w : World) :
  _parse_date env (JStr s) w =
  (Ret (add_days (clock env (tick w))
          (if contains "today" (lower s) then 0
           else if contains "tomorrow" (lower s) then 1
           else if contains "monday" (lower s) then 7 - weekday (clock env (tick w))
           else 1)),
   {| sessions := sessions w; created := created w; tick := S (tick w) |}).
Proof.
  unfold _parse_date, bind, now, lift, ret. cbn [as_str].
  destruct (contains "today" (lower s)).
  { unfold add_days. now rewrite Z.mul_0_l, Z.add_0_r. }
  destruct (contains "tomorrow" (lower s)); [reflexivity |].
  destruct (contains "monday" (lower s)); [| reflexivity].
  pose proof (weekday_range (clock env (tick w))) as Hwd.
  replace (0 - weekday (clock env (tick w)) <=? 0) with true
    by (symmetry; apply Z.leb_le; lia).
  do 3 f_equal. ring.
Qed.

Lemma parse_date_inv (d : scalar) (w w1 : World) (t : datetime) :
  _parse_date env d w = (Ret t, w1) ->
  exists k, 0 <= k <= 7 /\ t = add_days (clock env (tick w)) k
            /\ tick w1 = S (tick w).
Proof.
  destruct d as [| b | n | s]; try (unfold _parse_date, bind, now, lift; discriminate).
  rewrite parse_date_text. intros H. inversion H; subst. clear H.
  pose proof (weekday_range (clock env (tick w))) as Hwd.
  eexists. split; [| split; reflexivity].
  repeat match goal with
         | |- context [if ?c then _ else _] => destruct c
         end; lia.
Qed.

End Facts.

(** X4. A day text that names Monday, and neither today nor tomorrow, is
    resolved to the first Monday strictly after the current day, at the
    current time of day: between one and seven days ahead, a full week
    when the current day is itself a Monday. *)
Theorem X_monday_is_next_monday (env : Env) (s : string) (w : World) :
  contains "today" (lower s) = false ->
  contains "tomorrow" (lower s) = false ->
  contains "monday" (lower s) = true ->
  exists k t w',
    _parse_date env (JStr s) w = (Ret t, w')
    /\ t = add_days (clock env (tick w)) k
    /\ 1 <= k <= 7 /\ weekday t = 0
    /\ (weekday (clock env (tick w)) = 0 -> k = 7).
Proof.
  intros Htoday Htomorrow Hmonday.
  pose proof (weekday_range (clock env (tick w))) as Hwd.
  exists (7 - weekday (clock env (tick w))). do 2 eexists.
  rewrite parse_date_text, Htoday, Htomorrow, Hmonday.
  split; [reflexivity |]. split; [reflexivity |]. split; [lia |].
  split; [apply next_monday | lia].
Qed.

Lemma X_monday_is_next_monday_witness :
  exists k t w',
    _parse_date offline_env (JStr "Monday") empty_world = (Ret t, w')
    /\ t = add_days (clock offline_env (tick empty_world)) k
    /\ 1 <= k <= 7 /\ weekday t = 0
    /\ (weekday (clock offline_env (tick empty_world)) = 0 -> k = 7).
Proof.
  apply (X_monday_is_next_monday offline_env "Monday" empty_world); reflexivity.
Defined.

(** X5. Whatever the day text, the date [_parse_date] returns is the
    current instant moved ahead by a whole number of days, none for a
    text that holds today and between one and seven otherwise: never a past
    date, never more than a week ahead.  The clock is read once. *)
Theorem X_parse_date_within_a_week (env : Env) (s : string) (w : World) :
  exists k w',
    _parse_date env (JStr s) w = (Ret (add_days (clock env (tick w)) k), w')
    /\ (if contains "today" (lower s) then k = 0 else 1 <= k <= 7)
    /\ tick w' = S (tick w) /\ sessions w' = sessions w /\ created w' = created w.
Proof.
  pose proof (weekday_range (clock env (tick w))) as Hwd.
  do 2 eexists. rewrite parse_date_text. split; [reflexivity |].
  split; [| repeat split].
  destruct (contains "today" (lower s)); [reflexivity |].
  destruct (contains "tomorrow" (lower s)); [lia |].
  destruct (contains "monday" (lower s)); lia.
Qed.

Lemma afternoon_holds_noon (s : string) :
  contains "afternoon" s = true -> contains "noon" s = true.
Proof.
  intros H. destruct (contains_inv _ _ H) as (a & b & ->).
  change ("afternoon" +:+ b) with ("after" +:+ "noon" +:+ b).
  rewrite <- append_assoc. apply contains_intro.
Qed.

(** X6. A time text that holds the word afternoon is never read as two
    o'clock: the test for noon comes first and afternoon ends with noon,
    so the hour is twelve, unless one of the clock tokens from 8 to 11
    comes before it in the chain. *)
Theorem X_afternoon_is_read_as_noon (s : string) :
  contains "afternoon" s = true ->
  In (parse_time s)
     [(20, 0); (8, 0); (21, 0); (9, 0); (22, 0); (10, 0); (23, 0); (11, 0); (12, 0)]
  /\ parse_time s <> (14, 0).
Proof.
  intros H. apply afternoon_holds_noon in H.
  assert (Hin : In (parse_time s)
                  [(20, 0); (8, 0); (21, 0); (9, 0); (22, 0); (10, 0); (23, 0);
                   (11, 0); (12, 0)]).
  { unfold parse_time. rewrite H, orb_true_r.
    repeat match goal with
           | |- context [if ?c then _ else _] =>
               destruct c; [cbn [In]; tauto |]
           end.
    cbn [In]. tauto. }
  split; [exact Hin |]. intros Heq. rewrite Heq in Hin.
  cbn [In] in Hin. repeat (destruct Hin as [Hin | Hin]; [discriminate |]). exact Hin.
Qed.

Lemma X_afternoon_is_read_as_noon_witness :
  In (parse_time "tomorrow afternoon")
     [(20, 0); (8, 0); (21, 0); (9, 0); (22, 0); (10, 0); (23, 0); (11, 0); (12, 0)]
  /\ parse_time "tomorrow afternoon" <> (14, 0).
Proof. apply (X_afternoon_is_read_as_noon "tomorrow afternoon"). reflexivity. Defined.

Lemma replace_inv (t x : datetime) (h m : Z) :
  replace t h m = Ret x ->
  0 <= h < 24 /\ 0 <= m < 60 /\ x = toordinal t * us_day + h * us_hour + m * us_minute.
Proof.
  unfold replace.
  destruct (0 <=? h) eqn:H1; [| discriminate].
  destruct (h <? 24) eqn:H2; [| discriminate].
  destruct (0 <=? m) eqn:H3; [| discriminate].
  destruct (m <? 60) eqn:H4; [| discriminate].
  cbn [andb]. intros H. inversion H.
  apply Z.leb_le in H1, H3. apply Z.ltb_lt in H2, H4. repeat split; lia.
Qed.

(** X7. A direct booking that reports a success has created exactly one
    event, of the shape [direct_event]: it starts on the minute, at most
    a week after the current day and later than the clock reading it was
    compared with, lasts one hour and has no attendee; the details of the
    result are the ISO texts of its start and of its end.  The sessions
    are untouched and the clock was read twice. *)
Theorem X_direct_booking_event (env : Env) (info : dict) (w w' : World)
    (b : BookingResult) :
  _direct_book_appointment env info w = (Ret b, w') ->
  b_success b = true ->
  exists c details,
    created w' = (created w ++ [c])%list
    /\ direct_event (clock env (tick w)) (clock env (S (tick w))) c
    /\ booking_details b = Some details
    /\ bd_start_time details = isoformat (call_start c)
    /\ bd_end_time details = isoformat (call_end c)
    /\ bd_title details = call_title c
    /\ sessions w' = sessions w
    /\ tick w' = S (S (tick w)).
Proof.
  unfold _direct_book_appointment, try_catch.
  match goal with
  | |- context [match ?body w with _ => _ end] =>
      destruct (body w) as [[b0 | e] w1] eqn:Hbody
  end.
  2:{ intros H. apply ret_inv in H as [H _]. inversion H; subst b. discriminate. }
  intros H Hsucc. inversion H; subst b0 w1. clear H.
  apply bind_inv in Hbody as [(target & w2 & H1 & Hbody) | (e1 & H1 & ?)]; [| discriminate].
  pose proof (parse_date_spec _ _ _ _ _ H1) as [(Hs1 & Hc1 & _) _].
  apply parse_date_inv in H1 as (k & Hk & -> & Htick1).
  apply bind_inv in Hbody as [(time_str & w3 & H2 & Hbody) | (e2 & H2 & ?)]; [| discriminate].
  apply lift_inv in H2 as [_ ->].
  destruct (parse_time (lower time_str)) as [hour minute].
  apply bind_inv in Hbody as [(start & w3 & H3 & Hbody) | (e3 & H3 & ?)]; [| discriminate].
  apply lift_inv in H3 as [H3 ->]. symmetry in H3.
  apply replace_inv in H3 as (Hh & Hm & Hstart).
  rewrite toordinal_add_days in Hstart.
  apply bind_inv in Hbody as [(t & w3 & H4 & Hbody) | (e4 & H4 & ?)]; [| discriminate].
  apply now_frame in H4 as (Ht & (Hs2 & Hc2 & _) & Htick2).
  inversion Ht; subst t. rewrite Htick1 in *.
  destruct (start <=? clock env (S (tick w))) eqn:Hcmp.
  { apply ret_inv in Hbody as [Hb _]. inversion Hb; subst b. discriminate. }
  apply Z.leb_gt in Hcmp.
  apply bind_inv in Hbody as [(mt & w4 & H5 & Hbody) | (e5 & H5 & ?)]; [| discriminate].
  apply lift_inv in H5 as [_ ->].
  apply bind_inv in Hbody as [(res & w4 & H6 & Hbody) | (e6 & H6 & ?)]; [| discriminate].
  apply create_event_spec in H6 as (Hs3 & Htick3 & Hc3 & res' & Hres & Hsucc').
  inversion Hres; subst res'. rewrite Hsucc' in Hbody.
  apply ret_inv in Hbody as [Hb ->]. inversion Hb; subst b. clear Hb.
  do 2 eexists. split; [rewrite Hc3, Hc2, Hc1; reflexivity |].
  split.
  { exists k, hour, minute, mt. cbn [call_start call_end call_attendees call_title
                                       call_description].
    repeat split; try lia; try reflexivity; exact Hstart. }
  cbn [booking_details]. split; [reflexivity |].
  repeat split; try reflexivity; congruence.
Qed.

Lemma X_direct_booking_event_witness :
  exists b w' c,
    _direct_book_appointment offline_env
      [("day", JStr "tomorrow"); ("time", JStr "10 am"); ("type", JStr "call")]
      empty_world = (Ret b, w')
    /\ created w' = [c]
    /\ direct_event (clock offline_env 0) (clock offline_env 1) c.
Proof.
  destruct (_direct_book_appointment offline_env
              [("day", JStr "tomorrow"); ("time", JStr "10 am"); ("type", JStr "call")]
              empty_world) as [[b | e] w'] eqn:Hrun;
    [| vm_compute in Hrun; discriminate].
  assert (Hsucc : b_success b = true) by (vm_compute in Hrun; inversion Hrun; reflexivity).
  destruct (X_direct_booking_event offline_env _ empty_world w' b Hrun Hsucc)
    as (c & details & Hc & Hshape & _).
  exists b, w', c. split; [reflexivity |]. split; [exact Hc | exact Hshape].
Defined.

End BookingExtras.

(** ** The slots of the two calendars *)

Module ServiceExtras.
Import PyStr PyStrFacts DateTime Json Spec Behaviour.
Import GoogleCalendarService CalendarBookingAgent Examples.
Import ServiceFacts AgentFacts BookingExtras.

Lemma replace_at_hour (date : datetime) (hour : Z) :
  0 <= hour < 24 -> replace date hour 0 = Ret (at_hour date hour).
Proof.
  intros Hh. rewrite replace_valid by lia. unfold at_hour. f_equal. ring.
Qed.

Lemma replace_at_hour_inv (date x : datetime) (hour : Z) :
  replace date hour 0 = Ret x -> 0 <= hour < 24 /\ x = at_hour date hour.
Proof.
  intros H. apply replace_inv in H as (Hh & _ & Hx). split; [exact Hh |].
  unfold at_hour. unfold datetime in *. lia.
Qed.

Lemma at_hour_lt (date : datetime) (h1 h2 : Z) :
  h1 < h2 -> at_hour date h1 < at_hour date h2.
Proof. unfold at_hour, us_hour, us_minute, us_second. lia. Qed.

Lemma sorted_snoc (acc : list CalSlot) (s : CalSlot) :
  StronglySorted earlier acc ->
  Forall (fun a => slot_start a < slot_start s) acc ->
  StronglySorted earlier (acc ++ [s])%list.
Proof.
  intros Hacc Hlt. apply StronglySorted_app. split; [| split].
  - intros x1 x2 H1 H2. apply list_elem_of_singleton in H2. subst x2.
    rewrite Forall_forall in Hlt. apply Hlt. exact H1.
  - exact Hacc.
  - repeat constructor.
Qed.

Lemma sorted_firstn (n : nat) (l : list CalSlot) :
  StronglySorted earlier l -> StronglySorted earlier (firstn n l).
Proof.
  intros H. rewrite <- (firstn_skipn n l) in H.
  exact (StronglySorted_app_1_l _ _ _ H).
Qed.

Section Facts.
Variable env : Env.

(** The loop of the simulated calendar keeps the slots in ascending
    order and builds each one from an hour of its list. *)
Lemma mock_loop_shape (date : datetime) (dur end_hour : Z) (all : list Z)
    (times : list Z) :
  StronglySorted Z.lt times ->
  (forall h, In h times -> In h all) ->
  forall (acc : list CalSlot) (w w' : World) (res : list CalSlot),
    mock_slots_loop env date dur end_hour times acc w = (Ret res, w') ->
    StronglySorted earlier acc ->
    Forall (fun a => Forall (fun h => slot_start a < at_hour date h) times) acc ->
    Forall (fun s => exists hour, In hour all /\ hour < end_hour
                                   /\ s = mock_slot date dur hour) acc ->
    StronglySorted earlier res
    /\ Forall (fun s => exists hour, In hour all /\ hour < end_hour
                                      /\ s = mock_slot date dur hour) res.
Proof.
  induction times as [|hour times IH]; intros Hsorted Hall acc w w' res H Hacc Hbound Hshape.
  - apply ret_inv in H as [H _]. inversion H; subst. auto.
  - apply StronglySorted_cons in Hsorted as [Hhour Hsorted].
    assert (Hall' : forall h, In h times -> In h all) by (intros h Hh; apply Hall; now right).
    assert (Hbound' : Forall (fun a => Forall (fun h => slot_start a < at_hour date h) times) acc).
    { eapply Forall_impl; [exact Hbound |]. intros a Ha. now inversion Ha. }
    cbn [mock_slots_loop] in H.
    destruct (hour <? end_hour) eqn:Hend;
      [| exact (IH Hsorted Hall' _ _ _ _ H Hacc Hbound' Hshape)].
    apply Z.ltb_lt in Hend.
    apply bind_inv in H as [(start & w1 & H1 & H) | (e & H1 & ?)]; [| discriminate].
    apply lift_inv in H1 as [H1 ->]. symmetry in H1.
    apply replace_at_hour_inv in H1 as [Hrange ->].
    apply bind_inv in H as [(t & w1 & H1 & H) | (e & H1 & ?)]; [| discriminate].
    destruct (t <? at_hour date hour);
      [| exact (IH Hsorted Hall' _ _ _ _ H Hacc Hbound' Hshape)].
    apply (IH Hsorted Hall' _ _ _ _ H).
    + apply sorted_snoc; [exact Hacc |].
      eapply Forall_impl; [exact Hbound |]. intros a Ha. now inversion Ha.
    + apply Forall_app. split; [exact Hbound' |].
      constructor; [| constructor]. cbn [slot_start].
      eapply Forall_impl; [exact Hhour |]. intros h Hh. now apply at_hour_lt.
    + apply Forall_app. split; [exact Hshape |].
      constructor; [| constructor]. exists hour.
      split; [apply Hall; now left |]. split; [exact Hend | reflexivity].
Qed.

(** When every hour of the list is still ahead, the loop keeps them all. *)
Lemma mock_loop_all_ahead (date : datetime) (dur end_hour : Z) (times : list Z) :
  forall (acc : list CalSlot) (w : World),
    Forall (fun h => 0 <= h < 24 /\ h < end_hour
                     /\ forall n, (tick w <= n < tick w + length times)%nat ->
                                  clock env n < at_hour date h) times ->
    exists w',
      mock_slots_loop env date dur end_hour times acc w
      = (Ret (acc ++ map (mock_slot date dur) times)%list, w').
Proof.
  induction times as [|hour times IH]; intros acc w Hall.
  - exists w. cbn [mock_slots_loop map]. now rewrite app_nil_r.
  - inversion Hall as [| ? ? (Hrange & Hend & Hclock) Hrest]; subst.
    cbn [mock_slots_loop].
    replace (hour <? end_hour) with true by (symmetry; now apply Z.ltb_lt).
    erewrite bind_ret; [| unfold lift; rewrite (replace_at_hour date hour Hrange); reflexivity].
    erewrite bind_ret; [| reflexivity].
    replace (clock env (tick w) <? at_hour date hour) with true
      by (symmetry; apply Z.ltb_lt, Hclock; cbn [length]; lia).
    match goal with
    | |- context [mock_slots_loop _ _ _ _ _ ?acc' ?w1] =>
        destruct (IH acc' w1) as [w' Hw']
    end.
    { eapply Forall_impl; [exact Hrest |]. intros h (Hr & He & Hc).
      repeat split; try lia. intros n Hn. apply Hc. cbn [tick] in Hn.
      cbn [length]. lia. }
    exists w'. rewrite Hw'. cbn [map]. rewrite <- app_assoc. reflexivity.
Qed.

End Facts.

(** X8. The slots of the simulated calendar are at most three, in
    ascending order of start, and each is the slot of the requested date
    at 9, 11, 14 or 16 o'clock, an hour before the end of the working
    day, with the requested duration. *)
Theorem X_mock_slots_shape (env : Env) (date : datetime) (dur : Z) (hours : Z * Z)
    (w w' : World) (slots : list CalSlot) :
  _get_mock_available_slots env date dur hours w = (Ret slots, w') ->
  (length slots <= 3)%nat
  /\ StronglySorted earlier slots
  /\ Forall (fun s => exists hour, In hour [9; 11; 14; 16] /\ hour < snd hours
                                    /\ s = mock_slot date dur hour) slots.
Proof.
  unfold _get_mock_available_slots. destruct hours as [start_hour end_hour]. intros H.
  apply bind_inv in H as [(t1 & w1 & H1 & H) | (e & H1 & ?)]; [| discriminate].
  apply lift_inv in H1 as [_ ->].
  apply bind_inv in H as [(t2 & w1 & H1 & H) | (e & H1 & ?)]; [| discriminate].
  apply lift_inv in H1 as [_ ->].
  apply bind_inv in H as [(res & w1 & H1 & H) | (e & H1 & ?)]; [| discriminate].
  apply ret_inv in H as [H _]. inversion H; subst slots. clear H.
  assert (Hhours : StronglySorted Z.lt [9; 11; 14; 16]).
  { repeat (first [apply SSorted_nil | apply SSorted_cons]);
      repeat (first [apply List.Forall_nil | apply List.Forall_cons; [lia |]]). }
  destruct (mock_loop_shape env date dur end_hour [9; 11; 14; 16] [9; 11; 14; 16]
              Hhours (fun h Hh => Hh) [] w w1 res H1
              (SSorted_nil _) (List.Forall_nil _) (List.Forall_nil _))
    as [Hsorted Hshape].
  cbn [snd].
  split; [rewrite length_firstn; lia |].
  split; [now apply sorted_firstn | now apply Forall_firstn].
Qed.

Lemma X_mock_slots_shape_witness :
  exists slots w',
    _get_mock_available_slots offline_env (clock offline_env 0) 60 default_working_hours
      empty_world = (Ret slots, w')
    /\ length slots = 1%nat
    /\ StronglySorted earlier slots
    /\ Forall (fun s => exists hour, In hour [9; 11; 14; 16] /\ hour < 17
                        /\ s = mock_slot (clock offline_env 0) 60 hour) slots.
Proof.
  destruct (_get_mock_available_slots offline_env (clock offline_env 0) 60
              default_working_hours empty_world) as [[slots | e] w'] eqn:Hrun;
    [| vm_compute in Hrun; discriminate].
  destruct (X_mock_slots_shape offline_env _ _ _ _ _ _ Hrun) as (_ & Hs & Hf).
  exists slots, w'. split; [reflexivity |].
  split; [vm_compute in Hrun; inversion Hrun; reflexivity |]. split; assumption.
Defined.

(** X9. For a date whose nine o'clock is later than the four readings
    of the clock the call makes, the simulated calendar with the default
    working hours offers exactly the slots of 9, 11 and 14 o'clock; the
    slot of 16 o'clock is cut by the limit of three. *)
Theorem X_mock_slots_of_a_day_ahead (env : Env) (date : datetime) (dur : Z) (w : World) :
  (forall n, (tick w <= n < tick w + 4)%nat -> clock env n < at_hour date 9) ->
  exists w',
    _get_mock_available_slots env date dur default_working_hours w
    = (Ret [mock_slot date dur 9; mock_slot date dur 11; mock_slot date dur 14], w').
Proof.
  intros Hclock. unfold _get_mock_available_slots, default_working_hours.
  erewrite bind_ret; [| unfold lift; rewrite (replace_at_hour date 9) by lia; reflexivity].
  erewrite bind_ret; [| unfold lift; rewrite (replace_at_hour date 17) by lia; reflexivity].
  destruct (mock_loop_all_ahead env date dur 17 [9; 11; 14; 16] [] w) as [w' Hw'].
  { repeat constructor; try lia;
      intros n Hn; cbn [length] in Hn; specialize (Hclock n Hn);
      first [exact Hclock
            | eapply Z.lt_trans; [exact Hclock | apply at_hour_lt; lia]]. }
  exists w'. erewrite bind_ret; [| exact Hw']. reflexivity.
Qed.

Lemma X_mock_slots_of_a_day_ahead_witness :
  exists w',
    _get_mock_available_slots offline_env (add_days (clock offline_env 0) 1) 60
      default_working_hours empty_world
    = (Ret [mock_slot (add_days (clock offline_env 0) 1) 60 9;
            mock_slot (add_days (clock offline_env 0) 1) 60 11;
            mock_slot (add_days (clock offline_env 0) 1) 60 14], w').
Proof.
  apply (X_mock_slots_of_a_day_ahead offline_env (add_days (clock offline_env 0) 1) 60
           empty_world).
  intros n Hn. cbn [tick empty_world] in Hn.
  set (nine := at_hour (add_days (clock offline_env 0) 1) 9).
  vm_compute in nine. subst nine.
  change (clock offline_env n) with (afternoon_2024_02_29 + Z.of_nat n).
  set (base := afternoon_2024_02_29). vm_compute in base. subst base. lia.
Defined.

End ServiceExtras.

(** ** The real calendar *)

Module RealCalendarExtras.
Import PyStr PyStrFacts DateTime Json Spec Behaviour.
Import GoogleCalendarService CalendarBookingAgent Examples.
Import ServiceFacts AgentFacts BookingExtras ServiceExtras.

(** A candidate that the conflict test accepts overlaps no event whose
    two times are naive. *)
Lemma no_conflict_free (events : list GEvent) (start finish : datetime) :
  no_conflict events start finish = Ret true ->
  Forall (fun e => ~ overlaps start finish e) events.
Proof.
  induction events as [|e events IH]; intros H; [constructor |].
  cbn [no_conflict] in H. unfold exc_bind in H.
  destruct (parsed (g_start e)) as [es |] eqn:Hs; [| discriminate].
  destruct (parsed (g_end e)) as [ee |] eqn:He; [| discriminate].
  destruct (naive_lt start ee) as [before_end |] eqn:Hlt; [| discriminate].
  destruct before_end.
  - destruct (naive_gt finish es) as [after_start |] eqn:Hgt; [| discriminate].
    destruct after_start; [discriminate |].
    constructor; [| exact (IH H)].
    intros (s & f & Hs' & He' & _ & Hover).
    rewrite Hs' in Hs. cbn [parsed] in Hs. inversion Hs; subst es.
    cbn [naive_gt] in Hgt. inversion Hgt as [Hb].
    apply Z.ltb_ge in Hb. lia.
  - constructor; [| exact (IH H)].
    intros (s & f & Hs' & He' & Hover & _).
    rewrite He' in He. cbn [parsed] in He. inversion He; subst ee.
    cbn [naive_lt] in Hlt. inversion Hlt as [Hb].
    apply Z.ltb_ge in Hb. lia.
Qed.

(** An event whose end is an aware instant makes the conflict test
    raise, whatever the candidate. *)
Lemma no_conflict_aware (e : GEvent) (events : list GEvent) (start finish : datetime)
    (instant : Z) :
  g_end e = Aware instant ->
  exists x, no_conflict (e :: events) start finish = Raise x.
Proof.
  intros He. cbn [no_conflict]. unfold exc_bind.
  destruct (parsed (g_start e)); [| eauto].
  rewrite He. cbn [parsed naive_lt]. eauto.
Qed.

Section Facts.
Variable env : Env.

Lemma real_loop_shape (events : list GEvent) (dur : Z) (day_start day_end : datetime)
    (rounds : nat) :
  forall (cur : datetime) (acc : list CalSlot) (w w' : World) (res : list CalSlot),
    real_slots_loop env rounds events dur day_end cur acc w = (Ret res, w') ->
    (exists j, 0 <= j /\ cur = day_start + j * (30 * us_minute)) ->
    StronglySorted earlier acc ->
    Forall (fun a => slot_start a < cur) acc ->
    Forall (real_slot events dur day_start day_end) acc ->
    StronglySorted earlier res /\ Forall (real_slot events dur day_start day_end) res.
Proof.
  induction rounds as [|rounds IH]; intros cur acc w w' res H Hgrid Hsorted Hbelow Hshape.
  - apply ret_inv in H as [H _]. inversion H; subst. auto.
  - cbn [real_slots_loop] in H.
    destruct (add_minutes cur dur <=? day_end) eqn:Hfit.
    2:{ apply ret_inv in H as [H _]. inversion H; subst. auto. }
    apply Z.leb_le in Hfit.
    apply bind_inv in H as [(free & w1 & H1 & H) | (e & H1 & ?)]; [| discriminate].
    apply lift_inv in H1 as [Hfree ->]. symmetry in Hfree.
    apply bind_inv in H as [(keep & w1 & H1 & H) | (e & H1 & ?)]; [| discriminate].
    assert (Hnext : exists j, 0 <= j /\ add_minutes cur 30 = day_start + j * (30 * us_minute)).
    { destruct Hgrid as (j & Hj & ->). exists (j + 1). split; [lia |].
      unfold add_minutes, us_minute, us_second, datetime in *. lia. }
    assert (Hcur : cur < add_minutes cur 30).
    { unfold add_minutes, us_minute, us_second. lia. }
    assert (Hkeep : keep = true -> free = true).
    { intros ->. destruct free; [reflexivity |].
      apply ret_inv in H1 as [H1 _]. inversion H1. }
    destruct keep.
    + rewrite (Hkeep eq_refl) in Hfree. apply (IH _ _ _ _ _ H Hnext).
      * apply sorted_snoc; assumption.
      * apply Forall_app. split.
        -- eapply Forall_impl; [exact Hbelow |]. intros a Ha.
           exact (Z.lt_trans _ _ _ Ha Hcur).
        -- constructor; [exact Hcur | constructor].
      * apply Forall_app. split; [exact Hshape |].
        constructor; [| constructor]. unfold real_slot. cbn [slot_start slot_end slot_available].
        repeat split; try assumption.
        now apply no_conflict_free.
    + apply (IH _ _ _ _ _ H Hnext Hsorted); [| exact Hshape].
      eapply Forall_impl; [exact Hbelow |]. intros a Ha.
      exact (Z.lt_trans _ _ _ Ha Hcur).
Qed.

End Facts.

(** X10. The slots the real calendar returns are at most five, in
    ascending order of start; each starts on the half-hour grid that
    begins with the working day, lasts the requested duration, ends
    within the working day and overlaps no event of the provider whose
    times are naive. *)
Theorem X_real_slots_shape (env : Env) (date : datetime) (dur : Z) (hours : Z * Z)
    (w w' : World) (slots : list CalSlot) (events : list GEvent) :
  _get_real_available_slots env date dur hours w = (Ret slots, w') ->
  events_list env (isoformat (at_hour date (fst hours)) +:+ "Z")
                  (isoformat (at_hour date (snd hours)) +:+ "Z") = Ret events ->
  (length slots <= 5)%nat
  /\ StronglySorted earlier slots
  /\ Forall (real_slot events dur (at_hour date (fst hours)) (at_hour date (snd hours)))
       slots.
Proof.
  unfold _get_real_available_slots. destruct hours as [start_hour end_hour]. cbn [fst snd].
  intros H Hevents.
  apply bind_inv in H as [(day_start & w1 & H1 & H) | (e & H1 & ?)]; [| discriminate].
  apply lift_inv in H1 as [H1 ->]. symmetry in H1.
  apply replace_at_hour_inv in H1 as [_ ->].
  apply bind_inv in H as [(day_end & w1 & H1 & H) | (e & H1 & ?)]; [| discriminate].
  apply lift_inv in H1 as [H1 ->]. symmetry in H1.
  apply replace_at_hour_inv in H1 as [_ ->].
  apply bind_inv in H as [(events' & w1 & H1 & H) | (e & H1 & ?)]; [| discriminate].
  apply lift_inv in H1 as [H1 ->]. rewrite Hevents in H1. inversion H1; subst events'.
  apply bind_inv in H as [(res & w1 & H1' & H) | (e & H1' & ?)]; [| discriminate].
  apply ret_inv in H as [H _]. inversion H; subst slots. clear H.
  destruct (real_loop_shape env events dur (at_hour date start_hour)
              (at_hour date end_hour) _ _ _ _ _ _ H1') as [Hsorted Hshape].
  - exists 0. split; [lia |]. unfold datetime in *. lia.
  - constructor.
  - constructor.
  - constructor.
  - split; [rewrite length_firstn; lia |].
    split; [now apply sorted_firstn | now apply Forall_firstn].
Qed.

Lemma X_real_slots_shape_witness :
  exists slots w',
    _get_real_available_slots online_env (add_days (clock online_env 0) 1) 60
      default_working_hours empty_world = (Ret slots, w')
    /\ length slots = 5%nat
    /\ StronglySorted earlier slots.
Proof.
  destruct (_get_real_available_slots online_env (add_days (clock online_env 0) 1) 60
              default_working_hours empty_world) as [[slots | e] w'] eqn:Hrun;
    [| vm_compute in Hrun; discriminate].
  destruct (X_real_slots_shape online_env _ _ _ _ _ _ _ Hrun eq_refl) as (_ & Hs & _).
  exists slots, w'. split; [reflexivity |].
  split; [vm_compute in Hrun; inversion Hrun; reflexivity | exact Hs].
Defined.

(** X11. With the real calendar, as soon as the first event of the
    provider ends at an aware instant (a time with an offset, as every
    timed event has), comparing it with the naive candidate raises, and
    slot listing answers with the slots of the simulated calendar,
    whatever the other events: the events of the provider are ignored.
    The duration must fit in the default working day. *)
Theorem X_aware_event_falls_back_to_mock (env : Env) (date : datetime) (dur : Z)
    (w : World) (e : GEvent) (events : list GEvent) (instant : Z) :
  mock_mode env = false ->
  events_list env (isoformat (at_hour date 9) +:+ "Z")
                  (isoformat (at_hour date 17) +:+ "Z") = Ret (e :: events) ->
  g_end e = Aware instant ->
  dur <= 480 ->
  get_available_slots env date dur default_working_hours w
  = _get_mock_available_slots env date dur default_working_hours w.
Proof.
  intros Hmode Hevents Haware Hdur.
  unfold get_available_slots, try_catch. rewrite Hmode.
  assert (Hreal : exists x,
             _get_real_available_slots env date dur default_working_hours w
             = (Raise x, w)).
  { unfold _get_real_available_slots, default_working_hours.
    erewrite bind_ret; [| unfold lift; rewrite (replace_at_hour date 9) by lia; reflexivity].
    erewrite bind_ret; [| unfold lift; rewrite (replace_at_hour date 17) by lia; reflexivity].
    erewrite bind_ret; [| unfold lift; rewrite Hevents; reflexivity].
    assert (Hfit : add_minutes (at_hour date 9) dur <= at_hour date 17).
    { unfold add_minutes, at_hour, us_hour, us_minute, us_second. lia. }
    destruct (rounds_needed dur (at_hour date 9) (at_hour date 17)) as [|rounds] eqn:Hrounds.
    { exfalso. unfold rounds_needed in Hrounds.
      assert (0 <= (at_hour date 17 - add_minutes (at_hour date 9) dur) / (30 * us_minute))
        by (apply Z.div_pos; [lia | reflexivity]).
      lia. }
    cbn [real_slots_loop].
    replace (add_minutes (at_hour date 9) dur <=? at_hour date 17) with true
      by (symmetry; now apply Z.leb_le).
    destruct (no_conflict_aware e events (at_hour date 9)
                (add_minutes (at_hour date 9) dur) instant Haware) as [x Hx].
    exists x.
    erewrite bind_raise; [reflexivity |].
    erewrite bind_raise; [reflexivity |].
    unfold lift. rewrite Hx. reflexivity. }
  destruct Hreal as [x ->]. reflexivity.
Qed.

Lemma X_aware_event_falls_back_to_mock_witness :
  get_available_slots timed_event_env (add_days (clock timed_event_env 0) 1) 60
    default_working_hours empty_world
  = _get_mock_available_slots timed_event_env (add_days (clock timed_event_env 0) 1) 60
      default_working_hours empty_world.
Proof.
  apply (X_aware_event_falls_back_to_mock timed_event_env
           (add_days (clock timed_event_env 0) 1) 60 empty_world
           {| g_start := Aware (ymd2ord 2024 3 1 * us_day + 10 * us_hour);
              g_end := Aware (ymd2ord 2024 3 1 * us_day + 11 * us_hour) |}
           [] (ymd2ord 2024 3 1 * us_day + 11 * us_hour));
    try reflexivity.
  lia.
Defined.

End RealCalendarExtras.

(** ** Confirming an offered slot *)

Module ConfirmExtras.
Import PyStr PyStrFacts DateTime Json Spec Behaviour.
Import GoogleCalendarService CalendarBookingAgent Examples.
Import ServiceFacts AgentFacts FailureFacts ProcessFacts TotalityFacts.

Section Facts.
Variable env : Env.

(** What [confirm_booking] does for an index within the offer, when the
    two texts of the slot parse and the meeting type is a text. *)
Lemma confirm_booking_success (sid : string) (i : nat) (w : World) (s : Session)
    (slot : Slot) (t1 t2 : datetime) (mt : string) :
  sessions w !! sid = Some s ->
  available_slots s !! i = Some slot ->
  fromisoformat (replace_Z (start_time slot)) = Ret t1 ->
  fromisoformat (replace_Z (end_time slot)) = Ret t2 ->
  as_str (get_default "type" (JStr "Meeting") (extracted_info s)) = Ret mt ->
  exists b w',
    confirm_booking env sid (Z.of_nat i) w = (Ret b, w')
    /\ b_success b = true
    /\ created w' = (created w ++ [booking_call mt t1 t2])%list
    /\ sessions w' = alter (set_booking_confirmed true) sid (sessions w)
    /\ tick w' = tick w.
Proof.
  intros Hs Hslot Ht1 Ht2 Hmt. unfold confirm_booking. rewrite Hs.
  pose proof (lookup_lt_Some _ _ _ Hslot) as Hlt.
  replace (0 <=? Z.of_nat i) with true by (symmetry; apply Z.leb_le; lia).
  replace (Z.of_nat i <? Z.of_nat (length (available_slots s))) with true
    by (symmetry; apply Z.ltb_lt; lia).
  cbn [andb]. rewrite Nat2Z.id, Hslot.
  erewrite bind_ret; [| reflexivity].
  erewrite bind_ret; [| unfold lift; rewrite Ht1; reflexivity].
  erewrite bind_ret; [| unfold lift; rewrite Ht2; reflexivity].
  erewrite bind_ret; [| unfold lift; rewrite Hmt; reflexivity].
  destruct (create_event env (capitalize mt +:+ " - " +:+ strftime_clock t1) t1 t2
              ("Booked via Calendar Agent - " +:+ mt) [] w) as [r w1] eqn:Hcreate.
  destruct (create_event_spec env _ _ _ _ _ _ _ _ Hcreate)
    as (Hs1 & Htick1 & Hc1 & res & -> & Hsucc).
  erewrite bind_ret; [| exact Hcreate].
  rewrite Hsucc.
  erewrite bind_ret; [| apply update_session_run].
  do 2 eexists. split; [reflexivity |]. cbn [b_success sessions created tick set_sessions].
  repeat split; [exact Hc1 | now rewrite Hs1 | exact Htick1].
Qed.

(** [confirm_booking] changes no session but its own, and in that one
    nothing but the confirmation flag. *)
Lemma confirm_booking_frame (sid : string) (slot_index : Z) (w w' : World)
    (r : exc BookingResult) :
  confirm_booking env sid slot_index w = (r, w') ->
  tick w' = tick w
  /\ (sessions w' = sessions w
      \/ sessions w' = alter (set_booking_confirmed true) sid (sessions w)).
Proof.
  unfold confirm_booking. destruct (sessions w !! sid) as [s |] eqn:Hs.
  2:{ intros H. inversion H. auto. }
  destruct (_ && _).
  2:{ intros H. inversion H. auto. }
  intros H.
  apply bind_inv in H as [(slot & w1 & H1 & H) | (e & H1 & ?)].
  2:{ destruct (available_slots s !! _); [apply ret_inv in H1 as [? _]; discriminate |].
      inversion H1. auto. }
  assert (w1 = w) as ->.
  { destruct (available_slots s !! _); [now apply ret_inv in H1 | inversion H1]. }
  apply bind_inv in H as [(t1 & w1 & H2 & H) | (e & H2 & ?)].
  2:{ apply lift_inv in H2 as [_ ->]. auto. }
  apply lift_inv in H2 as [_ ->].
  apply bind_inv in H as [(t2 & w1 & H2 & H) | (e & H2 & ?)].
  2:{ apply lift_inv in H2 as [_ ->]. auto. }
  apply lift_inv in H2 as [_ ->].
  apply bind_inv in H as [(mt & w1 & H2 & H) | (e & H2 & ?)].
  2:{ apply lift_inv in H2 as [_ ->]. auto. }
  apply lift_inv in H2 as [_ ->].
  apply bind_inv in H as [(res & w1 & H2 & H) | (e & H2 & ?)].
  2:{ apply create_event_spec in H2 as (_ & _ & _ & res & ? & _). discriminate. }
  apply create_event_spec in H2 as (Hs1 & Htick1 & _ & res' & Hres & Hsucc).
  inversion Hres; subst res'. rewrite Hsucc in H.
  apply bind_inv in H as [([] & w2 & H3 & H) | (e & H3 & ?)].
  2:{ apply update_session_spec in H3 as (? & _). discriminate. }
  apply update_session_spec in H3 as (_ & _ & Htick2 & Hs2).
  apply ret_inv in H as [_ ->].
  split; [congruence |]. right. now rewrite Hs2, Hs1.
Qed.

End Facts.

(** X12. Confirming an index within the offer, when the two ISO texts of
    the slot parse and the meeting type is a text, succeeds in either
    calendar mode and whatever the provider answers: exactly one event is
    created, from the parsed start to the parsed end, the flag of the
    session is set, and the offer itself stays in the session. *)
Theorem X_confirm_books_the_slot (env : Env) (sid : string) (i : nat) (w : World)
    (s : Session) (slot : Slot) (t1 t2 : datetime) (mt : string) :
  sessions w !! sid = Some s ->
  available_slots s !! i = Some slot ->
  fromisoformat (replace_Z (start_time slot)) = Ret t1 ->
  fromisoformat (replace_Z (end_time slot)) = Ret t2 ->
  as_str (get_default "type" (JStr "Meeting") (extracted_info s)) = Ret mt ->
  exists b w' s',
    confirm_booking env sid (Z.of_nat i) w = (Ret b, w')
    /\ b_success b = true
    /\ created w' = (created w ++ [booking_call mt t1 t2])%list
    /\ sessions w' !! sid = Some s'
    /\ booking_confirmed s' = true
    /\ available_slots s' = available_slots s
    /\ messages s' = messages s.
Proof.
  intros Hs Hslot Ht1 Ht2 Hmt.
  destruct (confirm_booking_success env sid i w s slot t1 t2 mt Hs Hslot Ht1 Ht2 Hmt)
    as (b & w' & Hrun & Hsucc & Hcreated & Hsessions & _).
  exists b, w', (set_booking_confirmed true s).
  rewrite Hsessions, lookup_alter_eq, Hs. repeat split; assumption.
Qed.

Lemma X_confirm_books_the_slot_witness :
  exists b w' s',
    confirm_booking online_env "s1" 0 late_world = (Ret b, w')
    /\ b_success b = true
    /\ created w'
       = [booking_call "call" (ymd2ord 2024 2 29 * us_day + 9 * us_hour)
            (ymd2ord 2024 2 29 * us_day + 10 * us_hour)]
    /\ sessions w' !! "s1" = Some s'
    /\ booking_confirmed s' = true
    /\ available_slots s' = [morning_slot]
    /\ messages s' = [].
Proof.
  apply (X_confirm_books_the_slot online_env "s1" 0 late_world offered_session
           morning_slot (ymd2ord 2024 2 29 * us_day + 9 * us_hour)
           (ymd2ord 2024 2 29 * us_day + 10 * us_hour) "call"); reflexivity.
Defined.

(** X13. Nothing prevents a second confirmation: confirming the same
    index twice succeeds twice and creates two events with the same
    title, start and end. *)
Theorem X_confirm_twice_books_twice (env : Env) (sid : string) (i : nat) (w : World)
    (s : Session) (slot : Slot) (t1 t2 : datetime) (mt : string) :
  sessions w !! sid = Some s ->
  available_slots s !! i = Some slot ->
  fromisoformat (replace_Z (start_time slot)) = Ret t1 ->
  fromisoformat (replace_Z (end_time slot)) = Ret t2 ->
  as_str (get_default "type" (JStr "Meeting") (extracted_info s)) = Ret mt ->
  exists b1 w1 b2 w2,
    confirm_booking env sid (Z.of_nat i) w = (Ret b1, w1)
    /\ confirm_booking env sid (Z.of_nat i) w1 = (Ret b2, w2)
    /\ b_success b1 = true /\ b_success b2 = true
    /\ created w2 = (created w ++ [booking_call mt t1 t2; booking_call mt t1 t2])%list.
Proof.
  intros Hs Hslot Ht1 Ht2 Hmt.
  destruct (confirm_booking_success env sid i w s slot t1 t2 mt Hs Hslot Ht1 Ht2 Hmt)
    as (b1 & w1 & Hrun1 & Hsucc1 & Hcreated1 & Hsessions1 & _).
  assert (Hs1 : sessions w1 !! sid = Some (set_booking_confirmed true s)).
  { now rewrite Hsessions1, lookup_alter_eq, Hs. }
  destruct (confirm_booking_success env sid i w1 (set_booking_confirmed true s) slot
              t1 t2 mt Hs1 Hslot Ht1 Ht2 Hmt)
    as (b2 & w2 & Hrun2 & Hsucc2 & Hcreated2 & _).
  exists b1, w1, b2, w2. repeat split; try assumption.
  rewrite Hcreated2, Hcreated1, <- app_assoc. reflexivity.
Qed.

Lemma X_confirm_twice_books_twice_witness :
  exists b1 w1 b2 w2,
    confirm_booking offline_env "s1" 0 late_world = (Ret b1, w1)
    /\ confirm_booking offline_env "s1" 0 w1 = (Ret b2, w2)
    /\ b_success b1 = true /\ b_success b2 = true
    /\ created w2
       = [booking_call "call" (ymd2ord 2024 2 29 * us_day + 9 * us_hour)
            (ymd2ord 2024 2 29 * us_day + 10 * us_hour);
          booking_call "call" (ymd2ord 2024 2 29 * us_day + 9 * us_hour)
            (ymd2ord 2024 2 29 * us_day + 10 * us_hour)].
Proof.
  apply (X_confirm_twice_books_twice offline_env "s1" 0 late_world offered_session
           morning_slot (ymd2ord 2024 2 29 * us_day + 9 * us_hour)
           (ymd2ord 2024 2 29 * us_day + 10 * us_hour) "call"); reflexivity.
Defined.

End ConfirmExtras.

(** ** Sessions in the store *)

Module SessionExtras.
Import PyStr PyStrFacts DateTime Json Spec Behaviour.
Import GoogleCalendarService CalendarBookingAgent Examples.
Import ServiceFacts AgentFacts FailureFacts ProcessFacts TotalityFacts ConfirmExtras.

Lemma only_session_refl (sid : string) (w : World) : only_session sid w w.
Proof. intros sid' _. reflexivity. Qed.

Lemma only_session_trans (sid : string) (w1 w2 w3 : World) :
  only_session sid w1 w2 -> only_session sid w2 w3 -> only_session sid w1 w3.
Proof. intros H12 H23 sid' Hne. now rewrite (H23 sid' Hne), (H12 sid' Hne). Qed.

Lemma only_session_same (sid : string) (w w' : World) :
  sessions w' = sessions w -> only_session sid w w'.
Proof. intros H sid' _. now rewrite H. Qed.

Lemma only_session_alter (sid : string) (f : Session -> Session) (w w' : World) :
  sessions w' = alter f sid (sessions w) -> only_session sid w w'.
Proof. intros H sid' Hne. rewrite H. apply lookup_alter_ne. congruence. Qed.

Lemma update_session_only (sid : string) (f : Session -> Session) (w w' : World)
    (r : exc unit) :
  update_session sid f w = (r, w') -> only_session sid w w'.
Proof.
  intros H. apply update_session_spec in H as (_ & _ & _ & Hs).
  now apply (only_session_alter sid f).
Qed.

Lemma entered_only (m sid : string) (w : World) : only_session sid w (entered m sid w).
Proof.
  intros sid' Hne. unfold entered. cbn [sessions set_sessions].
  rewrite lookup_alter_ne by congruence.
  destruct (sessions w !! sid); [reflexivity |].
  apply lookup_insert_ne. congruence.
Qed.

Lemma answered_only (response sid : string) (w : World) :
  only_session sid w (answered response sid w).
Proof. now apply (only_session_alter sid (append_message (assistant_says response))). Qed.

Section Facts.
Variable env : Env.

Lemma book_branch_only (m sid : string) (w w' : World) (r : exc string) :
  book_branch env m sid w = (r, w') -> only_session sid w w'.
Proof.
  unfold book_branch. intros H.
  apply bind_inv in H as [(extracted & w1 & H1 & H) | (e & H1 & _)].
  2:{ apply lift_inv in H1 as [_ ->]. apply only_session_refl. }
  apply lift_inv in H1 as [_ ->].
  apply bind_inv in H as [(info & w1 & H1 & H) | (e & H1 & _)].
  2:{ apply lift_inv in H1 as [_ ->]. apply only_session_refl. }
  apply lift_inv in H1 as [_ ->].
  destruct (truthy _); [| apply ret_inv in H as [_ ->]; apply only_session_refl].
  apply bind_inv in H as [(direct & w1 & H1 & H) | (e & H1 & _)].
  2:{ apply direct_book_spec in H1 as [Hs _]. now apply only_session_same. }
  apply direct_book_spec in H1 as [Hs1 _].
  apply (only_session_trans _ _ w1); [now apply only_session_same |].
  destruct (b_success direct).
  - apply bind_inv in H as [([] & w2 & H2 & H) | (e & H2 & _)].
    2:{ apply update_session_spec in H2 as (? & _). discriminate. }
    apply (only_session_trans _ _ w2); [exact (update_session_only _ _ _ _ _ H2) |].
    apply bind_inv in H as [([] & w3 & H3 & H) | (e & H3 & _)].
    2:{ apply update_session_spec in H3 as (? & _). discriminate. }
    apply ret_inv in H as [_ ->]. exact (update_session_only _ _ _ _ _ H3).
  - apply bind_inv in H as [(slots & w2 & H2 & H) | (e & H2 & _)].
    2:{ apply check_availability_spec in H2 as [(Hs & _) _]. now apply only_session_same. }
    apply check_availability_spec in H2 as [(Hs2 & _) _].
    apply (only_session_trans _ _ w2); [now apply only_session_same |].
    apply bind_inv in H as [([] & w3 & H3 & H) | (e & H3 & _)].
    2:{ apply update_session_spec in H3 as (? & _). discriminate. }
    apply (only_session_trans _ _ w3); [exact (update_session_only _ _ _ _ _ H3) |].
    apply bind_inv in H as [([] & w4 & H4 & H) | (e & H4 & _)].
    2:{ apply update_session_spec in H4 as (? & _). discriminate. }
    apply ret_inv in H as [_ ->]. exact (update_session_only _ _ _ _ _ H4).
Qed.

Lemma availability_branch_only (m sid : string) (w w' : World) (r : exc string) :
  availability_branch env m sid w = (r, w') -> only_session sid w w'.
Proof.
  unfold availability_branch. intros H.
  apply bind_inv in H as [(extracted & w1 & H1 & H) | (e & H1 & _)].
  2:{ apply lift_inv in H1 as [_ ->]. apply only_session_refl. }
  apply lift_inv in H1 as [_ ->].
  apply bind_inv in H as [(info & w1 & H1 & H) | (e & H1 & _)].
  2:{ apply lift_inv in H1 as [_ ->]. apply only_session_refl. }
  apply lift_inv in H1 as [_ ->].
  destruct (truthy _); [| apply ret_inv in H as [_ ->]; apply only_session_refl].
  apply bind_inv in H as [(slots & w2 & H2 & H) | (e & H2 & _)].
  2:{ apply check_availability_spec in H2 as [(Hs & _) _]. now apply only_session_same. }
  apply check_availability_spec in H2 as [(Hs2 & _) _].
  apply (only_session_trans _ _ w2); [now apply only_session_same |].
  apply bind_inv in H as [([] & w3 & H3 & H) | (e & H3 & _)].
  2:{ apply update_session_spec in H3 as (? & _). discriminate. }
  apply (only_session_trans _ _ w3); [exact (update_session_only _ _ _ _ _ H3) |].
  apply bind_inv in H as [([] & w4 & H4 & H) | (e & H4 & _)].
  2:{ apply update_session_spec in H4 as (? & _). discriminate. }
  apply ret_inv in H as [_ ->]. exact (update_session_only _ _ _ _ _ H4).
Qed.

Lemma branch_of_only (intent m sid : string) (w w' : World) (r : exc string) :
  branch_of env intent m sid w = (r, w') -> only_session sid w w'.
Proof.
  unfold branch_of. destruct (contains "book_appointment" intent).
  - apply book_branch_only.
  - destruct (contains "check_availability" intent).
    + apply availability_branch_only.
    + intros H. apply conversation_branch_spec in H. subst. apply only_session_refl.
Qed.

Lemma process_message_only (m sid : string) (w w' : World) (r : exc ChatResponse) :
  process_message env m sid w = (r, w') -> only_session sid w w'.
Proof.
  rewrite process_message_unfold.
  pose proof (entered_only m sid w) as Hentered.
  destruct (_understand_intent env m) as [intent | e].
  2:{ intros H. inversion H; subst. exact Hentered. }
  destruct (branch_of env intent m sid (entered m sid w)) as [[response | e] w3] eqn:Hbranch.
  - pose proof (only_session_trans _ _ _ _ Hentered (branch_of_only _ _ _ _ _ _ Hbranch)) as H3.
    destruct (sessions (answered response sid w3) !! sid);
      intros H; inversion H; subst;
      exact (only_session_trans _ _ _ _ H3 (answered_only response sid w3)).
  - intros H. inversion H; subst.
    exact (only_session_trans _ _ _ _ Hentered (branch_of_only _ _ _ _ _ _ Hbranch)).
Qed.

End Facts.

(** X14. A call of [process_message] or of [confirm_booking] for a
    session identifier leaves every other session of the store exactly as
    it was, whether the call returns or raises. *)
Theorem X_other_sessions_untouched (env : Env) (sid : string) (w w' : World) :
  (exists m r, process_message env m sid w = (r, w'))
  \/ (exists slot_index r, confirm_booking env sid slot_index w = (r, w')) ->
  only_session sid w w'.
Proof.
  intros [(m & r & H) | (slot_index & r & H)].
  - exact (process_message_only env m sid w w' r H).
  - destruct (confirm_booking_frame env sid slot_index w w' r H) as [_ [Hs | Hs]].
    + now apply only_session_same.
    + now apply (only_session_alter sid (set_booking_confirmed true)).
Qed.

Lemma X_other_sessions_untouched_witness :
  only_session "s2" late_world
    (snd (process_message offline_env call_message "s2" late_world)).
Proof.
  apply (X_other_sessions_untouched offline_env "s2" late_world).
  left. exists call_message. eexists. apply surjective_pairing.
Defined.

End SessionExtras.

(** ** A message that books *)

Module BookedReplyExtras.
Import PyStr PyStrFacts DateTime Json Spec Behaviour.
Import GoogleCalendarService CalendarBookingAgent Examples.
Import ServiceFacts AgentFacts FailureFacts ProcessFacts TotalityFacts.

Section Facts.
Variable env : Env.

(** The booking branch creates no event, or one: the event of a direct
    booking, after which the offer is emptied and the session confirmed. *)
Lemma book_branch_outcome (m sid : string) (w w' : World) (r : exc string) :
  book_branch env m sid w = (r, w') ->
  created w' = created w
  \/ exists c,
       created w' = (created w ++ [c])%list
       /\ clock env (S (tick w)) < call_start c
       /\ sessions w' = alter (set_available_slots []) sid
                          (alter (set_booking_confirmed true) sid (sessions w)).
Proof.
  unfold book_branch. intros H.
  apply bind_inv in H as [(extracted & w1 & H1 & H) | (e & H1 & _)].
  2:{ apply lift_inv in H1 as [_ ->]. now left. }
  apply lift_inv in H1 as [_ ->].
  apply bind_inv in H as [(info & w1 & H1 & H) | (e & H1 & _)].
  2:{ apply lift_inv in H1 as [_ ->]. now left. }
  apply lift_inv in H1 as [_ ->].
  destruct (truthy _); [| apply ret_inv in H as [_ ->]; now left].
  apply bind_inv in H as [(direct & w1 & H1 & H) | (e & H1 & _)].
  2:{ apply direct_book_spec in H1 as (_ & b & Hb & _). discriminate. }
  apply direct_book_spec in H1 as (Hs1 & b & Hb & Hcases).
  injection Hb as ->.
  destruct Hcases as [(Hfail & Hc1) | (Hsucc & c & Hc1 & Hlate)].
  - left. rewrite Hfail in H.
    apply bind_inv in H as [(slots & w2 & H2 & H) | (e & H2 & _)].
    2:{ apply check_availability_spec in H2 as [(_ & Hc & _) _]. congruence. }
    apply check_availability_spec in H2 as [(_ & Hc2 & _) _].
    apply bind_inv in H as [([] & w3 & H3 & H) | (e & H3 & _)].
    2:{ apply update_session_spec in H3 as (? & _). discriminate. }
    apply update_session_spec in H3 as (_ & Hc3 & _).
    apply bind_inv in H as [([] & w4 & H4 & H) | (e & H4 & _)].
    2:{ apply update_session_spec in H4 as (? & _). discriminate. }
    apply update_session_spec in H4 as (_ & Hc4 & _).
    apply ret_inv in H as [_ ->]. congruence.
  - right. exists c. rewrite Hsucc in H.
    apply bind_inv in H as [([] & w2 & H2 & H) | (e & H2 & _)].
    2:{ apply update_session_spec in H2 as (? & _). discriminate. }
    apply update_session_spec in H2 as (_ & Hc2 & _ & Hs2).
    apply bind_inv in H as [([] & w3 & H3 & H) | (e & H3 & _)].
    2:{ apply update_session_spec in H3 as (? & _). discriminate. }
    apply update_session_spec in H3 as (_ & Hc3 & _ & Hs3).
    apply ret_inv in H as [_ ->].
    split; [congruence |]. split; [exact Hlate |].
    rewrite Hs3, Hs2, Hs1. reflexivity.
Qed.

End Facts.

(** X15. When a message makes [process_message] create a calendar event,
    it creates exactly one, starting later than the clock read at the
    past-time check; the intent holds [book_appointment]; the session is
    left confirmed with an empty offer, and its extracted information is
    what it was before the message, which is also what the reply
    carries, with no slots. *)
Theorem X_booking_reply_clears_offer (env : Env) (m sid : string) (w w' : World)
    (r : ChatResponse) :
  process_message env m sid w = (Ret r, w') ->
  created w' <> created w ->
  exists c s',
    created w' = (created w ++ [c])%list
    /\ clock env (S (tick w)) < call_start c
    /\ contains "book_appointment" (r_intent r) = true
    /\ sessions w' !! sid = Some s'
    /\ booking_confirmed s' = true
    /\ available_slots s' = []
    /\ extracted_info s'
       = match sessions w !! sid with
         | Some s => extracted_info s
         | None => []
         end
    /\ r_available_slots r = []
    /\ r_extracted_info r = extracted_info s'.
Proof.
  rewrite process_message_unfold.
  destruct (_understand_intent env m) as [intent | e]; [| discriminate].
  destruct (branch_of env intent m sid (entered m sid w)) as [[response | e] w3] eqn:Hbranch;
    [| discriminate].
  destruct (sessions (answered response sid w3) !! sid) as [s4 |] eqn:Hs4; [| discriminate].
  intros H Hne. inversion H; subst r w'. clear H.
  cbn [r_intent r_available_slots r_extracted_info].
  unfold answered in Hne. cbn [created set_sessions] in Hne.
  destruct (contains "book_appointment" intent) eqn:Hintent.
  2:{ exfalso. apply Hne.
      rewrite (branch_of_creates_nothing env _ _ _ _ _ _ Hintent Hbranch).
      apply entered_frame. }
  unfold branch_of in Hbranch. rewrite Hintent in Hbranch.
  destruct (book_branch_outcome env _ _ _ _ _ Hbranch) as [Hsame | (c & Hc & Hlate & Hs3)].
  { exfalso. apply Hne. rewrite Hsame. apply entered_frame. }
  destruct (entered_frame m sid w) as [Hcreated Htick].
  rewrite Hcreated in Hc. rewrite Htick in Hlate.
  unfold answered in Hs4 |- *. cbn [sessions created set_sessions] in Hs4 |- *.
  rewrite lookup_alter_eq, Hs3, !lookup_alter_eq, entered_session in Hs4.
  cbn [fmap option_fmap option_map] in Hs4. inversion Hs4; subst s4.
  exists c. eexists. split; [exact Hc |]. split; [exact Hlate |].
  split; [reflexivity |]. split; [now rewrite lookup_alter_eq, Hs3, !lookup_alter_eq, entered_session |].
  cbn. destruct (sessions w !! sid); repeat split; reflexivity.
Qed.

Lemma X_booking_reply_clears_offer_witness :
  exists r w' c s',
    process_message offline_env call_message "s1" late_world = (Ret r, w')
    /\ created w' = (created late_world ++ [c])%list
    /\ sessions w' !! "s1" = Some s'
    /\ booking_confirmed s' = true
    /\ available_slots s' = []
    /\ r_available_slots r = []
    /\ r_extracted_info r = extracted_info offered_session.
Proof.
  destruct (process_message offline_env call_message "s1" late_world) as [[r | e] w'] eqn:Hrun;
    [| vm_compute in Hrun; discriminate].
  assert (Hne : created w' <> created late_world).
  { vm_compute in Hrun. inversion Hrun. discriminate. }
  destruct (X_booking_reply_clears_offer offline_env call_message "s1" late_world w' r
              Hrun Hne)
    as (c & s' & Hc & _ & _ & Hs' & Hconf & Hoffer & Hinfo & Hslots & Hrinfo).
  exists r, w', c, s'. split; [reflexivity |]. split; [exact Hc |].
  split; [exact Hs' |]. split; [exact Hconf |]. split; [exact Hoffer |].
  split; [exact Hslots |]. rewrite Hrinfo. exact Hinfo.
Defined.

End BookedReplyExtras.

(** ** The numbered offer *)

Module OfferExtras.
Import PyStr PyStrFacts DateTime Json Spec Behaviour Re.
Import GoogleCalendarService CalendarBookingAgent Examples.
Import ServiceFacts AgentFacts FailureFacts ProcessFacts SelectionFacts.

Lemma numbered_cons (k : Z) (slot : Slot) (rest : list Slot) :
  numbered k (slot :: rest)
  = numbered_line k slot +:+ numbered (k + 1) rest.
Proof. unfold numbered_line. cbn [numbered]. now rewrite !append_assoc. Qed.

Lemma numbered_lists (slots : list Slot) :
  forall (k : Z) (i : nat) (slot : Slot),
    slots !! i = Some slot ->
    contains (numbered_line (k + Z.of_nat i) slot) (numbered k slots) = true.
Proof.
  induction slots as [| s0 rest IH]; intros k i slot Hi; [discriminate |].
  rewrite numbered_cons. destruct i as [| i].
  - injection Hi as ->. rewrite Z.add_0_r. apply contains_here.
  - apply contains_skip.
    replace (k + Z.of_nat (S i)) with (k + 1 + Z.of_nat i) by lia.
    now apply IH.
Qed.

Lemma pick_by_number (slots : list Slot) (i : nat) :
  try_except
    (if (0 <=? Z.of_nat i + 1 - 1) && (Z.of_nat i + 1 - 1 <? Z.of_nat (length slots)) then
       match slots !! Z.to_nat (Z.of_nat i + 1 - 1) with
       | Some selected_slot =>
           Ret ("Perfect! You've selected " +:+ display selected_slot
                +:+ ". I'll book this time slot for you. The meeting has been scheduled!")
       | None => Raise IndexError
       end
     else Ret select_prompt)
    (fun _ => Ret select_prompt)
  = Ret (match slots !! i with
         | Some slot => selection_reply slot
         | None => select_prompt
         end).
Proof.
  replace (Z.of_nat i + 1 - 1) with (Z.of_nat i) by lia.
  rewrite Nat2Z.id.
  replace (0 <=? Z.of_nat i) with true by (symmetry; apply Z.leb_le; lia).
  cbn [andb].
  destruct (slots !! i) as [slot |] eqn:Hi.
  - apply lookup_lt_Some in Hi.
    replace (Z.of_nat i <? Z.of_nat (length slots)) with true
      by (symmetry; apply Z.ltb_lt; lia).
    reflexivity.
  - apply lookup_ge_None in Hi.
    replace (Z.of_nat i <? Z.of_nat (length slots)) with false
      by (symmetry; apply Z.ltb_ge; lia).
    reflexivity.
Qed.

Lemma digit_selects (env : Env) (s : Session) (i : nat) :
  (i < 3)%nat -> available_slots s <> [] ->
  _handle_conversation env (str_of_Z (Z.of_nat i + 1)) s
  = Ret (match available_slots s !! i with
         | Some slot => selection_reply slot
         | None => select_prompt
         end).
Proof.
  intros Hi Hne. unfold _handle_conversation.
  destruct (available_slots s) as [| s0 l] eqn:Hslots; [contradiction |].
  cbn [length Nat.eqb negb andb].
  destruct i as [| [| [| i]]]; [| | | lia].
  - replace (str_of_Z (Z.of_nat 0 + 1)) with "1" by (vm_compute; reflexivity).
    replace (bool_decide (is_Some (search slot_test_pattern "1"))) with true
      by (vm_compute; reflexivity).
    replace (search slot_number_pattern "1") with (Some (RMatch "1" [(1%nat, "1")]))
      by (vm_compute; reflexivity).
    exact (pick_by_number (s0 :: l) 0).
  - replace (str_of_Z (Z.of_nat 1 + 1)) with "2" by (vm_compute; reflexivity).
    replace (bool_decide (is_Some (search slot_test_pattern "2"))) with true
      by (vm_compute; reflexivity).
    replace (search slot_number_pattern "2") with (Some (RMatch "2" [(1%nat, "2")]))
      by (vm_compute; reflexivity).
    exact (pick_by_number (s0 :: l) 1).
  - replace (str_of_Z (Z.of_nat 2 + 1)) with "3" by (vm_compute; reflexivity).
    replace (bool_decide (is_Some (search slot_test_pattern "3"))) with true
      by (vm_compute; reflexivity).
    replace (search slot_number_pattern "3") with (Some (RMatch "3" [(1%nat, "3")]))
      by (vm_compute; reflexivity).
    exact (pick_by_number (s0 :: l) 2).
Qed.

(** X16. The number shown beside a slot is the number that chooses it:
    the offer texts of [_suggest_slots] and of the availability answer
    list the slot at position [i] under the number [i + 1], and
    [_handle_conversation] answers that number with the selection of
    this very slot. Against a non-empty offer, a number from 1 to 3 that
    exceeds the offer gets the request to select 1, 2 or 3. *)
Theorem X_number_shown_is_number_chosen (env : Env) (s : Session) (info : dict)
    (day : scalar) (i : nat) (slot : Slot) :
  available_slots s !! i = Some slot ->
  (i < 3)%nat ->
  contains (numbered_line (Z.of_nat i + 1) slot)
    (_suggest_slots (available_slots s) info) = true
  /\ contains (numbered_line (Z.of_nat i + 1) slot)
       (availability_text day (available_slots s)) = true
  /\ _handle_conversation env (str_of_Z (Z.of_nat i + 1)) s = Ret (selection_reply slot)
  /\ forall j, (length (available_slots s) <= j < 3)%nat ->
       _handle_conversation env (str_of_Z (Z.of_nat j + 1)) s = Ret select_prompt.
Proof.
  intros Hi Hlt.
  assert (Hne : available_slots s <> []).
  { intros Hnil. rewrite Hnil in Hi. discriminate. }
  pose proof (numbered_lists (available_slots s) 1 i slot Hi) as Hline.
  rewrite Z.add_comm in Hline.
  split; [| split; [| split]].
  - unfold _suggest_slots. destruct (available_slots s) as [| s0 l]; [contradiction |].
    do 5 apply contains_skip. now apply contains_app_l.
  - unfold availability_text. destruct (available_slots s) as [| s0 l]; [contradiction |].
    do 8 apply contains_skip. now apply contains_app_l.
  - rewrite (digit_selects env s i Hlt Hne), Hi. reflexivity.
  - intros j [Hge Hj]. rewrite (digit_selects env s j Hj Hne).
    now rewrite (proj2 (lookup_ge_None _ _) Hge).
Qed.

Lemma X_number_shown_is_number_chosen_witness :
  contains (numbered_line 1 morning_slot)
    (_suggest_slots (available_slots offered_session) (extracted_info offered_session)) = true
  /\ contains (numbered_line 1 morning_slot)
       (availability_text (JStr "today") (available_slots offered_session)) = true
  /\ _handle_conversation offline_env "1" offered_session = Ret (selection_reply morning_slot)
  /\ forall j, (length (available_slots offered_session) <= j < 3)%nat ->
       _handle_conversation offline_env (str_of_Z (Z.of_nat j + 1)) offered_session
       = Ret select_prompt.
Proof.
  apply (X_number_shown_is_number_chosen offline_env offered_session
           (extracted_info offered_session) (JStr "today") 0 morning_slot);
    [reflexivity | lia].
Defined.

End OfferExtras.

(** ** Decimal digits *)

Module DigitFacts.
Import PyStr PyStrFacts DateTime Behaviour.

Lemma digit_char_spec (d : Z) :
  0 <= d < 10 ->
  is_digit (digit_char d) = true
  /\ Z.of_nat (nat_of_ascii (digit_char d) - 48) = d
  /\ Ascii.eqb (digit_char d) "Z" = false.
Proof.
  intros Hd. unfold digit_char.
  assert (Hcases : d = 0 \/ d = 1 \/ d = 2 \/ d = 3 \/ d = 4 \/ d = 5 \/ d = 6
                   \/ d = 7 \/ d = 8 \/ d = 9) by lia.
  repeat (destruct Hcases as [-> | Hcases]); try subst d; repeat split; reflexivity.
Qed.

Lemma length_app (a b : string) :
  String.length (a +:+ b) = (String.length a + String.length b)%nat.
Proof. induction a as [| c a IH]; push_append; simpl; [reflexivity | now rewrite IH]. Qed.

Lemma length_dec (k : nat) : forall n, String.length (dec k n) = k.
Proof.
  induction k as [| k IH]; intros n; [reflexivity |].
  cbn [dec]. rewrite length_app, IH. simpl. lia.
Qed.

Lemma has_char_app (c : ascii) (a b : string) :
  has_char c (a +:+ b) = has_char c a || has_char c b.
Proof.
  induction a as [| x a IH]; push_append; simpl; [reflexivity |].
  now rewrite IH, orb_assoc.
Qed.

Lemma dec_no_Z (k : nat) : forall n, has_char "Z" (dec k n) = false.
Proof.
  induction k as [| k IH]; intros n; [reflexivity |].
  cbn [dec]. rewrite has_char_app, IH. cbn [has_char orb].
  destruct (digit_char_spec (n mod 10)) as (_ & _ & ->); [| reflexivity].
  apply Z.mod_pos_bound. lia.
Qed.

(** A number below [10 ^ k] written on one more digit begins with a zero. *)
Lemma dec_leading_zero (k : nat) :
  forall n, 0 <= n < 10 ^ Z.of_nat k -> dec (S k) n = "0" +:+ dec k n.
Proof.
  induction k as [| k IH]; intros n Hn.
  - assert (n = 0) by (simpl in Hn; lia). subst n. reflexivity.
  - change (dec (S (S k)) n) with (dec (S k) (n / 10) +:+ String (digit_char (n mod 10)) "").
    rewrite IH.
    + push_append. reflexivity.
    + rewrite Nat2Z.inj_succ, Z.pow_succ_r in Hn by lia.
      split; [apply Z.div_pos; lia |]. apply Z.div_lt_upper_bound; lia.
Qed.

Lemma zeros_dec (j k : nat) (n : Z) :
  0 <= n < 10 ^ Z.of_nat k -> zeros j +:+ dec k n = dec (j + k) n.
Proof.
  intros Hn. induction j as [| j IH]; [reflexivity |].
  cbn [zeros]. rewrite append_assoc, IH. cbn [Nat.add].
  symmetry. apply dec_leading_zero.
  split; [lia |]. eapply Z.lt_le_trans; [apply Hn |].
  apply Z.pow_le_mono_r; lia.
Qed.

Lemma digits_of_S (fuel : nat) (n : Z) (acc : string) :
  digits_of (S fuel) n acc
  = if n <? 10 then String (digit_char (n mod 10)) acc
    else digits_of fuel (n / 10) (String (digit_char (n mod 10)) acc).
Proof. reflexivity. Qed.

(** With fuel for its binary length, [digits_of] writes the decimal
    digits of [n], as many as [n] needs. *)
Lemma digits_of_dec (fuel : nat) :
  forall n acc,
    0 <= n < 2 ^ Z.of_nat (S fuel) ->
    exists k, (1 <= k)%nat /\ n < 10 ^ Z.of_nat k
              /\ (k = 1%nat \/ 10 ^ Z.of_nat (k - 1) <= n)
              /\ digits_of (S fuel) n acc = dec k n +:+ acc.
Proof.
  induction fuel as [| fuel IH]; intros n acc Hn.
  - exists 1%nat. change (2 ^ Z.of_nat 1) with 2 in Hn.
    rewrite digits_of_S. replace (n <? 10) with true by (symmetry; apply Z.ltb_lt; lia).
    split; [lia |]. split; [change (10 ^ Z.of_nat 1) with 10; lia |].
    split; [now left |]. reflexivity.
  - rewrite digits_of_S. destruct (n <? 10) eqn:Hsmall.
    + apply Z.ltb_lt in Hsmall. exists 1%nat.
      split; [lia |]. split; [change (10 ^ Z.of_nat 1) with 10; lia |].
      split; [now left |]. reflexivity.
    + apply Z.ltb_ge in Hsmall.
      assert (Hdiv : 0 <= n / 10 < 2 ^ Z.of_nat (S fuel)).
      { split; [apply Z.div_pos; lia |].
        apply Z.div_lt_upper_bound; [lia |].
        rewrite (Nat2Z.inj_succ (S fuel)), Z.pow_succ_r in Hn by lia. lia. }
      destruct (IH (n / 10) (String (digit_char (n mod 10)) acc) Hdiv)
        as (k & Hk & Hlt & Hmin & Heq).
      exists (S k). split; [lia |].
      pose proof (Z.div_mod n 10 ltac:(lia)) as Hdm.
      pose proof (Z.mod_pos_bound n 10 ltac:(lia)) as Hmod.
      split.
      { rewrite Nat2Z.inj_succ, Z.pow_succ_r by lia. lia. }
      split.
      { right. replace (S k - 1)%nat with (S (k - 1)) by lia.
        rewrite Nat2Z.inj_succ, Z.pow_succ_r by lia.
        destruct Hmin as [-> | Hmin]; [simpl; lia | lia]. }
      rewrite Heq. cbn [dec]. rewrite append_assoc. reflexivity.
Qed.

Lemma str_of_Z_dec (n : Z) :
  0 <= n ->
  exists k, (1 <= k)%nat /\ n < 10 ^ Z.of_nat k
            /\ (k = 1%nat \/ 10 ^ Z.of_nat (k - 1) <= n)
            /\ str_of_Z n = dec k n.
Proof.
  intros Hn. unfold str_of_Z.
  replace (n <? 0) with false by (symmetry; apply Z.ltb_ge; lia).
  destruct (digits_of_dec (Z.to_nat (Z.log2 n)) n "") as (k & H1 & H2 & H3 & H4).
  { split; [lia |]. rewrite Nat2Z.inj_succ, Z2Nat.id by apply Z.log2_nonneg.
    destruct (Z.eq_dec n 0) as [-> | Hpos]; [reflexivity |].
    apply Z.log2_spec. lia. }
  exists k. rewrite H4, append_nil_r. auto.
Qed.

(** [f"{n:0wd}"] of a number that fits writes exactly its [w] digits. *)
Lemma pad_dec (w : nat) (n : Z) :
  (1 <= w)%nat -> 0 <= n < 10 ^ Z.of_nat w -> pad w n = dec w n.
Proof.
  intros Hw [Hn Hlt]. unfold pad.
  destruct (str_of_Z_dec n Hn) as (k & Hk & Hklt & Hmin & ->).
  rewrite length_dec.
  assert (Hkw : (k <= w)%nat).
  { destruct Hmin as [-> | Hmin]; [lia |].
    destruct (Nat.le_gt_cases k w) as [Hle | Hgt]; [exact Hle | exfalso].
    assert (10 ^ Z.of_nat w <= 10 ^ Z.of_nat (k - 1)) by (apply Z.pow_le_mono_r; lia).
    lia. }
  rewrite zeros_dec by lia. f_equal. lia.
Qed.

Lemma read_digits_snoc (k : nat) :
  forall s acc,
    read_digits (S k) s acc
    = match read_digits k s acc with
      | Some (a, s') => read_digits 1 s' a
      | None => None
      end.
Proof.
  induction k as [| k IH]; intros s acc; [reflexivity |].
  change (read_digits (S (S k)) s acc)
    with (match s with
          | String c s' =>
              if is_digit c
              then read_digits (S k) s' (10 * acc + Z.of_nat (nat_of_ascii c - 48))
              else None
          | EmptyString => None
          end).
  destruct s as [| c s']; [reflexivity |].
  destruct (is_digit c) eqn:Hc.
  - rewrite IH. cbn [read_digits]. rewrite Hc. reflexivity.
  - cbn [read_digits]. rewrite Hc. reflexivity.
Qed.

Lemma read_digits_dec (k : nat) :
  forall n rest acc,
    0 <= n < 10 ^ Z.of_nat k ->
    read_digits k (dec k n +:+ rest) acc = Some (acc * 10 ^ Z.of_nat k + n, rest).
Proof.
  induction k as [| k IH]; intros n rest acc Hn.
  - assert (n = 0) by (simpl in Hn; lia). subst n. cbn [dec read_digits].
    push_append. f_equal. f_equal. simpl. lia.
  - rewrite read_digits_snoc. cbn [dec]. rewrite append_assoc.
    rewrite Nat2Z.inj_succ, Z.pow_succ_r in Hn |- * by lia.
    pose proof (Z.div_mod n 10 ltac:(lia)) as Hdm.
    pose proof (Z.mod_pos_bound n 10 ltac:(lia)) as Hmod.
    rewrite IH.
    2:{ split; [apply Z.div_pos; lia |]. apply Z.div_lt_upper_bound; lia. }
    push_append. cbn [read_digits].
    destruct (digit_char_spec (n mod 10) Hmod) as (-> & -> & _).
    f_equal. f_equal. lia.
Qed.

Lemma read_pad (w : nat) (n : Z) (rest : string) :
  (1 <= w)%nat -> 0 <= n < 10 ^ Z.of_nat w ->
  read_digits w (pad w n +:+ rest) 0 = Some (n, rest).
Proof.
  intros Hw Hn. rewrite pad_dec, read_digits_dec by assumption. reflexivity.
Qed.

Lemma pad_no_Z (w : nat) (n : Z) :
  (1 <= w)%nat -> 0 <= n < 10 ^ Z.of_nat w -> has_char "Z" (pad w n) = false.
Proof. intros Hw Hn. rewrite pad_dec by assumption. apply dec_no_Z. Qed.

End DigitFacts.

(** ** The calendar *)

Module CalendarFacts.
Import PyStr PyStrFacts DateTime Behaviour.

Lemma dates_ok_spec (fuel : nat) :
  forall r0, dates_ok fuel r0 = true ->
    forall r, r0 <= r < r0 + Z.of_nat fuel -> date_ok r = true.
Proof.
  induction fuel as [| fuel IH]; intros r0 Hall r Hr; [lia |].
  cbn [dates_ok] in Hall. destruct (date_ok r0) eqn:H0; [| discriminate].
  destruct (Z.eq_dec r r0) as [-> | Hne]; [exact H0 |].
  apply (IH (r0 + 1) Hall). lia.
Qed.

Lemma cycle_dates_ok : dates_ok (Z.to_nat 146097) 0 = true.
Proof. vm_cast_no_check (@eq_refl bool true). Qed.

Lemma date_ok_cycle (r : Z) : 0 <= r < 146097 -> date_ok r = true.
Proof.
  intros Hr. apply (dates_ok_spec _ 0 cycle_dates_ok). rewrite Z2Nat.id; lia.
Qed.

Lemma is_leap_cycle (y q : Z) : is_leap (y + 400 * q) = is_leap y.
Proof.
  unfold is_leap.
  replace (y + 400 * q) with (y + (100 * q) * 4) at 1 by lia.
  replace (y + 400 * q) with (y + (4 * q) * 100) at 1 by lia.
  replace (y + 400 * q) with (y + q * 400) by lia.
  now rewrite !Z.mod_add by lia.
Qed.

Lemma days_in_month_cycle (y q m : Z) : days_in_month (y + 400 * q) m = days_in_month y m.
Proof. unfold days_in_month. now rewrite is_leap_cycle. Qed.

Lemma ymd2ord_cycle (y q m d : Z) :
  ymd2ord (y + 400 * q) m d = ymd2ord y m d + 146097 * q.
Proof.
  unfold ymd2ord, days_before_month, days_before_year. rewrite is_leap_cycle.
  cbv zeta.
  replace ((y + 400 * q - 1) / 4) with ((y - 1) / 4 + 100 * q).
  2:{ replace (y + 400 * q - 1) with (y - 1 + (100 * q) * 4) by lia.
      now rewrite Z.div_add by lia. }
  replace ((y + 400 * q - 1) / 100) with ((y - 1) / 100 + 4 * q).
  2:{ replace (y + 400 * q - 1) with (y - 1 + (4 * q) * 100) by lia.
      now rewrite Z.div_add by lia. }
  replace ((y + 400 * q - 1) / 400) with ((y - 1) / 400 + q).
  2:{ replace (y + 400 * q - 1) with (y - 1 + q * 400) by lia.
      now rewrite Z.div_add by lia. }
  lia.
Qed.

Lemma ord2ymd_cycle (q r : Z) :
  0 <= r < 146097 ->
  ord2ymd (1 + (146097 * q + r))
  = let '(y, m, d) := ord2ymd (1 + r) in (y + 400 * q, m, d).
Proof.
  intros Hr. unfold ord2ymd. cbv zeta.
  replace (1 + (146097 * q + r) - 1) with (r + q * 146097) by lia.
  replace (1 + r - 1) with r by lia.
  rewrite Z.div_add, Z.mod_add by lia.
  rewrite (Z.div_small r 146097), (Z.mod_small r 146097) by lia.
  generalize (r / 36524) as n100. generalize (r mod 36524) as a. intros a n100.
  generalize (a / 1461) as n4. generalize (a mod 1461) as b. intros b n4.
  generalize (b / 365) as n1. generalize (b mod 365) as c. intros c n1.
  destruct ((n1 =? 4) || (n100 =? 4)); [f_equal; f_equal; lia |].
  match goal with |- context [if ?c then _ else _] => destruct c end;
    f_equal; f_equal; lia.
Qed.

(** [_ord2ymd] gives a date of the calendar and [_ymd2ord] leads back,
    for every day from 1 January 1 to 31 December 9999. *)
Lemma ord2ymd_valid (ord : Z) :
  1 <= ord <= 3652059 ->
  exists y m d,
    ord2ymd ord = (y, m, d)
    /\ 1 <= y <= 9999 /\ 1 <= m <= 12 /\ 1 <= d <= days_in_month y m
    /\ ymd2ord y m d = ord.
Proof.
  intros Hord.
  pose proof (Z.div_mod (ord - 1) 146097 ltac:(lia)) as Hdm.
  pose proof (Z.mod_pos_bound (ord - 1) 146097 ltac:(lia)) as Hmod.
  set (q := (ord - 1) / 146097) in *. set (r := (ord - 1) mod 146097) in *.
  assert (Hq : 0 <= q <= 24).
  { split; [apply Z.div_pos; lia |].
    enough (q < 25) by lia. apply Z.div_lt_upper_bound; lia. }
  replace ord with (1 + (146097 * q + r)) by lia.
  rewrite (ord2ymd_cycle q r Hmod).
  pose proof (date_ok_cycle r Hmod) as Hok. unfold date_ok in Hok.
  destruct (ord2ymd (1 + r)) as [[y m] d].
  rewrite !andb_true_iff, orb_true_iff in Hok.
  destruct Hok as (((((((H1 & H2) & H3) & H4) & H5) & H6) & H7) & H8).
  apply Z.leb_le in H1, H2, H3, H4, H5, H6. apply Z.eqb_eq in H7.
  exists (y + 400 * q), m, d. split; [reflexivity |].
  rewrite days_in_month_cycle, ymd2ord_cycle, H7.
  assert (Hy : y + 400 * q <= 9999).
  { destruct H8 as [H8 | H8]; [apply Z.ltb_lt in H8 | apply Z.leb_le in H8]; lia. }
  repeat split; lia.
Qed.

End CalendarFacts.

(** ** ISO texts *)

Module IsoFacts.
Import PyStr PyStrFacts DateTime Behaviour DigitFacts CalendarFacts.

(** The fields of a datetime are in their ranges and make it up. *)
Lemma clock_fields (t : datetime) :
  0 <= hour t < 24 /\ 0 <= minute t < 60 /\ 0 <= second t < 60
  /\ 0 <= microsecond t < 1000000
  /\ t = toordinal t * us_day + hour t * us_hour + minute t * us_minute
         + second t * us_second + microsecond t.
Proof.
  unfold hour, minute, second, microsecond, toordinal, time_of_day, datetime in *.
  change us_day with 86400000000. change us_hour with 3600000000.
  change us_minute with 60000000. change us_second with 1000000.
  pose proof (Z.div_mod t 86400000000 ltac:(lia)) as H0.
  pose proof (Z.mod_pos_bound t 86400000000 ltac:(lia)) as B0.
  set (tod := t mod 86400000000) in *.
  pose proof (Z.div_mod tod 3600000000 ltac:(lia)) as H1.
  pose proof (Z.mod_pos_bound tod 3600000000 ltac:(lia)) as B1.
  pose proof (Z.div_mod (tod mod 3600000000) 60000000 ltac:(lia)) as H2.
  pose proof (Z.mod_pos_bound (tod mod 3600000000) 60000000 ltac:(lia)) as B2.
  pose proof (Z.div_mod tod 60000000 ltac:(lia)) as H3.
  pose proof (Z.mod_pos_bound tod 60000000 ltac:(lia)) as B3.
  pose proof (Z.div_mod (tod mod 60000000) 1000000 ltac:(lia)) as H4.
  pose proof (Z.mod_pos_bound (tod mod 60000000) 1000000 ltac:(lia)) as B4.
  pose proof (Z.div_mod t 1000000 ltac:(lia)) as H5.
  pose proof (Z.mod_pos_bound t 1000000 ltac:(lia)) as B5.
  generalize dependent (t / 86400000000). intros q0 H0.
  generalize dependent (tod / 3600000000). intros h H1.
  generalize dependent (tod mod 3600000000 / 60000000). intros mi H2.
  generalize dependent (tod mod 3600000000 mod 60000000). intros r2 B2 H2.
  generalize dependent (tod mod 3600000000). intros r1 B1 H1 H2.
  generalize dependent (tod / 60000000). intros q3 H3.
  generalize dependent (tod mod 60000000 / 1000000). intros s H4.
  generalize dependent (tod mod 60000000 mod 1000000). intros r4 B4 H4.
  generalize dependent (tod mod 60000000). intros r3 B3 H3 H4.
  generalize dependent (t / 1000000). intros q5 H5.
  generalize dependent (t mod 1000000). intros r5 B5 H5.
  clearbody tod. lia.
Qed.

Lemma ordinal_in_range (t : datetime) :
  us_day <= t < 3652060 * us_day -> 1 <= toordinal t <= 3652059.
Proof.
  unfold toordinal, datetime. change us_day with 86400000000. intros Ht. split.
  - apply Z.div_le_lower_bound; lia.
  - enough (t / 86400000000 < 3652060) by lia. apply Z.div_lt_upper_bound; lia.
Qed.

Lemma expect_here (c : ascii) (rest : string) :
  expect c (String c "" +:+ rest) = Some rest.
Proof. push_append. cbn [expect]. now rewrite Ascii.eqb_refl. Qed.

Lemma replace_Z_id (s : string) : has_char "Z" s = false -> replace_Z s = s.
Proof.
  induction s as [| c s IH]; [reflexivity |].
  cbn [has_char replace_Z]. intros H. apply orb_false_iff in H as [Hc Hs].
  rewrite Hc, IH by exact Hs. reflexivity.
Qed.

Lemma parse_iso_isoformat (t : datetime) :
  us_day <= t < 3652060 * us_day -> parse_iso (isoformat t) = Some t.
Proof.
  intros Ht.
  pose proof (ordinal_in_range t Ht) as Hord.
  destruct (ord2ymd_valid _ Hord) as (y & m & d & Hymd & Hy & Hm & Hd & Hback).
  destruct (clock_fields t) as (Hh & Hmi & Hs & Hus & Hsum).
  assert (Hdim : days_in_month y m <= 31).
  { unfold days_in_month. repeat match goal with |- context [if ?c then _ else _] =>
      destruct c end; lia. }
  assert (Hchecks :
    (1 <=? y) && (1 <=? m) && (m <=? 12) && (1 <=? d) && (d <=? days_in_month y m)
    && (hour t <? 24) && (minute t <? 60) && (second t <? 60) = true).
  { rewrite (proj2 (Z.leb_le 1 y)), (proj2 (Z.leb_le 1 m)), (proj2 (Z.leb_le m 12)),
      (proj2 (Z.leb_le 1 d)), (proj2 (Z.leb_le d _)), (proj2 (Z.ltb_lt (hour t) 24)),
      (proj2 (Z.ltb_lt (minute t) 60)), (proj2 (Z.ltb_lt (second t) 60)) by lia.
    reflexivity. }
  unfold isoformat, parse_iso. rewrite Hymd.
  do 5 (rewrite read_pad by (simpl; lia); cbn [mbind option_bind];
        rewrite expect_here; cbn [mbind option_bind]).
  rewrite read_pad by (simpl; lia). cbn [mbind option_bind].
  destruct (microsecond t =? 0) eqn:Hzero.
  - apply Z.eqb_eq in Hzero. cbn [mbind option_bind String.length Nat.eqb].
    rewrite Hchecks. cbn [andb]. rewrite Hback. f_equal.
    unfold datetime in *. lia.
  - push_append. rewrite <- (append_nil_r (pad 6 (microsecond t))).
    rewrite read_pad by (simpl; lia). cbn [mbind option_bind String.length Nat.eqb].
    rewrite Hchecks. cbn [andb]. rewrite Hback. f_equal.
    unfold datetime in *. lia.
Qed.

Lemma isoformat_no_Z (t : datetime) :
  us_day <= t < 3652060 * us_day -> has_char "Z" (isoformat t) = false.
Proof.
  intros Ht.
  pose proof (ordinal_in_range t Ht) as Hord.
  destruct (ord2ymd_valid _ Hord) as (y & m & d & Hymd & Hy & Hm & Hd & Hback).
  destruct (clock_fields t) as (Hh & Hmi & Hs & Hus & Hsum).
  assert (Hdim : days_in_month y m <= 31).
  { unfold days_in_month. repeat match goal with |- context [if ?c then _ else _] =>
      destruct c end; lia. }
  unfold isoformat. rewrite Hymd.
  rewrite !has_char_app, !pad_no_Z by (simpl; lia).
  destruct (microsecond t =? 0); [reflexivity |].
  rewrite has_char_app, pad_no_Z by (simpl; lia). reflexivity.
Qed.

(** What [isoformat] writes, [fromisoformat] reads back, for every
    datetime of the years 1 to 9999. *)
Lemma fromisoformat_isoformat (t : datetime) :
  us_day <= t < 3652060 * us_day ->
  fromisoformat (replace_Z (isoformat t)) = Ret t.
Proof.
  intros Ht. rewrite replace_Z_id by now apply isoformat_no_Z.
  unfold fromisoformat. now rewrite parse_iso_isoformat.
Qed.

End IsoFacts.

(** ** Offered slots *)

Module OfferedSlotExtras.
Import PyStr PyStrFacts DateTime Json Spec Behaviour.
Import GoogleCalendarService CalendarBookingAgent Examples.
Import ServiceFacts AgentFacts BookingExtras ServiceExtras RealCalendarExtras.
Import DigitFacts CalendarFacts IsoFacts.

Section Facts.
Variable env : Env.

Lemma mock_slots_within (date : datetime) (w w' : World) (slots : list CalSlot) :
  _get_mock_available_slots env date 60 default_working_hours w = (Ret slots, w') ->
  Forall (within (at_hour date 9) (at_hour date 17)) slots.
Proof.
  unfold _get_mock_available_slots, default_working_hours. intros H.
  apply bind_inv in H as [(t1 & w1 & H1 & H) | (e & H1 & ?)]; [| discriminate].
  apply lift_inv in H1 as [_ ->].
  apply bind_inv in H as [(t2 & w1 & H1 & H) | (e & H1 & ?)]; [| discriminate].
  apply lift_inv in H1 as [_ ->].
  apply bind_inv in H as [(res & w1 & H1 & H) | (e & H1 & ?)]; [| discriminate].
  apply ret_inv in H as [H _]. inversion H; subst slots. clear H.
  assert (Hhours : StronglySorted Z.lt [9; 11; 14; 16]).
  { repeat (first [apply SSorted_nil | apply SSorted_cons]);
      repeat (first [apply List.Forall_nil | apply List.Forall_cons; [lia |]]). }
  destruct (mock_loop_shape env date 60 17 [9; 11; 14; 16] [9; 11; 14; 16]
              Hhours (fun h Hh => Hh) [] w w1 res H1
              (SSorted_nil _) (List.Forall_nil _) (List.Forall_nil _))
    as [_ Hshape].
  apply Forall_firstn. eapply Forall_impl; [exact Hshape |].
  intros s (hour & Hin & Hlt & ->).
  unfold within, mock_slot, at_hour, add_minutes. cbn [slot_start slot_end].
  unfold us_hour, us_minute, us_second, datetime in *.
  cbn [In] in Hin. lia.
Qed.

Lemma real_slots_within (date : datetime) (w w' : World) (slots : list CalSlot) :
  _get_real_available_slots env date 60 default_working_hours w = (Ret slots, w') ->
  Forall (within (at_hour date 9) (at_hour date 17)) slots.
Proof.
  unfold _get_real_available_slots, default_working_hours. intros H.
  apply bind_inv in H as [(day_start & w1 & H1 & H) | (e & H1 & ?)]; [| discriminate].
  apply lift_inv in H1 as [H1 ->]. symmetry in H1.
  apply replace_at_hour_inv in H1 as [_ ->].
  apply bind_inv in H as [(day_end & w1 & H1 & H) | (e & H1 & ?)]; [| discriminate].
  apply lift_inv in H1 as [H1 ->]. symmetry in H1.
  apply replace_at_hour_inv in H1 as [_ ->].
  apply bind_inv in H as [(events & w1 & H1 & H) | (e & H1 & ?)]; [| discriminate].
  apply lift_inv in H1 as [_ ->].
  apply bind_inv in H as [(res & w1 & H1' & H) | (e & H1' & ?)]; [| discriminate].
  apply ret_inv in H as [H _]. inversion H; subst slots. clear H.
  destruct (real_loop_shape env events 60 (at_hour date 9) (at_hour date 17)
              _ _ _ _ _ _ H1') as [_ Hshape].
  - exists 0. split; [lia |]. unfold datetime in *. lia.
  - constructor.
  - constructor.
  - constructor.
  - apply Forall_firstn. eapply Forall_impl; [exact Hshape |].
    intros s ((k & Hk & Hstart) & Hend & Hday & _).
    unfold within. rewrite Hend in Hday |- *. unfold add_minutes in *.
    unfold us_minute, us_second, datetime in *. lia.
Qed.

(** In either mode, and when the mock takes over from a failing
    calendar, the slots for an hour's meeting lie in the working day. *)
Lemma get_available_slots_within (date : datetime) (w w' : World)
    (slots : list CalSlot) :
  get_available_slots env date 60 default_working_hours w = (Ret slots, w') ->
  Forall (within (at_hour date 9) (at_hour date 17)) slots.
Proof.
  unfold get_available_slots. destruct (mock_mode env).
  - apply mock_slots_within.
  - unfold try_catch.
    destruct (_get_real_available_slots env date 60 default_working_hours w)
      as [[real | e] w1] eqn:Hreal; intros H.
    + inversion H; subst. exact (real_slots_within _ _ _ _ Hreal).
    + exact (mock_slots_within _ _ _ _ H).
Qed.

(** What [_check_availability] offers: the slots of the calendar for a
    day at most a week after the day of the clock, within its working
    hours, each written with [isoformat]. *)
Lemma check_availability_offers (info : dict) (w w' : World) (slots : list Slot) :
  _check_availability env info w = (Ret slots, w') ->
  exists k cal,
    0 <= k <= 7
    /\ slots = map offered cal
    /\ Forall (within (at_hour (add_days (clock env (tick w)) k) 9)
                      (at_hour (add_days (clock env (tick w)) k) 17)) cal.
Proof.
  unfold _check_availability. intros H.
  apply bind_inv in H as [(target & w1 & H1 & H) | (e & H1 & ?)]; [| discriminate].
  apply parse_date_inv in H1 as (k & Hk & -> & _).
  apply bind_inv in H as [(cal & w2 & H2 & H) | (e & H2 & ?)]; [| discriminate].
  apply get_available_slots_within in H2.
  apply ret_inv in H as [H _]. inversion H; subst slots.
  exists k, (firstn 3 cal). split; [exact Hk |]. split; [reflexivity |].
  now apply Forall_firstn.
Qed.

End Facts.

Lemma within_in_years (t : datetime) (k : Z) (s : CalSlot) :
  us_day <= t < 3652050 * us_day -> 0 <= k <= 7 ->
  within (at_hour (add_days t k) 9) (at_hour (add_days t k) 17) s ->
  in_years (slot_start s) /\ in_years (slot_end s).
Proof.
  intros Ht Hk (Hlo & Hmid & Hhi).
  unfold at_hour in *. rewrite toordinal_add_days in *.
  assert (Hord : 1 <= toordinal t < 3652050).
  { unfold toordinal, datetime in *. change us_day with 86400000000 in *. split.
    - apply Z.div_le_lower_bound; lia.
    - apply Z.div_lt_upper_bound; lia. }
  unfold in_years. change us_day with 86400000000 in *.
  change us_hour with 3600000000 in *. unfold datetime in *. lia.
Qed.

Lemma offered_reads_as (cs : CalSlot) :
  in_years (slot_start cs) -> in_years (slot_end cs) ->
  reads_as (offered cs) (slot_start cs) (slot_end cs).
Proof.
  intros Hs He. split; cbn [offered start_time end_time];
    now apply fromisoformat_isoformat.
Qed.

(** X17. What the agent writes into an offer, [confirm_booking] can read
    back: every slot [_check_availability] returns is an interval of the
    calendar, within the working hours 09:00 to 17:00 of a day at most a
    week after the day of the clock, whose two ISO texts
    [datetime.fromisoformat] reads as that same interval, and whose
    display is the clock time of its start. *)
Theorem X_offered_slots_read_back (env : Env) (info : dict) (w w' : World)
    (slots : list Slot) :
  clock_in_years env (tick w) ->
  _check_availability env info w = (Ret slots, w') ->
  exists k,
    0 <= k <= 7
    /\ Forall (fun slot => exists t1 t2,
                 reads_as slot t1 t2
                 /\ at_hour (add_days (clock env (tick w)) k) 9 <= t1
                 /\ t1 <= t2
                 /\ t2 <= at_hour (add_days (clock env (tick w)) k) 17
                 /\ display slot = strftime_clock t1
                 /\ start_time slot = isoformat t1
                 /\ end_time slot = isoformat t2) slots.
Proof.
  intros Hclock H.
  destruct (check_availability_offers env info w w' slots H) as (k & cal & Hk & -> & Hcal).
  exists k. split; [exact Hk |].
  apply Forall_map. eapply Forall_impl; [exact Hcal |].
  intros cs Hwithin. cbn beta.
  destruct (within_in_years _ k cs Hclock Hk Hwithin) as [Hs He].
  destruct Hwithin as (Hlo & Hmid & Hhi).
  exists (slot_start cs), (slot_end cs).
  split; [now apply offered_reads_as |]. repeat split; assumption.
Qed.

Lemma X_offered_slots_read_back_witness :
  exists slots w' k,
    _check_availability offline_env [("day", JStr "tomorrow")] empty_world = (Ret slots, w')
    /\ length slots = 3%nat
    /\ 0 <= k <= 7
    /\ Forall (fun slot => exists t1 t2,
                 reads_as slot t1 t2
                 /\ at_hour (add_days (clock offline_env 0) k) 9 <= t1
                 /\ t1 <= t2
                 /\ t2 <= at_hour (add_days (clock offline_env 0) k) 17
                 /\ display slot = strftime_clock t1
                 /\ start_time slot = isoformat t1
                 /\ end_time slot = isoformat t2) slots.
Proof.
  destruct (_check_availability offline_env [("day", JStr "tomorrow")] empty_world)
    as [[slots | e] w'] eqn:Hrun; [| vm_compute in Hrun; discriminate].
  assert (Hclock : clock_in_years offline_env (tick empty_world)).
  { unfold clock_in_years.
    split; [apply Z.leb_le | apply Z.ltb_lt]; vm_compute; reflexivity. }
  destruct (X_offered_slots_read_back offline_env _ _ _ _ Hclock Hrun) as (k & Hk & Hall).
  exists slots, w', k. split; [reflexivity |].
  split; [vm_compute in Hrun; inversion Hrun; reflexivity |].
  split; [exact Hk | exact Hall].
Defined.

End OfferedSlotExtras.

(** ** Offers in the store *)

Module OfferInvariantExtras.
Import PyStr PyStrFacts DateTime Json Spec Behaviour.
Import GoogleCalendarService CalendarBookingAgent Examples.
Import ServiceFacts AgentFacts FailureFacts ProcessFacts TotalityFacts.
Import ConfirmExtras OfferedSlotExtras.

(** A property of offers that holds of the empty offer and of every
    offer [_check_availability] returns holds of every offer of the
    store after a call, when it held before. *)
Section Kept.
Variable env : Env.
Variable P : list Slot -> Prop.
Hypothesis P_nil : P [].
Hypothesis P_checked :
  forall info w w' slots, _check_availability env info w = (Ret slots, w') -> P slots.

Lemma kept_same (w w' : World) :
  sessions w' = sessions w -> offers_satisfy P w -> offers_satisfy P w'.
Proof. intros Heq Hk sid s Hs. rewrite Heq in Hs. exact (Hk sid s Hs). Qed.

Lemma kept_alter (sid : string) (f : Session -> Session) (w w' : World) :
  (forall s, P (available_slots s) -> P (available_slots (f s))) ->
  sessions w' = alter f sid (sessions w) -> offers_satisfy P w -> offers_satisfy P w'.
Proof.
  intros Hf Heq Hk sid' s' Hs'. rewrite Heq in Hs'.
  destruct (decide (sid = sid')) as [<- | Hne].
  - rewrite lookup_alter_eq in Hs'.
    destruct (sessions w !! sid) as [s |] eqn:Hs; [| discriminate].
    cbn in Hs'. inversion Hs'; subst s'. apply Hf. exact (Hk sid s Hs).
  - rewrite lookup_alter_ne in Hs' by exact Hne. exact (Hk sid' s' Hs').
Qed.

Lemma kept_update (sid : string) (f : Session -> Session) (w w' : World) (r : exc unit) :
  (forall s, P (available_slots s) -> P (available_slots (f s))) ->
  update_session sid f w = (r, w') -> offers_satisfy P w -> offers_satisfy P w'.
Proof.
  intros Hf H. apply update_session_spec in H as (_ & _ & _ & Hs).
  exact (kept_alter sid f w w' Hf Hs).
Qed.

Lemma kept_entered (m sid : string) (w : World) :
  offers_satisfy P w -> offers_satisfy P (entered m sid w).
Proof.
  intros Hk sid' s' Hs'. destruct (decide (sid = sid')) as [<- | Hne].
  - rewrite entered_session in Hs'. inversion Hs'; subst s'.
    cbn [available_slots append_message].
    destruct (sessions w !! sid) as [s |] eqn:Hs; [exact (Hk sid s Hs) | exact P_nil].
  - unfold entered in Hs'. cbn [sessions set_sessions] in Hs'.
    rewrite lookup_alter_ne in Hs' by exact Hne.
    destruct (sessions w !! sid); [exact (Hk sid' s' Hs') |].
    rewrite lookup_insert_ne in Hs' by exact Hne. exact (Hk sid' s' Hs').
Qed.

Lemma kept_answered (response sid : string) (w : World) :
  offers_satisfy P w -> offers_satisfy P (answered response sid w).
Proof.
  apply (kept_alter sid (append_message (assistant_says response)));
    [intros s Hs; exact Hs | reflexivity].
Qed.

Lemma kept_book_branch (m sid : string) (w w' : World) (r : exc string) :
  book_branch env m sid w = (r, w') -> offers_satisfy P w -> offers_satisfy P w'.
Proof.
  unfold book_branch. intros H Hk.
  apply bind_inv in H as [(extracted & w1 & H1 & H) | (e & H1 & _)].
  2:{ apply lift_inv in H1 as [_ ->]. exact Hk. }
  apply lift_inv in H1 as [_ ->].
  apply bind_inv in H as [(info & w1 & H1 & H) | (e & H1 & _)].
  2:{ apply lift_inv in H1 as [_ ->]. exact Hk. }
  apply lift_inv in H1 as [_ ->].
  destruct (truthy _); [| apply ret_inv in H as [_ ->]; exact Hk].
  apply bind_inv in H as [(direct & w1 & H1 & H) | (e & H1 & _)].
  2:{ apply direct_book_spec in H1 as [Hs _]. exact (kept_same _ _ Hs Hk). }
  apply direct_book_spec in H1 as [Hs1 _].
  pose proof (kept_same _ _ Hs1 Hk) as Hk1.
  destruct (b_success direct).
  - apply bind_inv in H as [([] & w2 & H2 & H) | (e & H2 & _)].
    2:{ apply update_session_spec in H2 as (? & _). discriminate. }
    pose proof (kept_update sid (set_booking_confirmed true) _ _ _ (fun s Hs => Hs) H2 Hk1)
      as Hk2.
    apply bind_inv in H as [([] & w3 & H3 & H) | (e & H3 & _)].
    2:{ apply update_session_spec in H3 as (? & _). discriminate. }
    apply ret_inv in H as [_ ->].
    exact (kept_update sid (set_available_slots []) _ _ _ (fun s _ => P_nil) H3 Hk2).
  - apply bind_inv in H as [(slots & w2 & H2 & H) | (e & H2 & _)].
    2:{ apply check_availability_spec in H2 as [(Hs & _) _]. exact (kept_same _ _ Hs Hk1). }
    pose proof (P_checked _ _ _ _ H2) as Hslots.
    apply check_availability_spec in H2 as [(Hs2 & _) _].
    pose proof (kept_same _ _ Hs2 Hk1) as Hk2.
    apply bind_inv in H as [([] & w3 & H3 & H) | (e & H3 & _)].
    2:{ apply update_session_spec in H3 as (? & _). discriminate. }
    pose proof (kept_update sid (set_available_slots slots) _ _ _ (fun s _ => Hslots) H3 Hk2)
      as Hk3.
    apply bind_inv in H as [([] & w4 & H4 & H) | (e & H4 & _)].
    2:{ apply update_session_spec in H4 as (? & _). discriminate. }
    apply ret_inv in H as [_ ->].
    exact (kept_update sid (set_extracted_info info) _ _ _ (fun s Hs => Hs) H4 Hk3).
Qed.

Lemma kept_availability_branch (m sid : string) (w w' : World) (r : exc string) :
  availability_branch env m sid w = (r, w') -> offers_satisfy P w -> offers_satisfy P w'.
Proof.
  unfold availability_branch. intros H Hk.
  apply bind_inv in H as [(extracted & w1 & H1 & H) | (e & H1 & _)].
  2:{ apply lift_inv in H1 as [_ ->]. exact Hk. }
  apply lift_inv in H1 as [_ ->].
  apply bind_inv in H as [(info & w1 & H1 & H) | (e & H1 & _)].
  2:{ apply lift_inv in H1 as [_ ->]. exact Hk. }
  apply lift_inv in H1 as [_ ->].
  destruct (truthy _); [| apply ret_inv in H as [_ ->]; exact Hk].
  apply bind_inv in H as [(slots & w2 & H2 & H) | (e & H2 & _)].
  2:{ apply check_availability_spec in H2 as [(Hs & _) _]. exact (kept_same _ _ Hs Hk). }
  pose proof (P_checked _ _ _ _ H2) as Hslots.
  apply check_availability_spec in H2 as [(Hs2 & _) _].
  pose proof (kept_same _ _ Hs2 Hk) as Hk2.
  apply bind_inv in H as [([] & w3 & H3 & H) | (e & H3 & _)].
  2:{ apply update_session_spec in H3 as (? & _). discriminate. }
  pose proof (kept_update sid (set_available_slots slots) _ _ _ (fun s _ => Hslots) H3 Hk2)
      as Hk3.
  apply bind_inv in H as [([] & w4 & H4 & H) | (e & H4 & _)].
  2:{ apply update_session_spec in H4 as (? & _). discriminate. }
  apply ret_inv in H as [_ ->].
  exact (kept_update sid (set_extracted_info info) _ _ _ (fun s Hs => Hs) H4 Hk3).
Qed.

Lemma kept_branch_of (intent m sid : string) (w w' : World) (r : exc string) :
  branch_of env intent m sid w = (r, w') -> offers_satisfy P w -> offers_satisfy P w'.
Proof.
  unfold branch_of. destruct (contains "book_appointment" intent).
  - apply kept_book_branch.
  - destruct (contains "check_availability" intent).
    + apply kept_availability_branch.
    + intros H. apply conversation_branch_spec in H. now subst.
Qed.

Lemma kept_process_message (m sid : string) (w w' : World) (r : exc ChatResponse) :
  process_message env m sid w = (r, w') -> offers_satisfy P w -> offers_satisfy P w'.
Proof.
  rewrite process_message_unfold. intros H Hk.
  pose proof (kept_entered m sid w Hk) as Hentered.
  destruct (_understand_intent env m) as [intent | e].
  2:{ inversion H; subst. exact Hentered. }
  destruct (branch_of env intent m sid (entered m sid w)) as [[response | e] w3] eqn:Hbranch.
  - pose proof (kept_branch_of _ _ _ _ _ _ Hbranch Hentered) as H3.
    destruct (sessions (answered response sid w3) !! sid);
      inversion H; subst; now apply kept_answered.
  - inversion H; subst. exact (kept_branch_of _ _ _ _ _ _ Hbranch Hentered).
Qed.

Lemma kept_confirm_booking (sid : string) (slot_index : Z) (w w' : World)
    (r : exc BookingResult) :
  confirm_booking env sid slot_index w = (r, w') -> offers_satisfy P w -> offers_satisfy P w'.
Proof.
  intros H. destruct (confirm_booking_frame env sid slot_index w w' r H) as [_ [Hs | Hs]].
  - now apply kept_same.
  - exact (kept_alter sid (set_booking_confirmed true) w w' (fun s Hs => Hs) Hs).
Qed.

End Kept.

(** The reply of [process_message] carries the offer and the extracted
    information of the session as the call leaves it. *)
Lemma reply_shows_session (env : Env) (m sid : string) (w w' : World) (r : ChatResponse) :
  process_message env m sid w = (Ret r, w') ->
  exists s', sessions w' !! sid = Some s'
             /\ r_available_slots r = available_slots s'
             /\ r_extracted_info r = extracted_info s'.
Proof.
  rewrite process_message_unfold.
  destruct (_understand_intent env m) as [intent | e]; [| discriminate].
  destruct (branch_of env intent m sid (entered m sid w)) as [[response | e] w3];
    [| discriminate].
  destruct (sessions (answered response sid w3) !! sid) as [s4 |] eqn:Hs4; [| discriminate].
  intros H. inversion H; subst r w'. exists s4. auto.
Qed.

Lemma checked_offer_readable (env : Env) :
  (forall n, clock_in_years env n) ->
  forall info w w' slots,
    _check_availability env info w = (Ret slots, w') -> Forall readable slots.
Proof.
  intros Hclock info w w' slots H.
  destruct (check_availability_offers env info w w' slots H) as (k & cal & Hk & -> & Hcal).
  apply Forall_map. eapply Forall_impl; [exact Hcal |].
  intros cs Hwithin. cbn beta.
  destruct (within_in_years _ k cs (Hclock (tick w)) Hk Hwithin) as [Hs He].
  exists (slot_start cs), (slot_end cs). now apply offered_reads_as.
Qed.

(** X18. Every slot a reply offers can be booked.  In a store whose
    offers can be read (the empty store is one), a call of
    [process_message] leaves every offer readable, whether it returns or
    raises; and when it returns, [confirm_booking] at the index of any
    slot of the reply succeeds, provided the type of the meeting is a
    text: it creates one event, from the start to the end written in
    the slot, and leaves the offers readable. *)
Theorem X_offered_slot_can_be_confirmed (env : Env) (m sid : string) (w w1 : World)
    (r : exc ChatResponse) :
  (forall n, clock_in_years env n) ->
  offers_readable w ->
  process_message env m sid w = (r, w1) ->
  offers_readable w1
  /\ forall reply i slot mt,
       r = Ret reply ->
       r_available_slots reply !! i = Some slot ->
       as_str (get_default "type" (JStr "Meeting") (r_extracted_info reply)) = Ret mt ->
       exists b w2 t1 t2,
         confirm_booking env sid (Z.of_nat i) w1 = (Ret b, w2)
         /\ b_success b = true
         /\ reads_as slot t1 t2
         /\ created w2 = (created w1 ++ [booking_call mt t1 t2])%list
         /\ offers_readable w2.
Proof.
  intros Hclock Hw Hrun.
  assert (Hw1 : offers_readable w1).
  { exact (kept_process_message env (Forall readable) (Forall_nil_2 _)
             (checked_offer_readable env Hclock) m sid w w1 r Hrun Hw). }
  split; [exact Hw1 |].
  intros reply i slot mt -> Hslot Hmt.
  destruct (reply_shows_session env m sid w w1 reply Hrun) as (s1 & Hs1 & Hoffer & Hinfo).
  rewrite Hoffer in Hslot. rewrite Hinfo in Hmt.
  pose proof (Hw1 sid s1 Hs1) as Hall.
  rewrite Forall_forall in Hall.
  destruct (Hall slot (list_elem_of_lookup_2 _ _ _ Hslot)) as (t1 & t2 & Ht1 & Ht2).
  destruct (confirm_booking_success env sid i w1 s1 slot t1 t2 mt Hs1 Hslot Ht1 Ht2 Hmt)
    as (b & w2 & Hconfirm & Hsucc & Hcreated & _).
  exists b, w2, t1, t2. split; [exact Hconfirm |]. split; [exact Hsucc |].
  split; [split; assumption |]. split; [exact Hcreated |].
  exact (kept_confirm_booking env (Forall readable) sid _ w1 w2 _ Hconfirm Hw1).
Qed.

Lemma X_offered_slot_can_be_confirmed_witness :
  exists reply w1 slot b w2 t1 t2,
    process_message frozen_env free_message "s1" empty_world = (Ret reply, w1)
    /\ r_available_slots reply !! 0%nat = Some slot
    /\ confirm_booking frozen_env "s1" 0 w1 = (Ret b, w2)
    /\ b_success b = true
    /\ reads_as slot t1 t2
    /\ created w2 = (created w1 ++ [booking_call "meeting" t1 t2])%list
    /\ offers_readable w2.
Proof.
  destruct (process_message frozen_env free_message "s1" empty_world)
    as [[reply | e] w1] eqn:Hrun; [| vm_compute in Hrun; discriminate].
  assert (Hclock : forall n, clock_in_years frozen_env n).
  { intros n. unfold clock_in_years.
    split; [apply Z.leb_le | apply Z.ltb_lt]; vm_compute; reflexivity. }
  assert (Hempty : offers_readable empty_world).
  { intros sid s Hs. cbn in Hs. rewrite lookup_empty in Hs. discriminate. }
  destruct (X_offered_slot_can_be_confirmed frozen_env free_message "s1" empty_world w1
              (Ret reply) Hclock Hempty Hrun) as [_ Hconfirm].
  destruct (r_available_slots reply !! 0%nat) as [slot |] eqn:Hslot.
  2:{ exfalso. vm_compute in Hrun. inversion Hrun; subst reply. discriminate. }
  destruct (Hconfirm reply 0%nat slot "meeting" eq_refl Hslot)
    as (b & w2 & t1 & t2 & H1 & H2 & H3 & H4 & H5).
  { vm_compute in Hrun. inversion Hrun; subst reply. reflexivity. }
  exists reply, w1, slot, b, w2, t1, t2. auto 10.
Defined.

End OfferInvariantExtras.

(** ** The endpoints *)

Module ApiExtras.
Import PyStr PyStrFacts DateTime Json Spec Behaviour.
Import GoogleCalendarService CalendarBookingAgent Examples.
Import ServiceFacts AgentFacts FailureFacts ProcessFacts TotalityFacts ConfirmExtras.

Section Facts.
Variable env : Env.

(** A booking branch that raises has created no event. *)
Lemma book_branch_raise (m sid : string) (w w' : World) (e : exn) :
  book_branch env m sid w = (Raise e, w') -> created w' = created w.
Proof.
  unfold book_branch. intros H.
  apply bind_inv in H as [(extracted & w1 & H1 & H) | (e1 & H1 & _)].
  2:{ apply lift_inv in H1 as [_ ->]. reflexivity. }
  apply lift_inv in H1 as [_ ->].
  apply bind_inv in H as [(info & w1 & H1 & H) | (e1 & H1 & _)].
  2:{ apply lift_inv in H1 as [_ ->]. reflexivity. }
  apply lift_inv in H1 as [_ ->].
  destruct (truthy _); [| apply ret_inv in H as [? _]; discriminate].
  apply bind_inv in H as [(direct & w1 & H1 & H) | (e1 & H1 & _)].
  2:{ apply direct_book_spec in H1 as (_ & b & Hb & _). discriminate. }
  apply direct_book_spec in H1 as (_ & b & Hb & Hcases). injection Hb as ->.
  destruct Hcases as [(Hfail & Hc1) | (Hsucc & _)].
  - rewrite Hfail in H.
    apply bind_inv in H as [(slots & w2 & H2 & H) | (e2 & H2 & _)].
    2:{ apply check_availability_spec in H2 as [(_ & Hc & _) _]. congruence. }
    apply bind_inv in H as [([] & w3 & H3 & H) | (e3 & H3 & _)].
    2:{ apply update_session_spec in H3 as (? & _). discriminate. }
    apply bind_inv in H as [([] & w4 & H4 & H) | (e4 & H4 & _)].
    2:{ apply update_session_spec in H4 as (? & _). discriminate. }
    apply ret_inv in H as [? _]. discriminate.
  - rewrite Hsucc in H.
    apply bind_inv in H as [([] & w2 & H2 & H) | (e2 & H2 & _)].
    2:{ apply update_session_spec in H2 as (? & _). discriminate. }
    apply bind_inv in H as [([] & w3 & H3 & H) | (e3 & H3 & _)].
    2:{ apply update_session_spec in H3 as (? & _). discriminate. }
    apply ret_inv in H as [? _]. discriminate.
Qed.

Lemma branch_of_raise (intent m sid : string) (w w' : World) (e : exn) :
  branch_of env intent m sid w = (Raise e, w') -> created w' = created w.
Proof.
  destruct (contains "book_appointment" intent) eqn:Hintent.
  - unfold branch_of. rewrite Hintent. apply book_branch_raise.
  - now apply branch_of_creates_nothing.
Qed.

(** A call of [process_message] that raises has created no event and
    has stored the message of the user, without an answer. *)
Lemma process_message_raise (m sid : string) (w w' : World) (e : exn) :
  process_message env m sid w = (Raise e, w') ->
  created w' = created w
  /\ exists s', sessions w' !! sid = Some s'
                /\ messages s' = (messages_of w sid ++ [user_says m])%list.
Proof.
  rewrite process_message_unfold.
  assert (Hentered : exists s1, sessions (entered m sid w) !! sid = Some s1
                                /\ messages s1 = (messages_of w sid ++ [user_says m])%list).
  { rewrite entered_session. eexists. split; [reflexivity |].
    unfold messages_of. cbn [messages append_message].
    destruct (sessions w !! sid); reflexivity. }
  destruct Hentered as (s1 & Hs1 & Hm1).
  destruct (_understand_intent env m) as [intent | e0].
  2:{ intros H. inversion H; subst. split; [apply entered_frame | eauto]. }
  destruct (branch_of env intent m sid (entered m sid w)) as [[response | e0] w3] eqn:Hbranch.
  - pose proof (branch_of_step env _ _ _ _ _ _ Hbranch) as Hstep.
    destruct (sessions (answered response sid w3) !! sid) as [s4 |] eqn:Hs4; [discriminate |].
    exfalso.
    assert (Hsome : is_Some (sessions (answered response sid w3) !! sid)).
    { apply answered_is_Some. apply (store_step_is_Some _ _ _ Hstep). eauto. }
    rewrite Hs4 in Hsome. destruct Hsome as [? ?]. discriminate.
  - intros H. inversion H; subst e0 w'. clear H. split.
    + rewrite (branch_of_raise _ _ _ _ _ _ Hbranch). apply entered_frame.
    + pose proof (branch_of_step env _ _ _ _ _ _ Hbranch sid) as Hsid.
      rewrite Hs1 in Hsid.
      destruct (sessions w3 !! sid) as [s3 |]; [| contradiction].
      destruct Hsid as [Hmsg _]. exists s3. split; [reflexivity | congruence].
Qed.

(** A confirmation whose session holds the slot raises only when a
    text of the slot cannot be read or the type of the meeting is not a
    text, and then it leaves the world as it was. *)
Lemma confirm_booking_raise (sid : string) (i : nat) (w : World) (s : Session)
    (slot : Slot) :
  sessions w !! sid = Some s ->
  available_slots s !! i = Some slot ->
  ~ (readable slot
     /\ exists mt, as_str (get_default "type" (JStr "Meeting") (extracted_info s)) = Ret mt) ->
  exists e, confirm_booking env sid (Z.of_nat i) w = (Raise e, w).
Proof.
  intros Hs Hslot Hnot. unfold confirm_booking. rewrite Hs.
  pose proof (lookup_lt_Some _ _ _ Hslot) as Hlt.
  replace (0 <=? Z.of_nat i) with true by (symmetry; apply Z.leb_le; lia).
  replace (Z.of_nat i <? Z.of_nat (length (available_slots s))) with true
    by (symmetry; apply Z.ltb_lt; lia).
  cbn [andb]. rewrite Nat2Z.id, Hslot.
  erewrite bind_ret; [| reflexivity].
  destruct (fromisoformat (replace_Z (start_time slot))) as [t1 | e1] eqn:Ht1.
  2:{ exists e1. erewrite bind_raise; reflexivity. }
  erewrite bind_ret; [| reflexivity].
  destruct (fromisoformat (replace_Z (end_time slot))) as [t2 | e2] eqn:Ht2.
  2:{ exists e2. erewrite bind_raise; reflexivity. }
  erewrite bind_ret; [| reflexivity].
  destruct (as_str (get_default "type" (JStr "Meeting") (extracted_info s)))
    as [mt | e3] eqn:Hmt.
  { exfalso. apply Hnot. split; [exists t1, t2; split; assumption | eauto]. }
  exists e3. erewrite bind_raise; reflexivity.
Qed.

End Facts.

(** X19. A request to [/chat] that is answered with an HTTP error is
    answered with status 500; it has created no calendar event, and it
    has stored the message of the user in the session, without an
    answer of the assistant.  It cannot happen when no model is
    available. *)
Theorem X_chat_error_keeps_the_message (env : Env) (request : Api.ChatMessage)
    (w w' : World) (status : Z) :
  Api.chat env request w = (Api.HTTPException status, w') ->
  status = 500
  /\ llm_available env = true
  /\ created w' = created w
  /\ exists s',
       sessions w' !! Api.cm_session_id request = Some s'
       /\ messages s'
          = (messages_of w (Api.cm_session_id request)
             ++ [user_says (Api.cm_message request)])%list.
Proof.
  unfold Api.chat, Api.guarded.
  destruct (process_message env (Api.cm_message request) (Api.cm_session_id request) w)
    as [[reply | e] w1] eqn:Hrun; [discriminate |].
  intros H. inversion H; subst status w1. clear H.
  split; [reflexivity |]. split.
  - destruct (llm_available env) eqn:Hllm; [reflexivity | exfalso].
    destruct (process_message_offline_returns env (Api.cm_message request)
                (Api.cm_session_id request) w Hllm) as (r & w2 & Hret).
    rewrite Hret in Hrun. discriminate.
  - exact (process_message_raise env _ _ _ _ _ Hrun).
Qed.

Lemma X_chat_error_keeps_the_message_witness :
  exists w' s',
    Api.chat null_day_env (Api.chat_message "book it" None) empty_world
    = (Api.HTTPException 500, w')
    /\ created w' = []
    /\ sessions w' !! "default" = Some s'
    /\ messages s' = [user_says "book it"].
Proof.
  destruct (Api.chat null_day_env (Api.chat_message "book it" None) empty_world)
    as [[reply | status] w'] eqn:Hrun; [vm_compute in Hrun; discriminate |].
  destruct (X_chat_error_keeps_the_message null_day_env _ _ _ _ Hrun)
    as (-> & _ & Hcreated & s' & Hs' & Hmsg).
  exists w', s'. split; [reflexivity |]. split; [exact Hcreated |].
  split; [exact Hs' | exact Hmsg].
Defined.

(** X20. For a slot the session holds, [/confirm-booking] answers 200
    with a successful booking when the two texts of the slot can be read
    and the type of the meeting is a text, and otherwise it answers 500
    and leaves the world as it was: no event, no confirmation. *)
Theorem X_confirm_endpoint_status (env : Env) (sid : string) (i : nat) (w : World)
    (s : Session) (slot : Slot) :
  sessions w !! sid = Some s ->
  available_slots s !! i = Some slot ->
  (readable slot
   /\ (exists mt, as_str (get_default "type" (JStr "Meeting") (extracted_info s)) = Ret mt) ->
   exists b w',
     Api.confirm_booking env
       {| Api.bc_session_id := sid; Api.bc_slot_index := Z.of_nat i |} w = (Api.Ok b, w')
     /\ b_success b = true
     /\ length (created w') = S (length (created w)))
  /\ (~ (readable slot
         /\ exists mt,
              as_str (get_default "type" (JStr "Meeting") (extracted_info s)) = Ret mt) ->
      Api.confirm_booking env
        {| Api.bc_session_id := sid; Api.bc_slot_index := Z.of_nat i |} w
      = (Api.HTTPException 500, w)).
Proof.
  intros Hs Hslot. unfold Api.confirm_booking, Api.guarded.
  cbn [Api.bc_session_id Api.bc_slot_index]. split.
  - intros [(t1 & t2 & Ht1 & Ht2) (mt & Hmt)].
    destruct (confirm_booking_success env sid i w s slot t1 t2 mt Hs Hslot Ht1 Ht2 Hmt)
      as (b & w' & Hrun & Hsucc & Hcreated & _).
    exists b, w'. rewrite Hrun. split; [reflexivity |]. split; [exact Hsucc |].
    rewrite Hcreated, length_app. cbn [length]. lia.
  - intros Hnot.
    destruct (confirm_booking_raise env sid i w s slot Hs Hslot Hnot) as (e & ->).
    reflexivity.
Qed.

Lemma X_confirm_endpoint_status_witness :
  Api.confirm_booking online_env
    {| Api.bc_session_id := "s1"; Api.bc_slot_index := 0 |} numeric_type_world
  = (Api.HTTPException 500, numeric_type_world)
  /\ exists b w',
       Api.confirm_booking online_env
         {| Api.bc_session_id := "s1"; Api.bc_slot_index := 0 |} late_world = (Api.Ok b, w')
       /\ b_success b = true
       /\ length (created w') = 1%nat.
Proof.
  split.
  - apply (X_confirm_endpoint_status online_env "s1" 0 numeric_type_world
             (set_extracted_info
                [("has_time_info", JBool true); ("day", JStr "today"); ("type", JNum 2)]
                offered_session) morning_slot); [reflexivity | reflexivity |].
    intros [_ (mt & Hmt)]. discriminate.
  - apply (X_confirm_endpoint_status online_env "s1" 0 late_world offered_session
             morning_slot); [reflexivity | reflexivity |].
    split; [| exists "call"; reflexivity].
    exists (ymd2ord 2024 2 29 * us_day + 9 * us_hour),
           (ymd2ord 2024 2 29 * us_day + 10 * us_hour).
    split; reflexivity.
Defined.

End ApiExtras.

(** ** Stripping *)

Module StripFacts.
Import PyStr PyStrFacts Behaviour DigitFacts.

Lemma rev_string_app (a b : string) :
  rev_string (a +:+ b) "" = rev_string b "" +:+ rev_string a "".
Proof.
  induction a as [| c a IH]; push_append.
  - cbn [rev_string]. now rewrite append_nil_r.
  - cbn [rev_string]. rewrite (rev_string_acc (a +:+ b)), (rev_string_acc a), IH.
    now rewrite append_assoc.
Qed.

Lemma rev_string_involutive (s : string) : rev_string (rev_string s "") "" = s.
Proof.
  induction s as [| c s IH]; [reflexivity |].
  cbn [rev_string]. rewrite (rev_string_acc s (String c "")), rev_string_app, IH.
  reflexivity.
Qed.

Lemma length_rev_string (s : string) :
  String.length (rev_string s "") = String.length s.
Proof.
  induction s as [| c s IH]; [reflexivity |].
  cbn [rev_string]. rewrite (rev_string_acc s (String c "")), length_app, IH. simpl. lia.
Qed.

Lemma endswith_app (a p : string) : endswith p (a +:+ p) = true.
Proof. unfold endswith. rewrite rev_string_app. apply startswith_app. Qed.

Lemma drop_front_app (p r : string) : drop_front (String.length p) (p +:+ r) = r.
Proof. induction p as [| c p IH]; push_append; [reflexivity | exact IH]. Qed.

Lemma drop_back_app (a p : string) : drop_back (String.length p) (a +:+ p) = a.
Proof.
  unfold drop_back. rewrite rev_string_app, <- (length_rev_string p), drop_front_app.
  apply rev_string_involutive.
Qed.

Lemma drop_front_suffix (n : nat) : forall s, exists t, s = t +:+ drop_front n s.
Proof.
  induction n as [| n IH]; intros s; [now exists "" |].
  destruct s as [| c s]; [now exists "" |].
  destruct (IH s) as [t Ht]. exists (String c t). cbn [drop_front]. push_append.
  now rewrite <- Ht.
Qed.

Lemma drop_back_prefix (n : nat) (s : string) : exists t, s = drop_back n s +:+ t.
Proof.
  unfold drop_back. destruct (drop_front_suffix n (rev_string s "")) as [t Ht].
  exists (rev_string t "").
  rewrite <- rev_string_app, <- Ht. symmetry. apply rev_string_involutive.
Qed.

Lemma lstrip_suffix (s : string) : exists t, s = t +:+ lstrip s.
Proof.
  induction s as [| c s [t Ht]]; [now exists "" |].
  cbn [lstrip]. destruct (is_space c); [| now exists ""].
  exists (String c t). push_append. now rewrite <- Ht.
Qed.

Lemma rstrip_prefix (s : string) : exists t, s = rstrip s +:+ t.
Proof.
  unfold rstrip. destruct (lstrip_suffix (rev_string s "")) as [t Ht].
  exists (rev_string t "").
  rewrite <- rev_string_app, <- Ht. symmetry. apply rev_string_involutive.
Qed.

Lemma lstrip_snoc (c : ascii) (x : string) :
  is_space c = false -> exists y, lstrip (x +:+ String c "") = y +:+ String c "".
Proof.
  intros Hc. induction x as [| d x [y Hy]]; push_append.
  - exists "". cbn [lstrip]. now rewrite Hc.
  - cbn [lstrip]. destruct (is_space d); [now exists y |].
    exists (String d x). now push_append.
Qed.

(** [rstrip] keeps a first character that is not a space. *)
Lemma rstrip_head (c : ascii) (s : string) :
  is_space c = false -> exists u, rstrip (String c s) = String c u.
Proof.
  intros Hc. unfold rstrip. cbn [rev_string]. rewrite (rev_string_acc s (String c "")).
  destruct (lstrip_snoc c (rev_string s "") Hc) as [y ->].
  rewrite rev_string_app. now exists (rev_string y "").
Qed.

(** [rstrip] keeps a text that ends with a character that is not a space. *)
Lemma rstrip_snoc (c : ascii) (s : string) :
  is_space c = false -> rstrip (s +:+ String c "") = s +:+ String c "".
Proof.
  intros Hc. unfold rstrip. rewrite rev_string_app. cbn [rev_string]. push_append.
  cbn [lstrip]. rewrite Hc.
  change (String c (rev_string s "")) with (String c "" +:+ rev_string s "").
  rewrite rev_string_app, rev_string_involutive. reflexivity.
Qed.

Lemma startswith_prefix (p s t : string) :
  startswith p s = true -> startswith p (s +:+ t) = true.
Proof.
  intros H. apply startswith_inv in H as [r ->].
  rewrite append_assoc. apply startswith_app.
Qed.

Lemma backtick_prefix (s p t : string) :
  backtick_or_empty s -> s = p +:+ t -> backtick_or_empty p.
Proof.
  intros Hs Heq. destruct p as [| c p]; [now left |].
  right. destruct Hs as [-> | [u ->]]; [discriminate |].
  rewrite append_cons in Heq. injection Heq as <- _. now exists p.
Qed.

Lemma backtick_strip (s : string) :
  backtick_or_empty s -> backtick_or_empty (strip s) /\ exists t, s = strip s +:+ t.
Proof.
  intros Hs. unfold strip.
  assert (Hl : lstrip s = s) by (destruct Hs as [-> | [u ->]]; reflexivity).
  rewrite Hl. destruct (rstrip_prefix s) as [t Ht].
  split; [exact (backtick_prefix s _ t Hs Ht) | now exists t].
Qed.

Lemma backtick_drop_back (n : nat) (s : string) :
  backtick_or_empty s -> backtick_or_empty (drop_back n s).
Proof.
  intros Hs. destruct (drop_back_prefix n s) as [t Ht].
  exact (backtick_prefix s _ t Hs Ht).
Qed.

End StripFacts.

(** ** Fenced answers of the model *)

Module FenceExtras.
Import PyStr PyStrFacts DateTime Json Spec Behaviour.
Import GoogleCalendarService CalendarBookingAgent Examples StripFacts.

Lemma lstrip_fence (r : string) : lstrip ("```json" +:+ r) = "```json" +:+ r.
Proof. reflexivity. Qed.

(** The clean-up takes a fence [```json ... ```] away and strips what is
    inside. *)
Lemma clean_response_fenced (body : string) :
  strip ("```json" +:+ body +:+ "```") = "```json" +:+ body +:+ "```"
  /\ clean_response ("```json" +:+ body +:+ "```") = strip body.
Proof.
  assert (Hstrip : strip ("```json" +:+ body +:+ "```") = "```json" +:+ body +:+ "```").
  { assert (Hsplit : "```json" +:+ body +:+ "```"
                     = ("```json" +:+ body +:+ "``") +:+ String "`" "").
    { rewrite !append_assoc. reflexivity. }
    unfold strip. rewrite lstrip_fence, Hsplit. now apply rstrip_snoc. }
  split; [exact Hstrip |].
  unfold clean_response. rewrite Hstrip, startswith_app.
  change 7%nat with (String.length "```json"). rewrite drop_front_app.
  rewrite endswith_app.
  change 3%nat with (String.length "```"). rewrite drop_back_app. reflexivity.
Qed.

Lemma loads_backtick (s : string) : backtick_or_empty s -> loads s = Raise JSONDecodeError.
Proof. intros [-> | [u ->]]; reflexivity. Qed.

(** A text that opens with a backtick, but not with the fence of JSON,
    is not JSON after the clean-up either. *)
Lemma clean_response_backtick (s : string) :
  backtick_or_empty s ->
  startswith "```json" s = false ->
  backtick_or_empty (clean_response s).
Proof.
  intros Hs Hfence. unfold clean_response.
  destruct (backtick_strip s Hs) as [H1 [t Ht]].
  assert (Hnot : startswith "```json" (strip s) = false).
  { destruct (startswith "```json" (strip s)) eqn:Hstart; [| reflexivity].
    apply (startswith_prefix _ _ t) in Hstart. rewrite <- Ht in Hstart. congruence. }
  rewrite Hnot.
  destruct (endswith "```" (strip s)).
  - apply backtick_strip. now apply backtick_drop_back.
  - now apply backtick_strip.
Qed.

Lemma call_llm_answer (env : Env) (prompt answer : string) :
  llm_available env = true ->
  generate_content env prompt = Ret answer ->
  _call_llm env prompt = Ret (strip answer).
Proof. intros Hllm Hanswer. unfold _call_llm. rewrite Hllm, Hanswer. reflexivity. Qed.

(** X21. An answer of the model in a fence [```json ... ```] is read as
    the JSON inside the fence: [_extract_details] returns what
    [json.loads] makes of the stripped inside, and the regular-expression
    extraction when that is not JSON. *)
Theorem X_json_fence_is_removed (env : Env) (m body : string) :
  llm_available env = true ->
  generate_content env (extract_prompt m) = Ret ("```json" +:+ body +:+ "```") ->
  _extract_details env m
  = Ret (match loads (strip body) with
         | Ret v => v
         | Raise _ => JObject (_regex_extract m)
         end).
Proof.
  intros Hllm Hanswer. unfold _extract_details.
  rewrite (call_llm_answer env _ _ Hllm Hanswer).
  destruct (clean_response_fenced body) as [-> Hclean].
  cbn [exc_bind]. rewrite Hclean.
  destruct (loads (strip body)); reflexivity.
Qed.

Lemma X_json_fence_is_removed_witness :
  _extract_details (fenced_env "json") call_message
  = Ret (JObject [("has_time_info", JBool true); ("day", JStr "friday")]).
Proof.
  exact (X_json_fence_is_removed (fenced_env "json") call_message
           (nl +:+ details_json +:+ nl) eq_refl eq_refl).
Defined.

(** X22. An answer of the model that opens with a fence of another
    kind, [```] alone or with another language, is never read as JSON,
    whatever it holds: the details are those of the regular-expression
    extraction. *)
Theorem X_other_fence_is_not_parsed (env : Env) (m rest : string) :
  llm_available env = true ->
  generate_content env (extract_prompt m) = Ret ("```" +:+ rest) ->
  startswith "json" rest = false ->
  _extract_details env m = Ret (JObject (_regex_extract m)).
Proof.
  intros Hllm Hanswer Hrest. unfold _extract_details.
  rewrite (call_llm_answer env _ _ Hllm Hanswer). cbn [exc_bind].
  assert (Hopen : backtick_or_empty ("```" +:+ rest)) by (right; eexists; reflexivity).
  destruct (backtick_strip _ Hopen) as [Hstripped [t Ht]].
  assert (Hnot : startswith "```json" (strip ("```" +:+ rest)) = false).
  { destruct (startswith "```json" (strip ("```" +:+ rest))) eqn:Hstart; [| reflexivity].
    apply (startswith_prefix _ _ t) in Hstart. rewrite <- Ht in Hstart.
    change (startswith "```json" ("```" +:+ rest)) with (startswith "json" rest) in Hstart.
    congruence. }
  rewrite (loads_backtick _ (clean_response_backtick _ Hstripped Hnot)).
  reflexivity.
Qed.

Lemma X_other_fence_is_not_parsed_witness :
  _extract_details (fenced_env "") call_message
  = Ret (JObject (_regex_extract call_message)).
Proof.
  exact (X_other_fence_is_not_parsed (fenced_env "") call_message
           (nl +:+ details_json +:+ nl +:+ "```") eq_refl eq_refl eq_refl).
Defined.

End FenceExtras.

(** ** Conversation without a model *)

Module ConversationExtras.
Import PyStr PyStrFacts DateTime Json Spec Behaviour Re.
Import GoogleCalendarService CalendarBookingAgent Examples.
Import FallbackFacts FailureFacts FallbackExtras.

Lemma lower_sep (a b : string) :
  lower (a +:+ String dq_char b) = lower a +:+ String dq_char (lower b).
Proof. rewrite lower_app. reflexivity. Qed.

(** A lower-case needle without a double quote occurs in the
    lower-cased prompt when it occurs in one of its three parts. *)
Lemma contains_prompt (n h m t : string) :
  has_char dq_char n = false ->
  contains n (lower (h +:+ String dq_char (m +:+ String dq_char t)))
  = contains n (lower h) || contains n (lower m) || contains n (lower t).
Proof.
  intros Hn. rewrite lower_sep, lower_sep, !contains_sep by exact Hn.
  now rewrite orb_assoc.
Qed.

Lemma fallback_conversation_any (h m t : string) :
  has_char dq_char h = false ->
  contains "intent" (lower h) = false ->
  contains "intent" (lower m) = false ->
  contains "intent" (lower t) = false ->
  contains "extract booking information" (lower h) = false ->
  contains "extract booking information" (lower m) = false ->
  contains "extract booking information" (lower t) = false ->
  contains "calendar booking assistant" (lower h) = true ->
  _get_fallback_response (h +:+ String dq_char (m +:+ String dq_char t))
  = keyword_reply (lower (before dq_char m)).
Proof.
  intros Hh Hi1 Hi2 Hi3 He1 He2 He3 Hc. unfold _get_fallback_response.
  rewrite !contains_prompt by reflexivity.
  rewrite Hi1, Hi2, Hi3, He1, He2, He3, Hc. cbn [orb andb].
  change dq with (String dq_char "").
  rewrite contains_char, has_char_sep.
  unfold quoted_user_msg. rewrite (split_second_before _ _ _ Hh), before_app_sep.
  reflexivity.
Qed.

Lemma keyword_reply_kept (user_msg : string) :
  let response := strip (keyword_reply user_msg) in
  response = keyword_reply user_msg
  /\ String.eqb response "" || (String.length response <? 10)%nat = false.
Proof.
  unfold keyword_reply.
  destruct (any_in _ _); [split; reflexivity |].
  destruct (any_in _ _); split; reflexivity.
Qed.

(** X23. When the model is unavailable or raises, and the message does
    not choose a slot, the conversation is answered by keywords found
    anywhere in the lower-cased text before the first double quote of
    the message: the greeting for a text that holds [hi], [hello] or
    [hey], even within a word, else the help text for [help], [what] or
    [how], else the invitation to book. *)
Theorem X_degraded_conversation_reply (env : Env) (m : string) (s : Session) :
  degraded env (conversation_prompt m) ->
  available_slots s = [] \/ search slot_test_pattern m = None ->
  contains "intent" (lower m) = false ->
  contains "extract booking information" (lower m) = false ->
  _handle_conversation env m s = Ret (keyword_reply (lower (before dq_char m)))
  /\ (contains "hi" (lower (before dq_char m)) = true ->
      _handle_conversation env m s
      = Ret "Hi! I'm your calendar assistant. What would you like to schedule today?").
Proof.
  intros Hdeg Hfree Hintent Hextract.
  assert (Hreply : _handle_conversation env m s
                   = Ret (keyword_reply (lower (before dq_char m)))).
  { unfold _handle_conversation.
    assert (Hguard : negb (Nat.eqb (length (available_slots s)) 0)
                     && bool_decide (is_Some (search slot_test_pattern m)) = false).
    { destruct Hfree as [-> | ->]; [reflexivity |].
      apply andb_false_iff. right. apply bool_decide_eq_false. intros [x Hx]. discriminate. }
    rewrite Hguard, (call_llm_degrades env _ Hdeg). cbn [exc_bind].
    rewrite conversation_prompt_shape.
    rewrite fallback_conversation_any by (try assumption; vm_compute; reflexivity).
    destruct (keyword_reply_kept (lower (before dq_char m))) as [Hsame Hlong].
    cbv zeta in Hsame, Hlong |- *. rewrite Hsame in Hlong |- *. rewrite Hlong.
    reflexivity. }
  split; [exact Hreply |].
  intros Hhi. rewrite Hreply. unfold keyword_reply.
  replace (any_in ["hi"; "hello"; "hey"] (lower (before dq_char m))) with true;
    [reflexivity |].
  symmetry. cbn [any_in existsb]. now rewrite Hhi.
Qed.

Lemma X_degraded_conversation_reply_witness :
  _handle_conversation offline_env "Nothing else, thanks" offered_session
  = Ret "Hi! I'm your calendar assistant. What would you like to schedule today?".
Proof.
  apply (X_degraded_conversation_reply offline_env "Nothing else, thanks" offered_session);
    [left; reflexivity | right; reflexivity | reflexivity | reflexivity | reflexivity].
Defined.

End ConversationExtras.

(** ** A call of [process_message] that raises *)

Module RaisingCallFacts.
Import PyStr PyStrFacts DateTime Json Spec Behaviour.
Import GoogleCalendarService CalendarBookingAgent Examples.
Import ServiceFacts AgentFacts FailureFacts ProcessFacts TotalityFacts.
Import SessionExtras ApiExtras.

(** Whether it returns or raises, a call of [process_message] leaves an
    entry for its session, whose messages are the former ones followed
    by the message of the user, and by the answer when there is one. *)
Lemma process_message_messages (env : Env) (m sid : string) (w w' : World)
    (r : exc ChatResponse) :
  process_message env m sid w = (r, w') ->
  exists s',
    sessions w' !! sid = Some s'
    /\ messages s'
       = (messages_of w sid
          ++ user_says m :: match r with
                            | Ret reply => [assistant_says (r_response reply)]
                            | Raise _ => []
                            end)%list.
Proof.
  destruct r as [reply | e]; intros Hrun.
  - exact (proj1 (returning_call_extends_messages env m sid w w' reply Hrun)).
  - exact (proj2 (process_message_raise env m sid w w' e Hrun)).
Qed.

(** No call of [process_message] takes a session out of the store. *)
Lemma process_message_keeps_sessions (env : Env) (m sid sid' : string) (w w' : World)
    (r : exc ChatResponse) :
  process_message env m sid w = (r, w') ->
  is_Some (sessions w !! sid') -> is_Some (sessions w' !! sid').
Proof.
  intros Hrun Hsome. destruct (decide (sid' = sid)) as [-> | Hne].
  - destruct (process_message_messages env m sid w w' r Hrun) as (s' & Hs' & _). eauto.
  - now rewrite (process_message_only env m sid w w' r Hrun sid' Hne).
Qed.

(** C9. A call of [process_message] can raise, and then the session
    holds the message of the user with no answer after it: one entry
    more, not two.  When the model gives the details of the message
    [book it] with [null] for the day, the direct booking catches the
    error of [_parse_date] and announces the available slots, and
    [_check_availability], which parses the same day outside any
    [try], raises.  In every call, returning or raising, the session
    is in the store afterwards, its messages are the former ones
    followed by the message of the user, then by the returned response
    when the call returns, and no session leaves the store. *)
Theorem C9_raising_call_stores_no_answer :
  (exists d b w1 w2 w' s',
     _extract_details null_day_env "book it" = Ret (JObject d)
     /\ get_default "day" (JStr "tomorrow") d = JNull
     /\ _direct_book_appointment null_day_env d (entered "book it" "s1" empty_world)
        = (Ret b, w1)
     /\ b_success b = false
     /\ b_message b
        = "I had trouble booking that time. Let me show you some available slots instead."
     /\ _check_availability null_day_env d w1 = (Raise AttributeError, w2)
     /\ process_message null_day_env "book it" "s1" empty_world = (Raise AttributeError, w')
     /\ sessions w' !! "s1" = Some s'
     /\ messages s' = [user_says "book it"])
  /\ (forall env m sid w r w',
        process_message env m sid w = (r, w') ->
        (exists s',
           sessions w' !! sid = Some s'
           /\ messages s'
              = (messages_of w sid
                 ++ user_says m :: match r with
                                   | Ret reply => [assistant_says (r_response reply)]
                                   | Raise _ => []
                                   end)%list)
        /\ (forall sid', is_Some (sessions w !! sid') -> is_Some (sessions w' !! sid'))).
Proof.
  split.
  - do 6 eexists.
    split; [vm_compute; reflexivity |].
    split; [reflexivity |].
    split; [vm_compute; reflexivity |].
    split; [reflexivity |]. split; [reflexivity |].
    split; [vm_compute; reflexivity |].
    split; [vm_compute; reflexivity |].
    split; reflexivity.
  - intros env m sid w r w' Hrun. split.
    + exact (process_message_messages env m sid w w' r Hrun).
    + intros sid'. exact (process_message_keeps_sessions env m sid sid' w w' r Hrun).
Qed.

End RaisingCallFacts.
